(** * ooipy: acquisition, gap-aware merge and spectral map-reduce

    A shallow embedding of [OOIHydrophoneData] from
    [ooi_data_processing_library.py].

    Conventions.
    - A [datetime] / [UTCDateTime] is an integer number of microseconds
      since the epoch ([Z]); a [timedelta] is a number of microseconds.
    - A float (sample, power, frequency, sampling rate) is an exact
      rational ([Q]): the arithmetic of the code is kept, its rounding
      error is not modelled.
    - Operations of obspy and scipy (merge, slice, filter, periodogram,
      spline) and the remote listing are not part of the repository;
      they are parameters of the model (Section variables), so every
      theorem holds for whatever they compute. What the code does with
      Python lists and numpy arrays (subscripts, slices, [linspace],
      [insert], [mean], masked arrays) is written out.
    - [compute_spectrogram] is modelled for [avg_time = None], the
      periodogram mode. *)

From Stdlib Require Import String Bool Arith ZArith QArith Qround Lia List
  Sorted.
Import ListNotations.


(* ================================================================= *)
(** ** Python outcomes *)

(** Exceptions that the modelled code can let escape. *)
Inductive exn : Type :=
| AttributeError   (* attribute access on None, or on an ndarray *)
| IndexError       (* subscript out of range *)
| TypeError        (* len(None), None.extend *)
| ValueError       (* Pool(0) *)
| ZeroDivisionError.

(** A call either returns a value or raises. *)
Inductive outcome (A : Type) : Type :=
| Returned (a : A)
| Raised (e : exn).

Arguments Returned {A} a.
Arguments Raised {A} e.

Definition bind {A B : Type} (m : outcome A) (k : A -> outcome B) : outcome B :=
  match m with
  | Returned a => k a
  | Raised e => Raised e
  end.

Notation "x <- m ;; k" := (bind m (fun x => k))
  (at level 61, m at next level, right associativity).

(** [l[i]] for [0 <= i]: IndexError out of range. *)
Definition subscript {A : Type} (l : list A) (i : nat) : outcome A :=
  match nth_error l i with
  | Some a => Returned a
  | None => Raised IndexError
  end.

(** An attribute that exists only once it has been set. *)
Definition attribute {A : Type} (o : option A) : outcome A :=
  match o with
  | Some a => Returned a
  | None => Raised AttributeError
  end.

(** [l[-1]]. *)
Definition subscript_last {A : Type} (l : list A) : outcome A :=
  match l with
  | [] => Raised IndexError
  | _ => subscript l (length l - 1)
  end.

(** [l[i:j]] for [0 <= i <= j]. *)
Definition py_slice {A : Type} (l : list A) (i j : nat) : list A :=
  firstn (j - i) (skipn i l).

(* ================================================================= *)
(** ** Data model *)

(** A numpy array of samples: a plain [ndarray], or a [MaskedArray] whose
    masked positions ([None]) are the gaps left by [Stream.merge]. *)
Inductive ndarray : Type :=
| Plain (xs : list Q)
| Masked (xs : list (option Q)).

Definition len (a : ndarray) : nat :=
  match a with
  | Plain xs => length xs
  | Masked xs => length xs
  end.

(** [a[i:j]]: slicing keeps the kind of the array. *)
Definition nd_slice (a : ndarray) (i j : nat) : ndarray :=
  match a with
  | Plain xs => Plain (py_slice xs i j)
  | Masked xs => Masked (py_slice xs i j)
  end.

(** [isinstance(a, np.ma.core.MaskedArray)]. *)
Definition is_masked (a : ndarray) : bool :=
  match a with
  | Plain _ => false
  | Masked _ => true
  end.

(** obspy [Trace]: the fields the code reads. *)
Record Trace : Type := {
  stats_starttime : Z;
  stats_endtime : Z;
  stats_sampling_rate : Q;
  tr_data : ndarray
}.

(** obspy [Stream]: a list of traces; [st + st'] appends them. *)
Definition Stream : Type := list Trace.

Record Spectrogram : Type := {
  time : list Z;
  freq : list Q;
  values : list (list Q)
}.

(** A file of the raw data server. [suffix] is what
    [url.split('.')[-1]] returns, [utc] the time that [UTCDateTime]
    reads between ['YDH-'] and ['.mseed'] in the file name. For one node
    the name is determined by that time. *)
Record url : Type := {
  suffix : string;
  utc : Z
}.

(** The attributes of [OOIHydrophoneData] used by the modelled methods. *)
Record OOIHydrophoneData : Type := {
  starttime : Z;
  endtime : Z;
  limit_seed_files : bool;
  data_gap_mode : Z;
  data : option Trace;
  data_available : option bool;
  data_gap : bool;
  spectrogram : option Spectrogram;
  _data_segmented : option (list Stream)   (* None: never set *)
}.

Definition set_window (self : OOIHydrophoneData) (s e : Z) : OOIHydrophoneData :=
  {| starttime := s; endtime := e;
     limit_seed_files := limit_seed_files self;
     data_gap_mode := data_gap_mode self;
     data := data self; data_available := data_available self;
     data_gap := data_gap self; spectrogram := spectrogram self;
     _data_segmented := _data_segmented self |}.

Definition set_data (self : OOIHydrophoneData) (d : option Trace)
  : OOIHydrophoneData :=
  {| starttime := starttime self; endtime := endtime self;
     limit_seed_files := limit_seed_files self;
     data_gap_mode := data_gap_mode self;
     data := d; data_available := data_available self;
     data_gap := data_gap self; spectrogram := spectrogram self;
     _data_segmented := _data_segmented self |}.

Definition set_data_available (self : OOIHydrophoneData) (b : bool)
  : OOIHydrophoneData :=
  {| starttime := starttime self; endtime := endtime self;
     limit_seed_files := limit_seed_files self;
     data_gap_mode := data_gap_mode self;
     data := data self; data_available := Some b;
     data_gap := data_gap self; spectrogram := spectrogram self;
     _data_segmented := _data_segmented self |}.

Definition set_data_gap (self : OOIHydrophoneData) (b : bool)
  : OOIHydrophoneData :=
  {| starttime := starttime self; endtime := endtime self;
     limit_seed_files := limit_seed_files self;
     data_gap_mode := data_gap_mode self;
     data := data self; data_available := data_available self;
     data_gap := b; spectrogram := spectrogram self;
     _data_segmented := _data_segmented self |}.

Definition set_spectrogram (self : OOIHydrophoneData) (s : option Spectrogram)
  : OOIHydrophoneData :=
  {| starttime := starttime self; endtime := endtime self;
     limit_seed_files := limit_seed_files self;
     data_gap_mode := data_gap_mode self;
     data := data self; data_available := data_available self;
     data_gap := data_gap self; spectrogram := s;
     _data_segmented := _data_segmented self |}.

Definition set_data_segmented (self : OOIHydrophoneData) (l : list Stream)
  : OOIHydrophoneData :=
  {| starttime := starttime self; endtime := endtime self;
     limit_seed_files := limit_seed_files self;
     data_gap_mode := data_gap_mode self;
     data := data self; data_available := data_available self;
     data_gap := data_gap self; spectrogram := spectrogram self;
     _data_segmented := Some l |}.

(** [OOIHydrophoneData(starttime=s, endtime=e)]: [node] is None, so
    [__init__] sets [data] to None and fetches nothing. *)
Definition new_OOIHydrophoneData (s e : Z) : OOIHydrophoneData :=
  {| starttime := s; endtime := e;
     limit_seed_files := true; data_gap_mode := 0%Z;
     data := None; data_available := None; data_gap := false;
     spectrogram := None; _data_segmented := None |}.

(* ================================================================= *)
(** ** CalibrationCorrector *)

(** [np.linspace(start, stop, N)]: [N] points, step
    [(stop - start) / (N - 1)]. *)
Definition linspace (start stop : Q) (N : nat) : list Q :=
  match N with
  | O => []
  | S O => [start]
  | S n =>
      let step := ((stop - start) / inject_Z (Z.of_nat n))%Q in
      map (fun i => (inject_Z (Z.of_nat i) * step + start)%Q) (seq 0 N)
  end.

Definition f_calib : list Q := [0; 13500; 27100; 40600; 54100]%Q.
Definition sens_calib : list Q :=
  [169; 1694 # 10; 1681 # 10; 1697 # 10; 1715 # 10]%Q.

Section Calibration.

(** [scipy.interpolate.InterpolatedUnivariateSpline(x, y)], as the
    function it returns. *)
Variable InterpolatedUnivariateSpline : list Q -> list Q -> Q -> Q.

Definition _freq_dependent_sensitivity_correct
  (self : OOIHydrophoneData) (N : nat) : list Q :=
  let sens_interpolated := InterpolatedUnivariateSpline f_calib sens_calib in
  let f := linspace 0 32000 N in
  map sens_interpolated f.

End Calibration.

(* ================================================================= *)
(** ** SpectralAnalyzer and ParallelSpectralCoordinator *)

(** [datetime.timedelta(seconds=s)]: a whole number of microseconds,
    rounded to the nearest, ties to even. *)
Definition round_half_even (x : Q) : Z :=
  let n := Qnum x in
  let d := Zpos (Qden x) in
  let q := (n / d)%Z in
  let r := (n mod d)%Z in
  match (2 * r ?= d)%Z with
  | Lt => q
  | Gt => (q + 1)%Z
  | Eq => if Z.even q then q else (q + 1)%Z
  end.

Definition timedelta_seconds (s : Q) : Z :=
  round_half_even (s * 1000000).

(** [(b - a).total_seconds()]. *)
Definition total_seconds (a b : Z) : Q :=
  (inject_Z (b - a) / 1000000)%Q.

Section Spectral.

(** [scipy.signal.periodogram(x, fs=fs, window=win)]: the pair [(f, Pxx)]. *)
Variable periodogram : ndarray -> Q -> string -> list Q * list Q.

(** [10*np.log10(Pxx * np.power(10, sens/10)) - 128.9], element by element. *)
Variable level_dB : list Q -> list Q -> list Q.

Variable InterpolatedUnivariateSpline : list Q -> list Q -> Q -> Q.

(** obspy [Trace.slice(starttime=s, endtime=e)]. *)
Variable Trace_slice : Trace -> Z -> Z -> Trace.

(** [mp.cpu_count()]. *)
Variable cpu_count : nat.

(** The loop [for n in range(nbins - 1)] of the branch
    [avg_time == None]; [None] when a periodogram has not [int(L/2)+1]
    bins, which makes [compute_spectrogram] give up. *)
Fixpoint periodogram_loop (self : OOIHydrophoneData) (tr : Trace)
  (win : string) (L : nat) (ns : list nat)
  (time : list Z) (f : list Q) (specgram : list (list Q))
  : option (list Z * list Q * list (list Q)) :=
  match ns with
  | [] => Some (time, f, specgram)
  | n :: ns' =>
      let fs := stats_sampling_rate tr in
      let '(f', Pxx) :=
        periodogram (nd_slice (tr_data tr) (n * L) ((n + 1) * L)) fs win in
      if negb (length Pxx =? L / 2 + 1)%nat then None
      else
        let Pxx' :=
          level_dB Pxx
            (_freq_dependent_sensitivity_correct InterpolatedUnivariateSpline
               self (L / 2 + 1)) in
        let t :=
          (starttime self
           + timedelta_seconds (inject_Z (Z.of_nat (n * L)) / fs))%Z in
        periodogram_loop self tr win L ns' (time ++ [t]) f' (specgram ++ [Pxx'])
  end.

(** The time stamp and the row of values that the loop appends for
    block [n]. *)
Definition bin_time (self : OOIHydrophoneData) (tr : Trace) (L n : nat) : Z :=
  (starttime self
   + timedelta_seconds
       (inject_Z (Z.of_nat (n * L)) / stats_sampling_rate tr))%Z.

Definition bin_values (self : OOIHydrophoneData) (tr : Trace)
  (win : string) (L n : nat) : list Q :=
  level_dB
    (snd (periodogram (nd_slice (tr_data tr) (n * L) ((n + 1) * L))
            (stats_sampling_rate tr) win))
    (_freq_dependent_sensitivity_correct InterpolatedUnivariateSpline
       self (L / 2 + 1)).

(** scipy's law: a periodogram of [L] samples has [L/2 + 1] bins. *)
Definition periodogram_bins (L : nat) : Prop :=
  forall x fs win,
    len x = L -> length (snd (periodogram x fs win)) = (L / 2 + 1)%nat.

(** [compute_spectrogram(win, L, avg_time=None)]: one modified
    periodogram per time step. Returns [self]. *)
Definition compute_spectrogram (self : OOIHydrophoneData) (win : string)
  (L : nat) : outcome OOIHydrophoneData :=
  match data self with
  | None => Returned (set_spectrogram self None)
  | Some tr =>
      if (L =? 0)%nat then Raised ZeroDivisionError
      else
        let nbins := (len (tr_data tr) / L)%nat in
        match periodogram_loop self tr win L (seq 0 (nbins - 1)) [] [] [] with
        | None => Returned (set_spectrogram self None)
        | Some (time, f, specgram) =>
            if (length time =? 0)%nat
            then Returned (set_spectrogram self None)
            else Returned (set_spectrogram self
                             (Some {| time := time; freq := f;
                                      values := specgram |}))
        end
  end.

Definition _spectrogram_mp_helper (ooi_hyd_data_obj : OOIHydrophoneData)
  (win : string) (L : nat) : outcome (option Spectrogram) :=
  obj <- compute_spectrogram ooi_hyd_data_obj win L ;;
  Returned (spectrogram obj).

(** [p.starmap(f, l)]: the results in the order of [l]; the first
    exception of a task is raised again. *)
Fixpoint starmap {A B : Type} (f : A -> outcome B) (l : list A)
  : outcome (list B) :=
  match l with
  | [] => Returned []
  | a :: l' =>
      b <- f a ;;
      bs <- starmap f l' ;;
      Returned (b :: bs)
  end.

(** The loop that concatenates the small spectrograms; a chunk whose
    spectrogram is None has no attribute [time]. *)
Fixpoint concatenate_loop (specgram_list : list (option Spectrogram))
  (time_specgram : list Z) (specgram : list (list Q))
  : outcome (list Z * list (list Q)) :=
  match specgram_list with
  | [] => Returned (time_specgram, specgram)
  | None :: _ => Raised AttributeError
  | Some s :: rest =>
      concatenate_loop rest (time_specgram ++ time s) (specgram ++ values s)
  end.

(** The reduction of [compute_spectrogram_mp]: lines 859-864. *)
Definition concatenate_specgram_list
  (specgram_list : list (option Spectrogram)) : outcome Spectrogram :=
  r <- concatenate_loop specgram_list [] [] ;;
  first <- subscript specgram_list 0 ;;
  match first with
  | None => Raised AttributeError
  | Some s0 =>
      Returned {| time := fst r; freq := freq s0; values := snd r |}
  end.

(** [tmp_obj] of the branch [split == None], for the trace
    [self._data_segmented[i][0]]. *)
Definition segment_object (tr : Trace) : OOIHydrophoneData :=
  set_data (new_OOIHydrophoneData (stats_starttime tr) (stats_endtime tr))
           (Some tr).

(** The objects handed to the workers when [split == None]: the
    segmentation left by [get_acoustic_data_mp] is used again. *)
Fixpoint segmented_objects (self : OOIHydrophoneData) (range : list nat)
  : outcome (list OOIHydrophoneData) :=
  match range with
  | [] => Returned []
  | i :: range' =>
      segmented <- attribute (_data_segmented self) ;;
      st <- subscript segmented i ;;
      tr <- subscript st 0 ;;
      rest <- segmented_objects self range' ;;
      Returned (segment_object tr :: rest)
  end.

(** The objects of the loop [for k in range(n_seg - 1)] when [split] is
    a number of seconds. *)
Definition split_object (self : OOIHydrophoneData) (tr : Trace)
  (seconds_per_process : Q) (k : nat) : OOIHydrophoneData :=
  let s := (starttime self
            + timedelta_seconds (inject_Z (Z.of_nat k) * seconds_per_process))%Z in
  let e := (starttime self
            + timedelta_seconds
                (inject_Z (Z.of_nat (k + 1)) * seconds_per_process))%Z in
  set_data (new_OOIHydrophoneData s e) (Some (Trace_slice tr s e)).

Definition split_objects (self : OOIHydrophoneData) (split : Q)
  : outcome (list OOIHydrophoneData) :=
  let total := total_seconds (starttime self) (endtime self) in
  if Qeq_bool split 0 then Raised ZeroDivisionError
  else
    let n_seg := Qceiling (total / split) in
    if (n_seg =? 0)%Z then Raised ZeroDivisionError
    else
      let seconds_per_process := (total / inject_Z n_seg)%Q in
      match data self with
      | None => Raised AttributeError
      | Some tr =>
          let firsts :=
            map (split_object self tr seconds_per_process)
                (seq 0 (Z.to_nat (n_seg - 1))) in
          let s := (starttime self
                    + timedelta_seconds
                        (inject_Z (n_seg - 1) * seconds_per_process))%Z in
          let last :=
            set_data (new_OOIHydrophoneData s (endtime self))
                     (Some (Trace_slice tr s (endtime self))) in
          Returned (firsts ++ [last])
      end.

(** [compute_spectrogram_mp(split, n_process, win, L, avg_time=None)].
    Whatever is raised inside the [try] leaves [spectrogram] at None. *)
Definition compute_spectrogram_mp (self : OOIHydrophoneData)
  (split : option Q) (n_process : option nat) (win : string) (L : nat)
  : outcome OOIHydrophoneData :=
  let N := match n_process with None => cpu_count | Some n => n end in
  ooi_hyd_data_list <-
    match split with
    | None => segmented_objects self (seq 0 N)
    | Some s => split_objects self s
    end ;;
  if match n_process with Some O => true | _ => false end
  then Raised ValueError
  else
  match
    (specgram_list <-
       starmap (fun o => _spectrogram_mp_helper o win L) ooi_hyd_data_list ;;
     concatenate_specgram_list specgram_list)
  with
  | Returned s => Returned (set_spectrogram self (Some s))
  | Raised _ => Returned (set_spectrogram self None)
  end.

End Spectral.

(* ================================================================= *)
(** ** SegmentCatalog and SegmentSelector *)

Definition day_us : Z := 86400 * 1000000.

(** [UTCDateTime(t.year, t.month, t.day, 0, 0, 0)]. *)
Definition midnight (t : Z) : Z := (t / day_us * day_us)%Z.

(** [t] with hour 23, minute 59, second 59, microsecond 999999. *)
Definition end_of_day (t : Z) : Z := (midnight t + day_us - 1)%Z.

(** The loop [while day_start < self.endtime: ..; day_start += 24*3600]:
    the number of rounds, with [fuel] as a bound on them. *)
Fixpoint day_loop (fuel : nat) (day_start endtime : Z) : nat :=
  match fuel with
  | O => O
  | S fuel' =>
      if (day_start <? endtime)%Z
      then S (day_loop fuel' (day_start + day_us) endtime)
      else O
  end.

(** How often the body of the loop runs: [day_start] starts one day
    after the midnight before [starttime]; one round per day begun
    before [endtime] is fuel enough. *)
Definition further_days (starttime endtime : Z) : nat :=
  let day_start := (midnight starttime + day_us)%Z in
  day_loop (Z.to_nat ((endtime - day_start) / day_us + 1)) day_start endtime.

(** [url.split('.')[-1] != 'mseed'] decides what [np.delete] removes. *)
Definition is_mseed (u : url) : bool := String.eqb (suffix u) "mseed".

Definition keep_mseed (l : list url) : list url := filter is_mseed l.

(** [np.insert(l, -1, x)]: [x] goes in front of the last element. *)
Definition np_insert_minus1 {A : Type} (l : list A) (x : A) : outcome (list A) :=
  match l with
  | [] => Raised IndexError
  | _ => Returned (firstn (length l - 1) l ++ x :: skipn (length l - 1) l)
  end.

(** A method that may [return None] before its end. *)
Inductive progress (A : Type) : Type :=
| Return_None (self : OOIHydrophoneData)
| Continue (self : OOIHydrophoneData) (a : A).

Arguments Return_None {A} self.
Arguments Continue {A} self a.

Definition no_data (self : OOIHydrophoneData) : OOIHydrophoneData :=
  set_data_available (set_data self None) false.

Definition no_url : url := {| suffix := EmptyString; utc := 0 |}.

Section Catalog.

(** [__web_crawler_noise(day_str)], by the midnight of the day asked
    for; None after a timeout. *)
Variable web_crawler_noise : Z -> option (list url).

(** [__get_mseed_urls(day_str)]: the sorted [.mseed] files of the day. *)
Variable get_mseed_urls : Z -> list url.

(** [get_acoustic_data], lines 220-279: the list of URLs that the
    reading loop walks through. *)
Definition get_acoustic_data_urls (self0 : OOIHydrophoneData)
  (starttime endtime : Z) (append : bool)
  : outcome (progress (list url)) :=
  let self := set_data_gap (set_window self0 starttime endtime) false in
  let prev_day := (starttime - day_us)%Z in
  data_url_prev_day <-
    (if append then
       match web_crawler_noise (midnight prev_day) with
       | None => Raised TypeError
       | Some data_url_list_prev_day =>
           subscript_last (keep_mseed data_url_list_prev_day)
       end
     else Returned no_url) ;;
  match web_crawler_noise (midnight starttime) with
  | None => Returned (Return_None (no_data self))
  | Some first_day =>
      let data_url_list :=
        first_day ++ concat (repeat first_day (further_days starttime endtime)) in
      if limit_seed_files self && (1000 <? length data_url_list)%nat
      then Returned (Return_None (no_data self))
      else
        let data_url_list := keep_mseed data_url_list in
        let data_url_list :=
          if append then data_url_prev_day :: data_url_list
          else data_url_list in
        Returned (Continue self data_url_list)
  end.

(** [get_acoustic_data_conc], lines 531-561. *)
Definition get_acoustic_data_conc_urls (starttime endtime : Z) (append : bool)
  : outcome (list url) :=
  let prev_day := (starttime - day_us)%Z in
  data_url_prev_day <- subscript_last (get_mseed_urls (midnight prev_day)) ;;
  let first_day := get_mseed_urls (midnight starttime) in
  let data_url_list :=
    first_day ++ concat (repeat first_day (further_days starttime endtime)) in
  data_url_last_day <- subscript (get_mseed_urls (midnight starttime)) 0 ;;
  if append then
    np_insert_minus1 (data_url_prev_day :: data_url_list) data_url_last_day
  else Returned data_url_list.

End Catalog.

(** The test of lines 301-303 and 588-590. *)
Definition contains_desired_data (self : OOIHydrophoneData)
  (utc_time_url_start utc_time_url_stop : Z) : bool :=
  ((starttime self <=? utc_time_url_start)%Z
   && (utc_time_url_start <? endtime self)%Z)
  || ((starttime self <=? utc_time_url_stop)%Z
      && (utc_time_url_stop <? endtime self)%Z)
  || ((utc_time_url_start <=? starttime self)%Z
      && (endtime self <=? utc_time_url_stop)%Z).

(** The stop time given to file [i]: the start of file [i+1], or the
    end of its own day for the last file. *)
Definition utc_time_url_stop (data_url_list : list url) (i : nat) : Z :=
  if negb (i =? length data_url_list - 1)%nat
  then utc (nth (i + 1) data_url_list no_url)
  else end_of_day (utc (nth i data_url_list no_url)).

(** The loop of lines 571-613 over the indices left in [range]. *)
Fixpoint valid_url_loop (self : OOIHydrophoneData) (append : bool)
  (data_url_list : list url) (range : list nat)
  (first_file : bool) (valid_data_url_list : list url) : list url :=
  match range with
  | [] => valid_data_url_list
  | i :: range' =>
      let u := nth i data_url_list no_url in
      if contains_desired_data self (utc u) (utc_time_url_stop data_url_list i)
      then
        if append then
          if (i =? 0)%nat then
            valid_url_loop self append data_url_list range' false
              (valid_data_url_list ++ [u])
          else if first_file then
            valid_url_loop self append data_url_list range' false
              [nth (i - 1) data_url_list no_url; u]
          else
            valid_url_loop self append data_url_list range' first_file
              (valid_data_url_list ++ [u])
        else
          valid_url_loop self append data_url_list range'
            (if (i =? 0)%nat then false else first_file)
            (valid_data_url_list ++ [u])
      else
        if negb first_file
        then (if append then valid_data_url_list ++ [u]
              else valid_data_url_list)
        else
          valid_url_loop self append data_url_list range' first_file
            valid_data_url_list
  end.

(** [valid_data_url_list] when the loop is left. *)
Definition valid_data_url_list (self : OOIHydrophoneData) (append : bool)
  (data_url_list : list url) : list url :=
  valid_url_loop self append data_url_list
    (seq 0 (length data_url_list)) true [].

(* ================================================================= *)
(** ** ConcurrentFetcher, MergeEngine and WindowSlicer *)

Fixpoint Qsum (l : list Q) : Q :=
  match l with
  | [] => 0
  | x :: l' => x + Qsum l'
  end.

(** The samples of a masked array that are not masked. *)
Fixpoint compressed (xs : list (option Q)) : list Q :=
  match xs with
  | [] => []
  | Some x :: xs' => x :: compressed xs'
  | None :: xs' => compressed xs'
  end.

(** [np.mean(a)]; for a masked array the mean of the valid samples. *)
Definition np_mean (a : ndarray) : Q :=
  match a with
  | Plain xs => Qsum xs / inject_Z (Z.of_nat (length xs))
  | Masked xs =>
      Qsum (compressed xs) / inject_Z (Z.of_nat (length (compressed xs)))
  end.

(** [a - m]: the mask is kept. *)
Definition nd_sub (a : ndarray) (m : Q) : ndarray :=
  match a with
  | Plain xs => Plain (map (fun x => x - m) xs)
  | Masked xs => Masked (map (option_map (fun x => x - m)) xs)
  end.

(** [a.fill_value = v; np.ma.filled(a)]. An [ndarray] that is not masked
    takes no attribute [fill_value]. *)
Definition fill_masked (a : ndarray) (v : Q) : outcome ndarray :=
  match a with
  | Plain _ => Raised AttributeError
  | Masked xs =>
      Returned (Plain (map (fun o => match o with Some x => x | None => v end) xs))
  end.

Definition set_tr_data (tr : Trace) (a : ndarray) : Trace :=
  {| stats_starttime := stats_starttime tr;
     stats_endtime := stats_endtime tr;
     stats_sampling_rate := stats_sampling_rate tr;
     tr_data := a |}.

(** A [Stream] is true when it holds a trace; None is false. *)
Definition truthy (st : option Stream) : bool :=
  match st with
  | Some (_ :: _) => true
  | _ => false
  end.

(** The loop of lines 625-631: the streams fetched, added up. *)
Fixpoint add_streams (st_list : list (option Stream)) (st_all : option Stream)
  : option Stream :=
  match st_list with
  | [] => st_all
  | st :: rest =>
      if truthy st then
        match st_all, st with
        | Some all, Some s => add_streams rest (Some (all ++ s))
        | _, _ => add_streams rest st
        end
      else add_streams rest st_all
  end.

(** [filter(None.__ne__, data_list)]. *)
Fixpoint drop_None {A : Type} (l : list (option A)) : list A :=
  match l with
  | [] => []
  | Some a :: l' => a :: drop_None l'
  | None :: l' => drop_None l'
  end.

Definition is_None {A : Type} (o : option A) : bool :=
  match o with
  | None => true
  | Some _ => false
  end.

Section Merge.

(** obspy [Stream.merge(method=1)], with [fill_value='interpolate'] when
    the flag is set. *)
Variable Stream_merge : bool -> Stream -> outcome Stream.

(** obspy [Stream.slice(starttime, endtime)]. *)
Variable Stream_slice : Stream -> Z -> Z -> Stream.

(** obspy [Stream.filter("bandpass", freqmin, freqmax)]. *)
Variable Stream_filter : Stream -> Q -> Q -> outcome Stream.

(** The [try] that ends [get_acoustic_data] and
    [get_acoustic_data_conc]: lines 669-685. *)
Definition filter_and_store (self : OOIHydrophoneData) (st_all : Stream)
  (fmin fmax : option Q) : OOIHydrophoneData * option Stream :=
  match
    (st <- match fmin, fmax with
           | Some lo, Some hi => Stream_filter st_all lo hi
           | _, _ => Returned st_all
           end ;;
     tr <- subscript st 0 ;;
     Returned (st, tr))
  with
  | Returned (st, tr) =>
      (set_data_available (set_data self (Some tr)) true, Some st)
  | Raised _ => (no_data self, None)
  end.

(** [get_acoustic_data_conc] from line 625 on, given the list [st_list]
    that the fetch has produced. [self] has [data_gap] reset already. *)
Definition merge_st_list (self : OOIHydrophoneData)
  (st_list : list (option Stream)) (fmin fmax : option Q)
  : outcome (OOIHydrophoneData * option Stream) :=
  let st_all := add_streams st_list None in
  let merge (interpolate : bool) : outcome Stream :=
    match st_all with
    | None => Raised AttributeError
    | Some st => Stream_merge interpolate st
    end in
  merged <-
    (if (data_gap_mode self =? 0)%Z then
       st <- merge true ;; Returned (Some st)
     else if (data_gap_mode self =? 1)%Z then
       st <- merge false ;; Returned (Some st)
     else if (data_gap_mode self =? 2)%Z then
       st <- merge false ;;
       tr <- subscript st 0 ;;
       let d := nd_sub (tr_data tr) (np_mean (tr_data tr)) in
       d' <- fill_masked d 0 ;;
       Returned (Some (set_tr_data tr d' :: tl st))
     else Returned None) ;;
  match merged with
  | None => Returned (self, None)
  | Some st =>
      let st_all := Stream_slice st (starttime self) (endtime self) in
      tr <- subscript st_all 0 ;;
      let self :=
        if is_masked (tr_data tr) then set_data_gap self true else self in
      if (length st_all =? 0)%nat then Returned (no_data self, None)
      else Returned (filter_and_store self st_all fmin fmax)
  end.

(** [get_acoustic_data_mp] from line 414 on, given what
    [p.starmap(self.get_acoustic_data, ...)] has produced. *)
Definition merge_data_list (self : OOIHydrophoneData) (starttime endtime : Z)
  (starmapped : outcome (list (option Stream))) (fmin fmax : option Q)
  : outcome (OOIHydrophoneData * option Stream) :=
  match starmapped with
  | Raised _ =>
      Returned (set_window (no_data self) starttime endtime, None)
  | Returned data_list =>
      let self := if forallb is_None data_list then no_data self else self in
      let data_list := drop_None data_list in
      first <- subscript data_list 0 ;;
      let st_all := fold_left (fun acc d => acc ++ d) (tl data_list) first in
      let self := set_data_segmented self data_list in
      st_all <- Stream_merge false st_all ;;
      tr <- subscript st_all 0 ;;
      let self :=
        if is_masked (tr_data tr) then set_data_gap self true else self in
      st_all <- match fmin, fmax with
                | Some lo, Some hi => Stream_filter st_all lo hi
                | _, _ => Returned st_all
                end ;;
      tr <- subscript st_all 0 ;;
      let self := set_data_available (set_data self (Some tr)) true in
      Returned (set_window self starttime endtime, Some st_all)
  end.

(** [__read_mseed(url)], and the order in which
    [concurrent.futures.as_completed] hands the results over. *)
Variable read_mseed : url -> option Stream.
Variable as_completed : list (option Stream) -> list (option Stream).

Variable get_mseed_urls : Z -> list url.

Definition get_acoustic_data_conc (self0 : OOIHydrophoneData)
  (starttime endtime : Z) (fmin fmax : option Q) (append : bool)
  : outcome (OOIHydrophoneData * option Stream) :=
  let self := set_data_gap (set_window self0 starttime endtime) false in
  data_url_list <- get_acoustic_data_conc_urls get_mseed_urls
                     starttime endtime append ;;
  let valid := valid_data_url_list self append data_url_list in
  let st_list := as_completed (map read_mseed valid) in
  merge_st_list self st_list fmin fmax.

End Merge.

(** The test of the loop for file [i]. *)
Definition in_window (self : OOIHydrophoneData) (data_url_list : list url)
  (i : nat) : bool :=
  contains_desired_data self (utc (nth i data_url_list no_url))
    (utc_time_url_stop data_url_list i).

(** The catalog order: start times strictly increasing. *)
Fixpoint time_ordered (l : list url) : bool :=
  match l with
  | a :: ((b :: _) as l') => (utc a <? utc b)%Z && time_ordered l'
  | _ => true
  end.

(** The file that starts [t] microseconds after the epoch. *)
Definition mseed (t : Z) : url := {| suffix := "mseed"; utc := t |}.

(** A small catalog: files every five minutes from midnight on day
    [86400 s], and one file at 23:55 on every other day. *)
Definition five_minute_listing (day : Z) : list url :=
  if (day =? 86400000000)%Z
  then [mseed 86400000000; mseed 86700000000; mseed 87000000000]
  else [mseed (day + 86100000000)].

(** A listing of 1001 files. *)
Definition crowded_listing (day : Z) : option (list url) :=
  Some (map (fun i => mseed (day + Z.of_nat i)) (seq 0 1001)).

(* ================================================================= *)
(** ** Stand-ins for scipy and obspy

    Functions of the right shape, to run the model on small traces. *)

(** Frequencies [k * fs / n] and unit power in each of the [n/2 + 1]
    bins. *)
Definition unit_periodogram (x : ndarray) (fs : Q) (win : string)
  : list Q * list Q :=
  let n := len x in
  (map (fun k => inject_Z (Z.of_nat k) * fs / inject_Z (Z.of_nat n))
       (seq 0 (n / 2 + 1)),
   repeat 1 (n / 2 + 1)).

Definition plain_level (Pxx sens : list Q) : list Q := Pxx.

Definition flat_spline (x y : list Q) (f : Q) : Q := 169.

(** A trace of [n] samples [0, 1, ..] at 1 Hz that starts [t0] seconds
    after the epoch. *)
Definition ramp_trace (t0 : Z) (n : nat) : Trace :=
  {| stats_starttime := t0 * 1000000;
     stats_endtime := (t0 + Z.of_nat n - 1) * 1000000;
     stats_sampling_rate := 1;
     tr_data := Plain (map (fun i => inject_Z (t0 + Z.of_nat i)) (seq 0 n)) |}.

(** An object with [data] set to [tr], as [get_acoustic_data_mp] leaves
    it after fetching [segments]. *)
Definition loaded (tr : Trace) (segments : list Stream) : OOIHydrophoneData :=
  set_data_segmented
    (set_data (new_OOIHydrophoneData (stats_starttime tr)
                 (stats_endtime tr + 1000000))
              (Some tr))
    segments.

Definition merge_as_is (interpolate : bool) (st : Stream) : outcome Stream :=
  Returned st.

Definition slice_as_is (st : Stream) (s e : Z) : Stream := st.

Definition filter_as_is (st : Stream) (lo hi : Q) : outcome Stream :=
  Returned st.

From Stdlib Require Import Lqa.

(* ================================================================= *)
(** ** Vocabulary for the statements *)

Section Blocks.

Variable periodogram : ndarray -> Q -> string -> list Q * list Q.

(** Block [n] of the trace passes the test [len(Pxx) == int(L/2)+1] of
    [compute_spectrogram]. *)
Definition block_ok (tr : Trace) (win : string) (L n : nat) : Prop :=
  length (snd (periodogram (nd_slice (tr_data tr) (n * L) ((n + 1) * L))
                 (stats_sampling_rate tr) win))
  = (L / 2 + 1)%nat.

End Blocks.

Section Chunks.

Variable Trace_slice : Trace -> Z -> Z -> Trace.

(** The list [ooi_hyd_data_list] that [compute_spectrogram_mp] builds
    for [N] processes. *)
Definition chunk_objects (self : OOIHydrophoneData) (split : option Q)
  (N : nat) : outcome (list OOIHydrophoneData) :=
  match split with
  | None => segmented_objects self (seq 0 N)
  | Some s => split_objects Trace_slice self s
  end.

End Chunks.

(** The spectrogram that the reduction makes of the spectrograms
    [s0 :: rest] of the chunks. *)
Definition concatenated (s0 : Spectrogram) (rest : list Spectrogram)
  : Spectrogram :=
  {| time := concat (map time (s0 :: rest));
     freq := freq s0;
     values := concat (map values (s0 :: rest)) |}.

(** The time window of an object. *)
Definition window (o : OOIHydrophoneData) : Z * Z :=
  (starttime o, endtime o).

(** The windows [ws] tile the span from [s] to [e]: the first begins at
    [s], each begins where the one before it ends, the last ends at
    [e]. *)
Fixpoint tiles (s e : Z) (ws : list (Z * Z)) : Prop :=
  match ws with
  | [] => False
  | (a, b) :: ws' =>
      a = s /\ match ws' with
               | [] => b = e
               | _ => tiles b e ws'
               end
  end.

(** [get_acoustic_data_mp], lines 401-411: the start and end times
    handed to the [N] processes. *)
Definition get_data_list (starttime endtime : Z) (N : nat)
  : outcome (list (Z * Z)) :=
  if (N =? 0)%nat then Raised ZeroDivisionError
  else
    let seconds_per_process :=
      (total_seconds starttime endtime / inject_Z (Z.of_nat N))%Q in
    Returned
      (map (fun i =>
              ((starttime
                + timedelta_seconds
                    (inject_Z (Z.of_nat i) * seconds_per_process))%Z,
               (starttime
                + timedelta_seconds
                    (inject_Z (Z.of_nat (i + 1)) * seconds_per_process))%Z))
           (seq 0 N)).

Section AcousticDataMp.

Variable Stream_merge : bool -> Stream -> outcome Stream.
Variable Stream_filter : Stream -> Q -> Q -> outcome Stream.

(** What [self.get_acoustic_data(starttime, endtime, ..)] returns in a
    worker process, or raises. *)
Variable worker : Z -> Z -> outcome (option Stream).

Variable cpu_count : nat.

(** [get_acoustic_data_mp(starttime, endtime, node, n_process, fmin,
    fmax)]. *)
Definition get_acoustic_data_mp (self : OOIHydrophoneData)
  (starttime endtime : Z) (n_process : option nat) (fmin fmax : option Q)
  : outcome (OOIHydrophoneData * option Stream) :=
  let N := match n_process with None => cpu_count | Some n => n end in
  get_data_list <- get_data_list starttime endtime N ;;
  merge_data_list Stream_merge Stream_filter self starttime endtime
    (starmap (fun w => worker (fst w) (snd w)) get_data_list) fmin fmax.

End AcousticDataMp.

(* ================================================================= *)
(** ** get_acoustic_data: reading and merging *)

(** Exceptions beyond those of [exn]. *)
Inductive error : Type :=
| Builtin (e : exn)
| UnboundLocalError     (* a local variable read before it is bound *)
| KeyError              (* a key that the dict does not hold *)
| ReshapeError          (* ValueError of [np.reshape] *)
| ScaleError.           (* Exception('scale has to be either "lin" or "log".') *)

Inductive raising (A : Type) : Type :=
| Ok (a : A)
| Fail (e : error).

Arguments Ok {A} a.
Arguments Fail {A} e.

Definition lift {A : Type} (m : outcome A) : raising A :=
  match m with
  | Returned a => Ok a
  | Raised e => Fail (Builtin e)
  end.

Definition and_then {A B : Type} (m : raising A) (k : A -> raising B)
  : raising B :=
  match m with
  | Ok a => k a
  | Fail e => Fail e
  end.

(** The local variables of the reading loop of [get_acoustic_data].
    [st] is None while the name is unbound. [st_all = st] binds both
    names to one object, and [st_all += st] extends that object in
    place: [aliased] says that [st] still names the object of
    [st_all]. *)
Record reading : Type := {
  first_file : bool;
  st : option Stream;
  aliased : bool;
  st_all : option Stream
}.

Definition reading0 : reading :=
  {| first_file := true; st := None; aliased := false; st_all := None |}.

Section Reading.

(** obspy [read(url, apply_calib=True)]; None when it raises. *)
Variable read : url -> option Stream.

(** [st = read(u)] inside [try]: a failed read leaves [st] as it was. *)
Definition try_read (r : reading) (u : url) : reading :=
  match read u with
  | Some s =>
      {| first_file := first_file r; st := Some s; aliased := false;
         st_all := st_all r |}
  | None => r
  end.

(** [st = read(u1); st += read(u2)] inside [try]. *)
Definition try_read_two (r : reading) (u1 u2 : url) : reading :=
  match read u1 with
  | Some s1 =>
      let s := match read u2 with
               | Some s2 => s1 ++ s2
               | None => s1
               end in
      {| first_file := first_file r; st := Some s; aliased := false;
         st_all := st_all r |}
  | None => r
  end.

(** [st_all += st]: lines 334 and 349. *)
Definition add_st (r : reading) : raising reading :=
  match st r, st_all r with
  | None, _ => Fail UnboundLocalError
  | Some _, None => Fail (Builtin TypeError)
  | Some s, Some all =>
      if aliased r then
        Ok {| first_file := first_file r; st := Some (all ++ all);
              aliased := true; st_all := Some (all ++ all) |}
      else
        Ok {| first_file := first_file r; st := Some s; aliased := false;
              st_all := Some (all ++ s) |}
  end.

(** [if st_all == None: st_all = st else: st_all += st]. *)
Definition accumulate (r : reading) : raising reading :=
  match st_all r with
  | None =>
      match st r with
      | None => Fail UnboundLocalError
      | Some s =>
          Ok {| first_file := first_file r; st := Some s; aliased := true;
                st_all := Some s |}
      end
  | Some _ => add_st r
  end.

Definition set_first_file (r : reading) (b : bool) : reading :=
  {| first_file := b; st := st r; aliased := aliased r;
     st_all := st_all r |}.

(** The loop of lines 285-349 over the indices left in [range]. *)
Fixpoint read_loop (self : OOIHydrophoneData) (append : bool)
  (data_url_list : list url) (range : list nat) (r : reading)
  : raising reading :=
  match range with
  | [] => Ok r
  | i :: range' =>
      let u := nth i data_url_list no_url in
      if contains_desired_data self (utc u) (utc_time_url_stop data_url_list i)
      then
        let r1 :=
          if first_file r && negb (i =? 0)%nat then
            let r0 := set_first_file r false in
            if append
            then try_read_two r0 (nth (i - 1) data_url_list no_url) u
            else try_read r0 u
          else try_read r u in
        and_then (accumulate r1)
          (read_loop self append data_url_list range')
      else
        if negb (first_file r) then
          let r0 := set_first_file r true in
          let r1 := if append then try_read r0 u else r0 in
          and_then (if append then add_st r1 else Ok r1)
            (read_loop self append data_url_list range')
        else read_loop self append data_url_list range' r
  end.

End Reading.

Section AcousticData.

Variable web_crawler_noise : Z -> option (list url).
Variable read : url -> option Stream.
Variable Stream_merge : bool -> Stream -> outcome Stream.
Variable Stream_slice : Stream -> Z -> Z -> Stream.
Variable Stream_filter : Stream -> Q -> Q -> outcome Stream.

(** [get_acoustic_data], lines 351-392, for the stream [st_all] that the
    loop has left. *)
Definition merge_st_all (self : OOIHydrophoneData) (st_all : option Stream)
  (fmin fmax : option Q) : outcome (OOIHydrophoneData * option Stream) :=
  let merge (interpolate : bool) : outcome Stream :=
    match st_all with
    | None => Raised AttributeError
    | Some st => Stream_merge interpolate st
    end in
  merged <-
    (if (data_gap_mode self =? 0)%Z then
       st <- merge true ;; Returned (Some st)
     else if (data_gap_mode self =? 1)%Z then
       st <- merge false ;; Returned (Some st)
     else Returned None) ;;
  match merged with
  | None => Returned (self, None)
  | Some st =>
      let st_all := Stream_slice st (starttime self) (endtime self) in
      tr <- subscript st_all 0 ;;
      let self :=
        if is_masked (tr_data tr) then set_data_gap self true else self in
      if (length st_all =? 0)%nat then Returned (no_data self, None)
      else Returned (filter_and_store Stream_filter self st_all fmin fmax)
  end.

(** [get_acoustic_data(starttime, endtime, node, fmin, fmax, append)]. *)
Definition get_acoustic_data (self : OOIHydrophoneData)
  (starttime endtime : Z) (fmin fmax : option Q) (append : bool)
  : raising (OOIHydrophoneData * option Stream) :=
  and_then
    (lift (get_acoustic_data_urls web_crawler_noise self starttime endtime
             append))
    (fun p =>
       match p with
       | Return_None self' => Ok (self', None)
       | Continue self' data_url_list =>
           and_then
             (read_loop read self' append data_url_list
                (seq 0 (length data_url_list)) reading0)
             (fun r => lift (merge_st_all self' (st_all r) fmin fmax))
       end).

End AcousticData.

(** What a call of the acquisition leaves behind agrees with what it
    returns: a returned stream begins with the trace stored in [data]
    and [data_available] is True; when None is returned, either no
    attribute was touched ([before]) or [data] is None and
    [data_available] is False. *)
Definition settled (before : OOIHydrophoneData)
  (after : OOIHydrophoneData * option Stream) : Prop :=
  match snd after with
  | Some st =>
      exists tr, nth_error st 0 = Some tr
                 /\ data (fst after) = Some tr
                 /\ data_available (fst after) = Some true
  | None =>
      fst after = before
      \/ (data (fst after) = None
          /\ data_available (fst after) = Some false)
  end.


(* ================================================================= *)
(** ** compute_spectrogram with avg_time, compute_psd_welch *)

(** [int(x)] for a float [x]: rounding toward zero. *)
Definition py_int (x : Q) : Z := Z.quot (Qnum x) (Zpos (Qden x)).

(** The place in an array of length [n] that a slice bound [k] of
    either sign stands for. *)
Definition slice_bound (n : nat) (k : Z) : nat :=
  Z.to_nat (Z.min (Z.of_nat n) (if (k <? 0)%Z
                                then Z.max 0 (Z.of_nat n + k) else k)).

(** [a[i:j]] and [a[i:]] for ints of either sign. *)
Definition nd_slice_Z (a : ndarray) (i j : Z) : ndarray :=
  nd_slice a (slice_bound (len a) i) (slice_bound (len a) j).

Definition nd_from (a : ndarray) (i : Z) : ndarray :=
  nd_slice a (slice_bound (len a) i) (len a).

Record Psd : Type := {
  psd_freq : list Q;
  psd_values : list Q
}.

Section Welch.

(** [scipy.signal.welch(x, fs, window, nperseg, noverlap, nfft,
    average)]: the pair [(f, Pxx)], or what it raises. *)
Variable welch :
  ndarray -> Q -> string -> nat -> Z -> Z -> string
  -> outcome (list Q * list Q).

Variable level_dB : list Q -> list Q -> list Q.

(** [Pxx * np.power(10, sens/10) * np.power(10, -128.9/10)]. *)
Variable level_lin : list Q -> list Q -> list Q.

Variable InterpolatedUnivariateSpline : list Q -> list Q -> Q -> Q.

(** One Welch estimate of [compute_spectrogram]: None when the test
    [len(Pxx) != int(L/2)+1] gives up. *)
Definition welch_row (self : OOIHydrophoneData) (x : ndarray) (fs : Q)
  (win : string) (L : nat) (overlap : Q)
  : outcome (option (list Q * list Q)) :=
  r <- welch x fs win L (py_int (inject_Z (Z.of_nat L) * overlap))
         (Z.of_nat L) "median" ;;
  let '(f, Pxx) := r in
  if negb (length Pxx =? L / 2 + 1)%nat then Returned None
  else
    Returned
      (Some (f, level_dB Pxx
                  (_freq_dependent_sensitivity_correct
                     InterpolatedUnivariateSpline self (L / 2 + 1)))).

(** The loop [for n in range(nbins - 1)] of the branch with
    [avg_time]. *)
Fixpoint welch_loop (self : OOIHydrophoneData) (tr : Trace)
  (win : string) (L : nat) (avg_time overlap : Q) (ns : list nat)
  (time : list Z) (f : list Q) (specgram : list (list Q))
  : outcome (option (list Z * list Q * list (list Q))) :=
  match ns with
  | [] => Returned (Some (time, f, specgram))
  | n :: ns' =>
      let fs := stats_sampling_rate tr in
      let block := py_int (fs * avg_time) in
      row <- welch_row self
               (nd_slice_Z (tr_data tr) (Z.of_nat n * block)
                  ((Z.of_nat n + 1) * block))
               fs win L overlap ;;
      match row with
      | None => Returned None
      | Some (f', Pxx) =>
          let t := (starttime self
                    + timedelta_seconds (inject_Z (Z.of_nat n) * avg_time))%Z in
          welch_loop self tr win L avg_time overlap ns'
            (time ++ [t]) f' (specgram ++ [Pxx])
      end
  end.

(** [compute_spectrogram(win, L, avg_time, overlap)] for a number
    [avg_time] of seconds. Returns [self]. *)
Definition compute_spectrogram_avg (self : OOIHydrophoneData) (win : string)
  (L : nat) (avg_time overlap : Q) : outcome OOIHydrophoneData :=
  match data self with
  | None => Returned (set_spectrogram self None)
  | Some tr =>
      let fs := stats_sampling_rate tr in
      if Qeq_bool (avg_time * fs) 0 then Raised ZeroDivisionError
      else
        let nbins :=
          Qceiling (inject_Z (Z.of_nat (len (tr_data tr))) / (avg_time * fs)) in
        looped <- welch_loop self tr win L avg_time overlap
                    (seq 0 (Z.to_nat (nbins - 1))) [] [] [] ;;
        match looped with
        | None => Returned (set_spectrogram self None)
        | Some (time, f, specgram) =>
            let residual :=
              nd_from (tr_data tr)
                (py_int (inject_Z (nbins - 1) * fs * avg_time)) in
            last <-
              (if (L <=? len residual)%nat then
                 row <- welch_row self residual fs win L overlap ;;
                 match row with
                 | None => Returned None
                 | Some (f', Pxx) =>
                     let t := (starttime self
                               + timedelta_seconds
                                   (inject_Z (nbins - 1) * avg_time))%Z in
                     Returned (Some (time ++ [t], f', specgram ++ [Pxx]))
                 end
               else Returned (Some (time, f, specgram))) ;;
            match last with
            | None => Returned (set_spectrogram self None)
            | Some (time, f, specgram) =>
                if (length time =? 0)%nat
                then Returned (set_spectrogram self None)
                else Returned (set_spectrogram self
                                 (Some {| time := time; freq := f;
                                          values := specgram |}))
            end
        end
  end.

(** [nfft] of [compute_psd_welch]: zero padding when [interpolate] asks
    for a finer resolution than [fs / L]. *)
Definition psd_nfft (fs : Q) (L : nat) (interpolate : option Q)
  : outcome Z :=
  match interpolate with
  | Some r =>
      if (L =? 0)%nat then Raised ZeroDivisionError
      else if Qle_bool (fs / inject_Z (Z.of_nat L)) r
           then Returned (Z.of_nat L)
           else if Qeq_bool r 0 then Raised ZeroDivisionError
                else Returned (py_int (fs / r))
  | None => Returned (Z.of_nat L)
  end.

(** [compute_psd_welch(win, L, overlap, avg_method, interpolate,
    scale)]: what the call leaves in [self.psd]. *)
Definition compute_psd_welch (self : OOIHydrophoneData) (win : string)
  (L : nat) (overlap : Q) (avg_method : string) (interpolate : option Q)
  (scale : string) : raising (option Psd) :=
  match data self with
  | None => Ok None
  | Some tr =>
      let fs := stats_sampling_rate tr in
      and_then (lift (psd_nfft fs L interpolate)) (fun nfft =>
      and_then
        (lift (welch (tr_data tr) fs win L
                 (py_int (inject_Z (Z.of_nat L) * overlap)) nfft avg_method))
        (fun r =>
           let '(f, Pxx) := r in
           if negb (Z.of_nat (length Pxx) =? Z.quot nfft 2 + 1)%Z then Ok None
           else
             let sens :=
               _freq_dependent_sensitivity_correct
                 InterpolatedUnivariateSpline self
                 (Z.to_nat (py_int (inject_Z nfft / 2 + 1))) in
             if String.eqb scale "log" then
               Ok (Some {| psd_freq := f; psd_values := level_dB Pxx sens |})
             else if String.eqb scale "lin" then
               Ok (Some {| psd_freq := f; psd_values := level_lin Pxx sens |})
             else Fail ScaleError))
  end.

End Welch.

(** The time stamp of step [n] in the branch with [avg_time]. *)
Definition avg_time_stamp (self : OOIHydrophoneData) (avg_time : Q) (n : nat)
  : Z :=
  (starttime self + timedelta_seconds (inject_Z (Z.of_nat n) * avg_time))%Z.

Section WelchLaw.

Variable welch :
  ndarray -> Q -> string -> nat -> Z -> Z -> string
  -> outcome (list Q * list Q).

(** scipy's law for [nfft = nperseg = L]: from at least [L] samples
    [welch] returns [L/2 + 1] bins. *)
Definition welch_bins (fs : Q) (win : string) (L : nat) (overlap : Q)
  : Prop :=
  forall x,
    (L <= len x)%nat ->
    exists f Pxx,
      welch x fs win L (py_int (inject_Z (Z.of_nat L) * overlap))
        (Z.of_nat L) "median"
      = Returned (f, Pxx)
      /\ length Pxx = (L / 2 + 1)%nat.

End WelchLaw.

(* ================================================================= *)
(** ** Hydrophone_Xcorr *)

(** The attributes of [Hydrophone_Xcorr] that the modelled methods
    read: [avg_time] in minutes, [W] in seconds, [Fs] in Hz. *)
Record Hydrophone_Xcorr : Type := {
  xc_avg_time : nat;
  xc_W : nat;
  xc_Fs : nat;
  xc_filter_data : bool
}.

(** What [get_audio] returns: [None], the triple [(None, None, None)],
    or [(h1_data, h2_data, flag)]. *)
Inductive audio : Type :=
| Audio_None
| Audio_no_data
| Audio (h1_data h2_data : ndarray) (flag : bool).

(** [np.reshape(a, (rows, cols))]: row [i] is [a[i*cols:(i+1)*cols]]. *)
Definition nd_reshape (a : ndarray) (rows cols : nat)
  : raising (list ndarray) :=
  if (len a =? rows * cols)%nat
  then Ok (map (fun i => nd_slice a (i * cols) ((i + 1) * cols)) (seq 0 rows))
  else Fail ReshapeError.

(** [__get_antipode(coord)] for [coord = [lat, lon]]. *)
Definition get_antipode (coord : Q * Q) : Q * Q :=
  let antlon := snd coord + 180 in
  let antlon := if Qle_bool antlon 360 then antlon else antlon - 360 in
  let antlat := - fst coord in
  (antlat, antlon).

(** The locals of the loop of [avg_over_mult_periods]; [requested]
    records the start times that [get_audio] was called with. *)
Record periods (V : Type) : Type := {
  start_time : Z;
  first_loop : bool;
  xcorr : option V;
  requested : list Z
}.

Arguments start_time {V} p.
Arguments first_loop {V} p.
Arguments xcorr {V} p.
Arguments requested {V} p.

Section Xcorr.

(** [self.ooi1.get_acoustic_data_conc(start_time, end_time, ..)] on a
    new object with gap mode 2, followed by [self.ooi1.data]; [true]
    stands for node 1, [false] for node 2. *)
Variable acquire : bool -> Z -> Z -> outcome (option Trace).

(** [filter_bandpass(data)]. *)
Variable filter_bandpass : ndarray -> ndarray.

(** The stack of correlations: [xcorr_over_avg_period(h1, h2)[0]], and
    [+=] on such stacks. *)
Variable V : Type.
Variable xcorr_over_avg_period : list ndarray -> list ndarray -> V.
Variable vadd : V -> V -> V.

Definition get_audio (self : Hydrophone_Xcorr) (start : Z) : outcome audio :=
  let avg_time_seconds := (xc_avg_time self * 60)%nat in
  if (xc_W self =? 0)%nat then Raised ZeroDivisionError
  else if negb (avg_time_seconds mod xc_W self =? 0)%nat
       then Returned Audio_None
       else
         let end_time :=
           (start + Z.of_nat (xc_avg_time self) * 60 * 1000000)%Z in
         d1 <- acquire true start end_time ;;
         d2 <- acquire false start end_time ;;
         match d1, d2 with
         | Some t1, Some t2 =>
             let n := (xc_avg_time self * 60 * xc_Fs self)%nat in
             Returned (Audio (nd_slice (tr_data t1) 0 n)
                             (nd_slice (tr_data t2) 0 n) false)
         | _, _ => Returned Audio_no_data
         end.

Definition preprocess_audio (self : Hydrophone_Xcorr) (h1_data h2_data : ndarray)
  : raising (list ndarray * list ndarray) :=
  let h1 := if xc_filter_data self then filter_bandpass h1_data else h1_data in
  let h2 := if xc_filter_data self then filter_bandpass h2_data else h2_data in
  if (xc_W self =? 0)%nat then Fail (Builtin ZeroDivisionError)
  else
    let rows := (xc_avg_time self * 60 / xc_W self)%nat in
    let cols := (xc_W self * xc_Fs self)%nat in
    and_then (nd_reshape h1 rows cols) (fun h1_reshaped =>
    and_then (nd_reshape h2 rows cols) (fun h2_reshaped =>
    Ok (h1_reshaped, h2_reshaped))).

(** One period goes through: [get_audio] has audio for the start time
    [t] and [preprocess_audio] can reshape it. *)
Definition period_ok (self : Hydrophone_Xcorr) (t : Z) : Prop :=
  exists h1 h2 flag hs,
    get_audio self t = Returned (Audio h1 h2 flag)
    /\ preprocess_audio self h1 h2 = Ok hs.

(** The loop [for k in range(num_periods)] of [avg_over_mult_periods]. *)
Fixpoint periods_loop (self : Hydrophone_Xcorr) (ks : list nat)
  (p : periods V) : raising (periods V) :=
  match ks with
  | [] => Ok p
  | k :: ks' =>
      let asked := requested p ++ [start_time p] in
      and_then (lift (get_audio self (start_time p))) (fun a =>
      match a with
      | Audio_None => Fail (Builtin TypeError)
      | Audio_no_data =>
          periods_loop self ks'
            {| start_time := start_time p; first_loop := first_loop p;
               xcorr := xcorr p; requested := asked |}
      | Audio h1 h2 flag =>
          and_then (preprocess_audio self h1 h2) (fun hs =>
          let xcorr_avg_period :=
            xcorr_over_avg_period (fst hs) (snd hs) in
          if first_loop p then
            periods_loop self ks'
              {| start_time := start_time p; first_loop := false;
                 xcorr := Some xcorr_avg_period; requested := asked |}
          else
            match xcorr p with
            | None => Fail UnboundLocalError
            | Some x =>
                periods_loop self ks'
                  {| start_time :=
                       (start_time p
                        + Z.of_nat (xc_avg_time self) * 60 * 1000000)%Z;
                     first_loop := false;
                     xcorr := Some (vadd x xcorr_avg_period);
                     requested := asked |}
            end)
      end)
  end.

(** [avg_over_mult_periods(num_periods, start_time)]: the stack that
    goes to [get_bearing_angle], with the start times asked for. *)
Definition avg_over_mult_periods (self : Hydrophone_Xcorr)
  (num_periods : nat) (start : Z) : raising (V * list Z) :=
  and_then
    (periods_loop self (seq 0 num_periods)
       {| start_time := start; first_loop := true; xcorr := None;
          requested := [] |})
    (fun p =>
       match xcorr p with
       | None => Fail UnboundLocalError
       | Some x => Ok (x, requested p)
       end).

End Xcorr.

(* ================================================================= *)
(** ** More stand-ins, to run the further models *)

(** [welch] of the right shape: frequencies [k * fs / nfft] and unit
    power in each of the [nfft/2 + 1] bins. *)
Definition unit_welch (x : ndarray) (fs : Q) (win : string) (nperseg : nat)
  (noverlap nfft : Z) (average : string) : outcome (list Q * list Q) :=
  let bins := (Z.to_nat nfft / 2 + 1)%nat in
  Returned
    (map (fun k => inject_Z (Z.of_nat k) * fs / inject_Z nfft) (seq 0 bins),
     repeat 1 bins).

(** A crawler over [five_minute_listing] that never times out. *)
Definition five_minute_crawl (day : Z) : option (list url) :=
  Some (five_minute_listing day).

(** Every file reads as four samples from its start time on; no file
    reads. *)
Definition read_ramp (u : url) : option Stream :=
  Some [ramp_trace (utc u / 1000000) 4].

Definition read_nothing (u : url) : option Stream := None.

(** The worker that fetches windows that start at the epoch and loses
    all others. *)
Definition first_window_worker (s e : Z) : outcome (option Stream) :=
  if (s =? 0)%Z then Returned (Some [ramp_trace 0 4]) else Returned None.

(** An object in gap mode [mode], before any request. *)
Definition in_gap_mode (mode : Z) : OOIHydrophoneData :=
  {| starttime := 0; endtime := 0; limit_seed_files := true;
     data_gap_mode := mode; data := None; data_available := None;
     data_gap := false; spectrogram := None; _data_segmented := None |}.

(** One minute of averaging in windows of 30 s, at 2 Hz. *)
Definition one_minute : Hydrophone_Xcorr :=
  {| xc_avg_time := 1; xc_W := 30; xc_Fs := 2; xc_filter_data := false |}.

(** Both nodes deliver the same [n] samples for every request; no node
    delivers. *)
Definition acquire_ramp (n : nat) (node1 : bool) (s e : Z)
  : outcome (option Trace) :=
  Returned (Some (ramp_trace 0 n)).

Definition acquire_nothing (node1 : bool) (s e : Z)
  : outcome (option Trace) :=
  Returned None.

(* ================================================================= *)
(** ** compute_psd_welch_mp *)

(** The argument [split] of [compute_psd_welch_mp]: None, a number of
    seconds, or a list of start-end pairs. *)
Inductive psd_split : Type :=
| Split_None
| Split_seconds (s : Q)
| Split_rows (rows : list (Z * Z)).

(** [p.starmap(f, l)] for tasks that can raise any exception. *)
Fixpoint starmap_raising {A B : Type} (f : A -> raising B) (l : list A)
  : raising (list B) :=
  match l with
  | [] => Ok []
  | a :: l' =>
      and_then (f a) (fun b =>
      and_then (starmap_raising f l') (fun bs => Ok (b :: bs)))
  end.

Section PsdMp.

Variable welch :
  ndarray -> Q -> string -> nat -> Z -> Z -> string
  -> outcome (list Q * list Q).
Variable level_dB : list Q -> list Q -> list Q.
Variable level_lin : list Q -> list Q -> list Q.
Variable InterpolatedUnivariateSpline : list Q -> list Q -> Q -> Q.
Variable Trace_slice : Trace -> Z -> Z -> Trace.
Variable cpu_count : nat.

Definition _psd_mp_helper (ooi_hyd_data_obj : OOIHydrophoneData)
  (win : string) (L : nat) (overlap : Q) (avg_method : string)
  (interpolate : option Q) (scale : string) : raising (option Psd) :=
  compute_psd_welch welch level_dB level_lin InterpolatedUnivariateSpline
    ooi_hyd_data_obj win L overlap avg_method interpolate scale.

(** [tmp_obj] of the loop [for row in split]. *)
Definition row_object (self : OOIHydrophoneData) (row : Z * Z)
  : outcome OOIHydrophoneData :=
  tr <- attribute (data self) ;;
  Returned (set_data (new_OOIHydrophoneData (fst row) (snd row))
              (Some (Trace_slice tr (fst row) (snd row)))).

(** The list [ooi_hyd_data_list] of [compute_psd_welch_mp]. *)
Definition psd_objects (self : OOIHydrophoneData) (split : psd_split)
  (N : nat) : outcome (list OOIHydrophoneData) :=
  match split with
  | Split_None => segmented_objects self (seq 0 N)
  | Split_seconds s => split_objects Trace_slice self s
  | Split_rows rows => starmap (row_object self) rows
  end.

(** [compute_psd_welch_mp(split, n_process, win, L, overlap,
    avg_method, interpolate, scale)]: what the call leaves in
    [self.psd_list]. *)
Definition compute_psd_welch_mp (self : OOIHydrophoneData)
  (split : psd_split) (n_process : option nat) (win : string) (L : nat)
  (overlap : Q) (avg_method : string) (interpolate : option Q)
  (scale : string) : raising (option (list (option Psd))) :=
  let N := match n_process with None => cpu_count | Some n => n end in
  and_then (lift (psd_objects self split N)) (fun ooi_hyd_data_list =>
  if match n_process with Some O => true | _ => false end
  then Fail (Builtin ValueError)
  else
    match
      starmap_raising
        (fun o => _psd_mp_helper o win L overlap avg_method interpolate scale)
        ooi_hyd_data_list
    with
    | Ok psd_list => Ok (Some psd_list)
    | Fail _ => Ok None
    end).

End PsdMp.

(* ================================================================= *)
(** * Properties *)

(** ** CalibrationCorrector *)

Lemma linspace_length (a b : Q) (N : nat) : length (linspace a b N) = N.
Proof.
  destruct N as [|[|n]]; simpl; trivial.
  now rewrite length_map, length_seq.
Qed.

Lemma linspace_nth (a b : Q) (N i : nat) :
  (i < N)%nat ->
  nth i (linspace a b N) 0
  == inject_Z (Z.of_nat i) * ((b - a) / inject_Z (Z.of_nat (N - 1))) + a.
Proof.
  intros Hi. destruct N as [|[|n]]; [lia | | ].
  - assert (i = O) by lia. subst i. simpl. ring.
  - unfold linspace.
    set (g := fun i0 : nat => _).
    rewrite (nth_indep _ 0 (g O)) by (now rewrite length_map, length_seq).
    rewrite map_nth, seq_nth by lia.
    subst g. cbv beta.
    replace (S (S n) - 1)%nat with (S n) by lia.
    rewrite Nat.add_0_l. reflexivity.
Qed.

Section CalibrationFacts.

Variable spline : list Q -> list Q -> Q -> Q.

(** C10. For every [N] the correction has exactly [N] coefficients: the
    spline through the 5-point calibration table, evaluated at the [N]
    frequencies [i * 32000/(N-1)], [i = 0 .. N-1]; whatever the state of
    the object (its data, their sampling rate), the result is the same. *)
Theorem freq_dependent_sensitivity_correct_spec
  (self : OOIHydrophoneData) (N : nat) :
  length (_freq_dependent_sensitivity_correct spline self N) = N
  /\ f_calib = [0; 13500; 27100; 40600; 54100]
  /\ sens_calib = [169; 1694 # 10; 1681 # 10; 1697 # 10; 1715 # 10]
  /\ (forall i, (i < N)%nat ->
        exists f_i,
          nth_error (_freq_dependent_sensitivity_correct spline self N) i
          = Some (spline f_calib sens_calib f_i)
          /\ f_i == inject_Z (Z.of_nat i)
                    * (32000 / inject_Z (Z.of_nat (N - 1))))
  /\ (forall self' : OOIHydrophoneData,
        _freq_dependent_sensitivity_correct spline self' N
        = _freq_dependent_sensitivity_correct spline self N).
Proof.
  unfold _freq_dependent_sensitivity_correct.
  repeat split.
  - now rewrite length_map, linspace_length.
  - intros i Hi. exists (nth i (linspace 0 32000 N) 0). split.
    + rewrite nth_error_map.
      rewrite (nth_error_nth' _ 0) by (now rewrite linspace_length).
      reflexivity.
    + rewrite linspace_nth by exact Hi.
      setoid_replace (32000 - 0) with 32000 by ring. ring.
Qed.

End CalibrationFacts.

(** ** SpectralAnalyzer *)

Lemma py_slice_length {A : Type} (l : list A) (i j : nat) :
  (i <= j)%nat -> (j <= length l)%nat -> length (py_slice l i j) = (j - i)%nat.
Proof.
  intros Hij Hj. unfold py_slice.
  rewrite length_firstn, length_skipn. lia.
Qed.

Lemma nd_slice_len (a : ndarray) (i j : nat) :
  (i <= j)%nat -> (j <= len a)%nat -> len (nd_slice a i j) = (j - i)%nat.
Proof.
  destruct a; simpl; apply py_slice_length.
Qed.

Lemma block_within (n L total : nat) :
  (n < total / L)%nat -> ((n + 1) * L <= total)%nat.
Proof.
  intros Hn.
  destruct (Nat.eq_dec L 0) as [->|HL]; [simpl in Hn; lia|].
  pose proof (Nat.Div0.mul_div_le total L).
  assert ((n + 1) * L <= L * (total / L))%nat by nia.
  lia.
Qed.

Section SpectralFacts.

Variable periodogram : ndarray -> Q -> string -> list Q * list Q.
Variable level_dB : list Q -> list Q -> list Q.
Variable spline : list Q -> list Q -> Q -> Q.

Lemma periodogram_loop_blocks (self : OOIHydrophoneData) (tr : Trace)
  (win : string) (L : nat) :
  periodogram_bins periodogram L ->
  forall m k time f specgram,
    (k + m <= len (tr_data tr) / L)%nat ->
    exists f',
      periodogram_loop periodogram level_dB spline self tr win L
        (seq k m) time f specgram
      = Some (time ++ map (bin_time self tr L) (seq k m), f',
              specgram ++ map (bin_values periodogram level_dB spline self tr win L) (seq k m)).
Proof.
  intros Hbins. induction m as [|m IH]; intros k time0 f specgram Hk.
  - exists f. simpl. now rewrite !app_nil_r.
  - cbn [seq periodogram_loop].
    destruct (periodogram _ _ _) as [f' Pxx] eqn:Hp.
    assert (Hlen : length Pxx = (L / 2 + 1)%nat).
    { change Pxx with (snd (f', Pxx)). rewrite <- Hp. apply Hbins.
      rewrite nd_slice_len.
      - lia.
      - nia.
      - apply block_within. lia. }
    rewrite Hlen, Nat.eqb_refl. cbn [negb].
    destruct (IH (S k) (time0 ++ [bin_time self tr L k]) f'
                (specgram ++ [bin_values periodogram level_dB spline self tr win L k])) as [f'' Hf''];
      [lia|].
    exists f''.
    assert (Hrow : bin_values periodogram level_dB spline self tr win L k
                   = level_dB Pxx
                       (_freq_dependent_sensitivity_correct spline self
                          (L / 2 + 1)))
      by (unfold bin_values; now rewrite Hp).
    rewrite <- Hrow. fold (bin_time self tr L k).
    rewrite Hf''. cbn [map]. now rewrite <- !app_assoc.
Qed.

(** What [compute_spectrogram] leaves in [self.spectrogram] for a trace
    of [nbins = len / L] full blocks: the bins of blocks
    [0 .. nbins - 2]. *)
Lemma compute_spectrogram_blocks (self : OOIHydrophoneData) (tr : Trace)
  (win : string) (L : nat) :
  periodogram_bins periodogram L ->
  data self = Some tr ->
  (0 < L)%nat ->
  let nbins := (len (tr_data tr) / L)%nat in
  (nbins <= 1)%nat
  /\ compute_spectrogram periodogram level_dB spline self win L
     = Returned (set_spectrogram self None)
  \/ (1 < nbins)%nat
  /\ exists f,
      compute_spectrogram periodogram level_dB spline self win L
      = Returned
          (set_spectrogram self
             (Some {| time := map (bin_time self tr L) (seq 0 (nbins - 1));
                      freq := f;
                      values := map (bin_values periodogram level_dB spline self tr win L)
                                  (seq 0 (nbins - 1)) |})).
Proof.
  intros Hbins Hdata HL nbins.
  unfold compute_spectrogram. rewrite Hdata.
  destruct (Nat.eqb_spec L 0) as [|_]; [lia|].
  fold nbins.
  destruct (periodogram_loop_blocks self tr win L Hbins (nbins - 1) 0 [] [] [])
    as [f Hf]; [unfold nbins; lia|].
  rewrite Hf. simpl app.
  rewrite length_map, length_seq.
  destruct (Nat.eqb_spec (nbins - 1) 0) as [H0|H0].
  - left. split; [lia|reflexivity].
  - right. split; [lia|]. exists f. reflexivity.
Qed.

(** C2. In periodogram mode a stream of [n] samples and block length
    [L] does not give [floor(n / L)] time bins: the loop runs over
    [range(nbins - 1)], so the last full block is dropped together with
    the remainder, and [floor(n / L) - 1] bins come out, the bins of
    blocks [0 .. floor(n / L) - 2]. *)
Theorem compute_spectrogram_drops_last_block (self : OOIHydrophoneData)
  (tr : Trace) (win : string) (L : nat) :
  periodogram_bins periodogram L ->
  data self = Some tr ->
  (0 < L)%nat ->
  (1 < len (tr_data tr) / L)%nat ->
  exists sp,
    compute_spectrogram periodogram level_dB spline self win L
    = Returned (set_spectrogram self (Some sp))
    /\ time sp = map (bin_time self tr L) (seq 0 (len (tr_data tr) / L - 1))
    /\ values sp
       = map (bin_values periodogram level_dB spline self tr win L)
           (seq 0 (len (tr_data tr) / L - 1))
    /\ length (time sp) = (len (tr_data tr) / L - 1)%nat
    /\ length (time sp) <> (len (tr_data tr) / L)%nat.
Proof.
  intros Hbins Hdata HL Hn.
  destruct (compute_spectrogram_blocks self tr win L Hbins Hdata HL)
    as [[Hle _]|[_ [f Hf]]]; [lia|].
  eexists. split; [exact Hf|]. cbn [time values].
  rewrite length_map, length_seq. repeat split; lia.
Qed.

(** ** ParallelSpectralCoordinator *)

Lemma concatenate_loop_all (l : list Spectrogram) :
  forall t0 v0,
    concatenate_loop (map Some l) t0 v0
    = Returned (t0 ++ concat (map time l), v0 ++ concat (map values l)).
Proof.
  induction l as [|s l IH]; intros t0 v0; cbn [map concatenate_loop concat].
  - now rewrite !app_nil_r.
  - rewrite IH. now rewrite <- !app_assoc.
Qed.

Lemma concatenate_loop_None (l : list (option Spectrogram)) :
  In None l -> forall t0 v0, concatenate_loop l t0 v0 = Raised AttributeError.
Proof.
  induction l as [|[s|] l IH]; intros Hin t0 v0; cbn [concatenate_loop].
  - destruct Hin.
  - apply IH. destruct Hin as [H|H]; [discriminate|exact H].
  - reflexivity.
Qed.

Lemma all_Some_or_None {A : Type} (l : list (option A)) :
  (exists l', l = map Some l') \/ In None l.
Proof.
  induction l as [|[a|] l IH].
  - left. now exists [].
  - destruct IH as [[l' ->]|H].
    + left. now exists (a :: l').
    + right. now right.
  - right. now left.
Qed.

Lemma concatenate_specgram_list_all (s0 : Spectrogram)
  (rest : list Spectrogram) :
  concatenate_specgram_list (map Some (s0 :: rest))
  = Returned {| time := concat (map time (s0 :: rest));
                freq := freq s0;
                values := concat (map values (s0 :: rest)) |}.
Proof.
  unfold concatenate_specgram_list.
  rewrite concatenate_loop_all. reflexivity.
Qed.

(** C5, as the code has it. The reduction compares no frequency axes:
    whenever every chunk has a spectrogram, it returns the time bins and
    the value rows of the chunks in chunk order with the frequency axis
    of the first chunk, also when the axes differ. It fails only for an
    empty list or for a chunk without spectrogram, and
    [compute_spectrogram_mp] then leaves [spectrogram] at None. *)
Theorem concatenate_specgram_list_spec :
  (forall (s0 : Spectrogram) (rest : list Spectrogram),
     concatenate_specgram_list (map Some (s0 :: rest))
     = Returned {| time := concat (map time (s0 :: rest));
                   freq := freq s0;
                   values := concat (map values (s0 :: rest)) |})
  /\ (forall specgram_list : list (option Spectrogram),
        (exists e, concatenate_specgram_list specgram_list = Raised e)
        <-> specgram_list = [] \/ In None specgram_list).
Proof.
  split.
  - apply concatenate_specgram_list_all.
  - intros l. split.
    + intros [e He].
      destruct l as [|o l]; [now left|right].
      destruct (all_Some_or_None (o :: l)) as [[l' Hl']|H]; [|exact H].
      exfalso. destruct l' as [|s0 rest]; [discriminate|].
      rewrite Hl', concatenate_specgram_list_all in He. discriminate.
    + intros [->|Hin].
      * exists IndexError. reflexivity.
      * exists AttributeError. unfold concatenate_specgram_list.
        now rewrite concatenate_loop_None.
Qed.

Lemma starmap_total {A B : Type} (f : A -> outcome B) (g : A -> B)
  (l : list A) :
  (forall a, In a l -> f a = Returned (g a)) ->
  starmap f l = Returned (map g l).
Proof.
  induction l as [|a l IH]; intros H; cbn [starmap map]; [reflexivity|].
  rewrite (H a) by now left. cbn [bind].
  rewrite IH by (intros; apply H; now right). reflexivity.
Qed.

Lemma segmented_objects_range (self : OOIHydrophoneData)
  (segmented : list Stream) (segments : list Trace) (range : list nat) :
  _data_segmented self = Some segmented ->
  map (fun st => nth_error st 0) segmented = map Some segments ->
  (forall i, In i range -> (i < length segments)%nat) ->
  segmented_objects self range
  = Returned (map (fun i => segment_object
                              (nth i segments (Build_Trace 0 0 0 (Plain []))))
                  range).
Proof.
  intros Hattr Hseg. induction range as [|i range IH]; intros Hr;
    cbn [segmented_objects map]; [reflexivity|].
  rewrite Hattr. cbn [attribute bind].
  assert (Hi : (i < length segments)%nat) by (apply Hr; now left).
  assert (Hnth : nth_error (map (fun st : list Trace => nth_error st 0)
                              segmented) i
                 = Some (Some (nth i segments (Build_Trace 0 0 0 (Plain []))))).
  { rewrite Hseg, nth_error_map.
    rewrite (nth_error_nth' _ (Build_Trace 0 0 0 (Plain []))) by exact Hi.
    reflexivity. }
  rewrite nth_error_map in Hnth.
  unfold subscript at 1.
  destruct (nth_error segmented i) as [st|] eqn:Est;
    change (list Trace) with Stream in Hnth; rewrite Est in Hnth;
    cbn [option_map] in Hnth; [|discriminate].
  cbn [bind]. injection Hnth as Hst.
  destruct st as [|tr0 st']; [discriminate|]. injection Hst as ->.
  unfold subscript at 1. cbn [nth_error bind].
  rewrite IH by (intros; apply Hr; now right). reflexivity.
Qed.

Lemma map_nth_seq {A : Type} (l : list A) (d : A) :
  map (fun i => nth i l d) (seq 0 (length l)) = l.
Proof.
  induction l as [|a l IH]; [reflexivity|].
  cbn [length seq map nth]. f_equal.
  rewrite <- seq_shift, map_map. exact IH.
Qed.

Lemma length_concat_uniform {A : Type} (ll : list (list A)) (p : nat) :
  Forall (fun l => length l = p) ll ->
  length (concat ll) = (length ll * p)%nat.
Proof.
  induction 1 as [|l ll Hl _ IH]; [reflexivity|].
  cbn [concat length]. rewrite length_app, IH, Hl. lia.
Qed.

Lemma starmap_all_Some {A B : Type} (f : A -> outcome (option B))
  (P : B -> Prop) (l : list A) :
  (forall a, In a l -> exists b, f a = Returned (Some b) /\ P b) ->
  exists bs,
    starmap f l = Returned (map Some bs)
    /\ Forall P bs /\ length bs = length l.
Proof.
  induction l as [|a l IH]; intros H.
  - exists []. repeat split. constructor.
  - destruct (H a (or_introl eq_refl)) as [b [Hb HP]].
    destruct IH as [bs [Hbs [HF Hlen]]]; [intros; apply H; now right|].
    exists (b :: bs). cbn [starmap map length].
    rewrite Hb. cbn [bind]. rewrite Hbs. cbn [bind].
    repeat split; [now constructor|now rewrite Hlen].
Qed.

Lemma spectrogram_mp_helper_segment (s : Trace) (win : string) (L m : nat) :
  periodogram_bins periodogram L ->
  (0 < L)%nat ->
  (len (tr_data s) / L)%nat = m ->
  (2 <= m)%nat ->
  exists sp,
    _spectrogram_mp_helper periodogram level_dB spline
      (segment_object s) win L
    = Returned (Some sp)
    /\ (length (time sp) = (m - 1)%nat /\ length (values sp) = (m - 1)%nat).
Proof.
  intros Hbins HL Hm H2. unfold _spectrogram_mp_helper.
  destruct (compute_spectrogram_blocks (segment_object s) s win L Hbins
              eq_refl HL)
    as [[Hle _]|[_ [f Hf]]]; [lia|].
  rewrite Hf. cbn [bind set_spectrogram spectrogram].
  eexists. split; [reflexivity|]. cbn [time values].
  rewrite !length_map, !length_seq. lia.
Qed.

Section Coordinator.

Variable Trace_slice : Trace -> Z -> Z -> Trace.
Variable cpu_count : nat.

(** C1. The parallel computation is not bin-identical to the single
    one. When the trace holds [c * m] whole blocks of [L] samples and is
    handed over as [c] chunks of [m] whole blocks each, the single run
    returns [c * m - 1] time bins and the parallel run [c * (m - 1)]:
    every chunk loses its own last block. So one chunk and four chunks
    of the same trace differ in their number of bins. *)
Theorem compute_spectrogram_mp_loses_bins (self : OOIHydrophoneData)
  (tr : Trace) (segmented : list Stream) (segments : list Trace)
  (win : string) (L m : nat) :
  periodogram_bins periodogram L ->
  (0 < L)%nat ->
  data self = Some tr ->
  _data_segmented self = Some segmented ->
  map (fun st => nth_error st 0) segmented = map Some segments ->
  Forall (fun s => (len (tr_data s) / L)%nat = m) segments ->
  (len (tr_data tr) / L)%nat = (length segments * m)%nat ->
  (2 <= m)%nat ->
  (2 <= length segments)%nat ->
  exists single parallel,
    compute_spectrogram periodogram level_dB spline self win L
    = Returned (set_spectrogram self (Some single))
    /\ compute_spectrogram_mp periodogram level_dB spline Trace_slice
         cpu_count self None (Some (length segments)) win L
       = Returned (set_spectrogram self (Some parallel))
    /\ length (time single) = (length segments * m - 1)%nat
    /\ length (values single) = (length segments * m - 1)%nat
    /\ length (time parallel) = (length segments * (m - 1))%nat
    /\ length (values parallel) = (length segments * (m - 1))%nat
    /\ (length (time parallel) < length (time single))%nat.
Proof.
  intros Hbins HL Hdata Hattr Hseg Hm Htot H2 Hc.
  destruct (compute_spectrogram_blocks self tr win L Hbins Hdata HL)
    as [[Hle _]|[_ [f Hf]]]; [nia|].
  rewrite Htot in Hf.
  unfold compute_spectrogram_mp.
  rewrite (segmented_objects_range self segmented segments _ Hattr Hseg)
    by (intros i Hi; apply in_seq in Hi; lia).
  cbn [bind].
  rewrite <- (map_map (fun i => nth i segments (Build_Trace 0 0 0 (Plain [])))
                segment_object), map_nth_seq.
  destruct (length segments) as [|c] eqn:Ec; [lia|].
  destruct (starmap_all_Some
              (fun o => _spectrogram_mp_helper periodogram level_dB spline
                          o win L)
              (fun sp => length (time sp) = (m - 1)%nat
                         /\ length (values sp) = (m - 1)%nat)
              (map segment_object segments))
    as [sps [Hsps [HF Hlen]]].
  { intros o Ho. apply in_map_iff in Ho. destruct Ho as [s [<- Hs]].
    rewrite Forall_forall in Hm.
    apply spectrogram_mp_helper_segment; auto. }
  rewrite Hsps. cbn [bind].
  rewrite length_map, Ec in Hlen.
  destruct sps as [|s0 rest]; [discriminate|].
  rewrite concatenate_specgram_list_all.
  do 2 eexists. split; [exact Hf|]. split; [reflexivity|].
  cbn [time values]. rewrite !length_map, !length_seq.
  rewrite (length_concat_uniform _ (m - 1)),
          (length_concat_uniform _ (m - 1)).
  - rewrite !length_map, Hlen. repeat split; nia.
  - apply Forall_map. eapply Forall_impl; [|exact HF]. now intros ? [_ ?].
  - apply Forall_map. eapply Forall_impl; [|exact HF]. now intros ? [? _].
Qed.

End Coordinator.

End SpectralFacts.

(** ** SegmentCatalog *)

Lemma length_concat_repeat {A : Type} (l : list A) (k : nat) :
  length (concat (repeat l k)) = (k * length l)%nat.
Proof.
  induction k as [|k IH]; cbn [repeat concat]; [reflexivity|].
  rewrite length_app, IH. lia.
Qed.

Lemma subscript_last_nonempty {A : Type} (l : list A) :
  l <> [] -> exists a, subscript_last l = Returned a.
Proof.
  intros Hl. destruct l as [|a0 l]; [congruence|].
  unfold subscript_last, subscript.
  destruct (nth_error (a0 :: l) (length (a0 :: l) - 1)) eqn:E.
  - eexists. reflexivity.
  - apply nth_error_None in E. cbn [length] in E. lia.
Qed.

(** The day loop is left because its test fails, not for lack of fuel. *)
Lemma day_loop_exits (fuel : nat) (day_start endtime : Z) :
  ((endtime - day_start) / day_us + 1 <= Z.of_nat fuel)%Z ->
  let n := Z.of_nat (day_loop fuel day_start endtime) in
  (endtime <= day_start + n * day_us)%Z
  /\ (0 < n -> day_start + (n - 1) * day_us < endtime)%Z.
Proof.
  revert day_start. induction fuel as [|fuel IH]; intros d Hfuel.
  - cbn [day_loop]. cbv zeta. 
    assert (0 < day_us)%Z by (unfold day_us; lia).
    assert ((endtime - d) / day_us < 0)%Z by lia.
    assert (endtime - d < 0)%Z.
    { destruct (Z_lt_le_dec (endtime - d) 0) as [|Hge]; [assumption|].
      pose proof (Z.div_pos (endtime - d) day_us Hge H). lia. }
    cbn. lia.
  - cbn [day_loop].
    assert (Hday : (0 < day_us)%Z) by (unfold day_us; lia).
    destruct (Z.ltb_spec d endtime) as [Hlt|Hge]; cbv zeta.
    + assert (Hf : ((endtime - (d + day_us)) / day_us + 1 <= Z.of_nat fuel)%Z).
      { replace (endtime - (d + day_us))%Z
          with (endtime - d + (-1) * day_us)%Z by lia.
        rewrite Z.div_add by lia. lia. }
      destruct (IH (d + day_us)%Z Hf) as [H1 H2].
      rewrite Nat2Z.inj_succ. split; [lia|].
      intros _.
      destruct (day_loop fuel (d + day_us) endtime) as [|k] eqn:Ek.
      * cbn. lia.
      * specialize (H2 ltac:(lia)). lia.
    + cbn. lia.
Qed.

(** X29. The loop over the further days of a window runs once for
    each midnight after [starttime] that lies before [endtime]: it is
    left at the first [day_start] that is not before [endtime], and
    every round before that began before [endtime]. *)
Lemma further_days_exits (starttime endtime : Z) :
  let day_start := (midnight starttime + day_us)%Z in
  let n := Z.of_nat (further_days starttime endtime) in
  (endtime <= day_start + n * day_us)%Z
  /\ (0 < n -> day_start + (n - 1) * day_us < endtime)%Z.
Proof.
  cbv zeta. unfold further_days. apply day_loop_exits.
  lia.
Qed.

Section CatalogFacts.

Variable web_crawler_noise : Z -> option (list url).

(** C8, as the code has it. [get_acoustic_data] gives up for a long
    list only behind the switch [limit_seed_files]: when the switch is
    set, the listings could be read, and the crawled list (every entry
    of the listing, as often as the day loop appends it, counted before
    the [.mseed] filter and without the file of the day before) has more
    than 1000 entries, it returns None with [data] None and
    [data_available] False. *)
Theorem get_acoustic_data_too_many_files (self : OOIHydrophoneData)
  (starttime endtime : Z) (append : bool) (first_day : list url) :
  limit_seed_files self = true ->
  web_crawler_noise (midnight starttime) = Some first_day ->
  (append = true ->
   exists prev,
     web_crawler_noise (midnight (starttime - day_us)) = Some prev
     /\ keep_mseed prev <> []) ->
  (1000 < length first_day * (1 + further_days starttime endtime))%nat ->
  exists self',
    get_acoustic_data_urls web_crawler_noise self starttime endtime append
    = Returned (Return_None self')
    /\ data self' = None
    /\ data_available self' = Some false.
Proof.
  intros Hlimit Hday Hprev Hlen.
  unfold get_acoustic_data_urls.
  assert (Hp : exists u,
             (if append then
                match web_crawler_noise (midnight (starttime - day_us)) with
                | None => Raised TypeError
                | Some l => subscript_last (keep_mseed l)
                end
              else Returned no_url) = Returned u).
  { destruct append.
    - destruct (Hprev eq_refl) as [prev [-> Hne]].
      now apply subscript_last_nonempty.
    - now exists no_url. }
  destruct Hp as [u ->]. cbn [bind].
  rewrite Hday.
  cbn [limit_seed_files set_data_gap set_window]. rewrite Hlimit.
  rewrite length_app, length_concat_repeat.
  destruct (Nat.ltb_spec 1000
              (length first_day
               + further_days starttime endtime * length first_day))
    as [_|Hle]; [|lia].
  cbn [andb]. eexists. split; [reflexivity|]. split; reflexivity.
Qed.

End CatalogFacts.

(** ** SegmentSelector *)

Lemma contains_desired_data_iff (self : OOIHydrophoneData) (s e : Z) :
  (s <= e)%Z ->
  (starttime self < endtime self)%Z ->
  contains_desired_data self s e = true
  <-> (s < endtime self /\ starttime self <= e)%Z.
Proof.
  intros Hse Hwin. unfold contains_desired_data.
  rewrite !orb_true_iff, !andb_true_iff, !Z.leb_le, !Z.ltb_lt. lia.
Qed.

Lemma time_ordered_adjacent (l : list url) :
  time_ordered l = true ->
  forall i, (S i < length l)%nat ->
    (utc (nth i l no_url) < utc (nth (S i) l no_url))%Z.
Proof.
  induction l as [|a l IH]; intros Hord i Hi; [cbn in Hi; lia|].
  destruct l as [|b l]; [cbn in Hi; lia|].
  cbn [time_ordered] in Hord. apply andb_true_iff in Hord.
  destruct Hord as [Hab Hrest]. apply Z.ltb_lt in Hab.
  destruct i as [|i]; [exact Hab|].
  cbn [nth]. apply (IH Hrest i). cbn [length] in *. lia.
Qed.

Lemma time_ordered_lt (l : list url) :
  time_ordered l = true ->
  forall i j, (i < j)%nat -> (j < length l)%nat ->
    (utc (nth i l no_url) < utc (nth j l no_url))%Z.
Proof.
  intros Hord i j Hij. induction Hij as [|j Hij IH]; intros Hj.
  - now apply time_ordered_adjacent.
  - pose proof (time_ordered_adjacent l Hord j Hj).
    assert (S i <= j)%nat by exact Hij.
    specialize (IH ltac:(lia)). lia.
Qed.

Lemma end_of_day_ge (t : Z) : (t <= end_of_day t)%Z.
Proof.
  unfold end_of_day, midnight, day_us.
  pose proof (Z.mod_pos_bound t (86400 * 1000000) ltac:(lia)).
  pose proof (Z.div_mod t (86400 * 1000000) ltac:(lia)).
  lia.
Qed.

Lemma utc_le_stop (l : list url) (i : nat) :
  time_ordered l = true ->
  (i < length l)%nat ->
  (utc (nth i l no_url) <= utc_time_url_stop l i)%Z.
Proof.
  intros Hord Hi. unfold utc_time_url_stop.
  destruct (Nat.eqb_spec i (length l - 1)) as [_|Hne]; cbn [negb].
  - apply end_of_day_ge.
  - rewrite Nat.add_1_r. apply Z.lt_le_incl.
    apply time_ordered_adjacent; [exact Hord|lia].
Qed.

Lemma stop_monotone (l : list url) (i j : nat) :
  time_ordered l = true ->
  (i < j)%nat -> (j < length l)%nat ->
  (utc_time_url_stop l i <= utc_time_url_stop l j)%Z.
Proof.
  intros Hord Hij Hj.
  pose proof (utc_le_stop l j Hord Hj) as Hjs.
  unfold utc_time_url_stop at 1.
  destruct (Nat.eqb_spec i (length l - 1)) as [|_]; [lia|]. cbn [negb].
  rewrite Nat.add_1_r.
  destruct (Nat.eq_dec (S i) j) as [<-|Hne]; [exact Hjs|].
  pose proof (time_ordered_lt l Hord (S i) j ltac:(lia) Hj). lia.
Qed.

Lemma filter_none {A : Type} (f : A -> bool) (l : list A) :
  (forall x, In x l -> f x = false) -> filter f l = [].
Proof.
  induction l as [|a l IH]; intros H; cbn [filter]; [reflexivity|].
  rewrite (H a) by now left. apply IH. intros; apply H; now right.
Qed.

(** Whether file [i] passes the test of the loop. *)
Lemma in_window_spec (self : OOIHydrophoneData) (l : list url) (i : nat) :
  time_ordered l = true ->
  (starttime self < endtime self)%Z ->
  (i < length l)%nat ->
  in_window self l i = true
  <-> (utc (nth i l no_url) < endtime self
       /\ starttime self <= utc_time_url_stop l i)%Z.
Proof.
  intros Hord Hwin Hi. unfold in_window.
  apply contains_desired_data_iff; [now apply utc_le_stop|exact Hwin].
Qed.

(** Without padding the loop keeps the files that pass the test, in
    the order of the list; the [break] cuts nothing off. *)
Lemma valid_url_loop_filter (self : OOIHydrophoneData) (l : list url) :
  time_ordered l = true ->
  (starttime self < endtime self)%Z ->
  forall m k first_file valid,
    (k + m = length l)%nat ->
    (first_file = false ->
     exists j, (j < k)%nat /\ in_window self l j = true) ->
    valid_url_loop self false l (seq k m) first_file valid
    = valid ++ map (fun i => nth i l no_url)
                 (filter (in_window self l) (seq k m)).
Proof.
  intros Hord Hwin. induction m as [|m IH]; intros k ff valid Hk Hff.
  - cbn. now rewrite app_nil_r.
  - cbn [seq valid_url_loop filter].
    fold (in_window self l k).
    destruct (in_window self l k) eqn:Hin.
    + rewrite IH; [cbn [map]; now rewrite <- app_assoc|lia|].
      intros _. exists k. split; [lia|exact Hin].
    + destruct ff; cbn [negb].
      * apply IH; [lia|discriminate].
      * destruct (Hff eq_refl) as [j [Hj Hjin]].
        apply in_window_spec in Hjin; [|assumption|assumption|lia].
        assert (Hnone : forall i, (k <= i)%nat -> (i < length l)%nat ->
                          in_window self l i = false).
        { intros i Hki Hi.
          destruct (in_window self l i) eqn:Hi'; [|reflexivity].
          apply in_window_spec in Hi'; [|assumption|assumption|lia].
          assert (Hk' : ~ (utc (nth k l no_url) < endtime self
                           /\ starttime self <= utc_time_url_stop l k)%Z).
          { intros Hc. apply in_window_spec in Hc;
              [congruence|assumption|assumption|lia]. }
          pose proof (stop_monotone l j k Hord Hj ltac:(lia)).
          destruct (Nat.eq_dec k i) as [->|Hne]; [tauto|].
          pose proof (time_ordered_lt l Hord k i ltac:(lia) Hi). lia. }
        replace (filter (in_window self l) (seq (S k) m)) with (@nil nat).
        { cbn. now rewrite app_nil_r. }
        symmetry. apply filter_none.
        intros i Hi. apply in_seq in Hi. apply Hnone; lia.
Qed.

(** C4, as the code has it. For a time-ordered list and a window
    [start < end], the selection without padding holds file [i] exactly
    when [start_i < end] and [start <= stop_i], that is when the closed
    interval [[start_i, stop_i]] meets the window: a file whose stop
    time equals the start of the window is selected as well. *)
Theorem valid_data_url_list_closed_interval (self : OOIHydrophoneData)
  (data_url_list : list url) (i : nat) :
  time_ordered data_url_list = true ->
  (starttime self < endtime self)%Z ->
  (i < length data_url_list)%nat ->
  In (nth i data_url_list no_url)
     (valid_data_url_list self false data_url_list)
  <-> (utc (nth i data_url_list no_url) < endtime self
       /\ starttime self <= utc_time_url_stop data_url_list i)%Z.
Proof.
  intros Hord Hwin Hi. unfold valid_data_url_list.
  rewrite (valid_url_loop_filter self data_url_list Hord Hwin)
    by (try reflexivity; discriminate).
  cbn [app]. rewrite <- (in_window_spec self data_url_list i Hord Hwin Hi).
  rewrite in_map_iff. split.
  - intros [j [Hj Hjin]]. apply filter_In in Hjin.
    destruct Hjin as [Hjr Hjw]. apply in_seq in Hjr.
    destruct (Nat.lt_total i j) as [Hlt|[->|Hlt]]; [|exact Hjw|].
    + pose proof (time_ordered_lt data_url_list Hord i j Hlt ltac:(lia)).
      rewrite Hj in *. lia.
    + pose proof (time_ordered_lt data_url_list Hord j i Hlt Hi).
      rewrite Hj in *. lia.
  - intros Hw. exists i. split; [reflexivity|].
    apply filter_In. split; [apply in_seq; lia|exact Hw].
Qed.

Lemma time_ordered_NoDup (l : list url) : time_ordered l = true -> NoDup l.
Proof.
  intros Hord. apply (NoDup_nth l no_url). intros i j Hi Hj Heq.
  destruct (Nat.lt_total i j) as [Hlt|[->|Hlt]]; [|reflexivity|].
  - pose proof (time_ordered_lt l Hord i j Hlt Hj). rewrite Heq in *. lia.
  - pose proof (time_ordered_lt l Hord j i Hlt Hi). rewrite Heq in *. lia.
Qed.

Lemma time_ordered_pick (l : list url) (idx : list nat) :
  time_ordered l = true ->
  StronglySorted lt idx ->
  Forall (fun i => (i < length l)%nat) idx ->
  time_ordered (map (fun i => nth i l no_url) idx) = true.
Proof.
  intros Hord Hs. induction Hs as [|a rest Hrest IH Ha]; intros Hin;
    [reflexivity|].
  inversion Hin as [|? ? Hal Hinr]; subst.
  destruct rest as [|b rest']; [reflexivity|].
  cbn [map time_ordered]. apply andb_true_iff. split.
  - apply Z.ltb_lt. inversion Ha; subst. inversion Hinr; subst.
    now apply time_ordered_lt.
  - apply (IH Hinr).
Qed.

Lemma StronglySorted_seq (k m : nat) : StronglySorted lt (seq k m).
Proof.
  revert k. induction m as [|m IH]; intros k; cbn [seq]; constructor.
  - apply IH.
  - apply Forall_forall. intros i Hi. apply in_seq in Hi. lia.
Qed.

Lemma StronglySorted_filter (f : nat -> bool) (l : list nat) :
  StronglySorted lt l -> StronglySorted lt (filter f l).
Proof.
  induction 1 as [|a l Hl IH Ha]; cbn [filter]; [constructor|].
  destruct (f a); [|exact IH]. constructor; [exact IH|].
  apply Forall_forall. intros i Hi. apply filter_In in Hi.
  rewrite Forall_forall in Ha. now apply Ha.
Qed.

(** X28. Without padding, the selection from a time-ordered list is
    the list of the files that pass the test, in catalog order: it is
    time-ordered and has no duplicate. *)
Lemma valid_data_url_list_unpadded (self : OOIHydrophoneData)
  (data_url_list : list url) :
  time_ordered data_url_list = true ->
  (starttime self < endtime self)%Z ->
  valid_data_url_list self false data_url_list
  = map (fun i => nth i data_url_list no_url)
      (filter (in_window self data_url_list)
         (seq 0 (length data_url_list)))
  /\ time_ordered (valid_data_url_list self false data_url_list) = true
  /\ NoDup (valid_data_url_list self false data_url_list).
Proof.
  intros Hord Hwin.
  assert (Heq : valid_data_url_list self false data_url_list
                = map (fun i => nth i data_url_list no_url)
                    (filter (in_window self data_url_list)
                       (seq 0 (length data_url_list)))).
  { unfold valid_data_url_list.
    now rewrite (valid_url_loop_filter self data_url_list Hord Hwin)
      by (try reflexivity; discriminate). }
  assert (Ht : time_ordered (valid_data_url_list self false data_url_list)
               = true).
  { rewrite Heq. apply time_ordered_pick; [exact Hord| |].
    - apply StronglySorted_filter, StronglySorted_seq.
    - apply Forall_forall. intros i Hi. apply filter_In in Hi.
      destruct Hi as [Hi _]. apply in_seq in Hi. lia. }
  split; [exact Heq|]. split; [exact Ht|]. now apply time_ordered_NoDup.
Qed.

(** ** ConcurrentFetcher and MergeEngine *)

Lemma add_streams_nothing (st_list : list (option Stream)) :
  Forall (fun st => st = None) st_list ->
  forall st_all, add_streams st_list st_all = st_all.
Proof.
  induction 1 as [|st l Hst _ IH]; intros st_all; [reflexivity|].
  subst st. cbn [add_streams truthy]. apply IH.
Qed.

Lemma drop_None_nothing {A : Type} (l : list (option A)) :
  Forall (fun st => st = None) l -> drop_None l = [].
Proof.
  induction 1 as [|st l Hst _ IH]; [reflexivity|].
  subst st. exact IH.
Qed.

Lemma Qsum_map_sub (l : list Q) (m : Q) :
  Qsum (map (fun x => x - m) l)
  == Qsum l - inject_Z (Z.of_nat (length l)) * m.
Proof.
  induction l as [|x l IH].
  - cbn. ring.
  - cbn [map Qsum length]. rewrite IH.
    rewrite Nat2Z.inj_succ, <- Z.add_1_r, inject_Z_plus. ring.
Qed.

Lemma compressed_map (f : Q -> Q) (xs : list (option Q)) :
  compressed (map (option_map f) xs) = map f (compressed xs).
Proof.
  induction xs as [|[x|] xs IH]; cbn [map option_map compressed];
    [reflexivity|now rewrite IH|exact IH].
Qed.

(** After the mean of the valid samples is taken off, the valid samples
    have mean 0. *)
Lemma np_mean_demeaned (xs : list (option Q)) :
  compressed xs <> [] ->
  np_mean (nd_sub (Masked xs) (np_mean (Masked xs))) == 0.
Proof.
  intros Hne. cbn [nd_sub np_mean].
  rewrite compressed_map, length_map, Qsum_map_sub.
  set (n := inject_Z (Z.of_nat (length (compressed xs)))).
  assert (Hn : ~ n == 0).
  { unfold n. intros H. 
    assert (Z.of_nat (length (compressed xs)) = 0%Z) as H0.
    { unfold Qeq in H. cbn in H. lia. }
    destruct (compressed xs); [congruence|cbn [length] in H0; lia]. }
  field. exact Hn.
Qed.

Section MergeFacts.

Variable Stream_merge : bool -> Stream -> outcome Stream.
Variable Stream_slice : Stream -> Z -> Z -> Stream.
Variable Stream_filter : Stream -> Q -> Q -> outcome Stream.

Lemma filter_and_store_data_gap (self : OOIHydrophoneData) (st : Stream)
  (fmin fmax : option Q) :
  data_gap (fst (filter_and_store Stream_filter self st fmin fmax))
  = data_gap self.
Proof.
  unfold filter_and_store.
  destruct (bind _ _) as [[st' tr]|e]; reflexivity.
Qed.

(** C6. When every position of the fetch result is None the code
    neither reports that no data is available nor returns:
    [get_acoustic_data_conc] calls [merge] on None and raises
    AttributeError for each of the three gap modes, and
    [get_acoustic_data_mp] takes the first element of the list emptied
    of its None entries and raises IndexError. *)
Theorem all_fetches_failed_raises (self : OOIHydrophoneData)
  (st_list : list (option Stream)) (starttime endtime : Z)
  (fmin fmax : option Q) :
  Forall (fun st => st = None) st_list ->
  (data_gap_mode self = 0 \/ data_gap_mode self = 1
   \/ data_gap_mode self = 2)%Z ->
  merge_st_list Stream_merge Stream_slice Stream_filter self st_list fmin fmax
  = Raised AttributeError
  /\ merge_data_list Stream_merge Stream_filter self starttime endtime
       (Returned st_list) fmin fmax
     = Raised IndexError.
Proof.
  intros Hnone Hmode. split.
  - unfold merge_st_list. rewrite (add_streams_nothing st_list Hnone).
    destruct Hmode as [ -> | [ -> | -> ] ]; reflexivity.
  - unfold merge_data_list. rewrite (drop_None_nothing st_list Hnone).
    reflexivity.
Qed.

(** C7. Gap mode 2 of [get_acoustic_data_conc], for a merged trace with
    gaps and at least one valid sample: the mean of the valid samples is
    taken off every valid sample, so that the valid positions have mean
    0; every gap position becomes 0; the array handed on is a plain one,
    and the object that comes back has [data_gap] False. *)
Theorem zero_filled_demeaned (self : OOIHydrophoneData)
  (st_list : list (option Stream)) (fmin fmax : option Q)
  (st : Stream) (tr : Trace) (xs : list (option Q)) :
  data_gap_mode self = 2%Z ->
  data_gap self = false ->
  add_streams st_list None = Some st ->
  Stream_merge false st = Returned [tr] ->
  tr_data tr = Masked xs ->
  compressed xs <> [] ->
  (forall t s e t',
     nth_error (Stream_slice [t] s e) 0 = Some t' ->
     is_masked (tr_data t') = is_masked (tr_data t)) ->
  let m := np_mean (Masked xs) in
  exists ys,
    fill_masked (nd_sub (Masked xs) m) 0 = Returned (Plain ys)
    /\ length ys = length xs
    /\ (forall i x, nth_error xs i = Some (Some x) ->
                    nth_error ys i = Some (x - m))
    /\ (forall i, nth_error xs i = Some None -> nth_error ys i = Some 0)
    /\ np_mean (nd_sub (Masked xs) m) == 0
    /\ merge_st_list Stream_merge Stream_slice Stream_filter
         self st_list fmin fmax
       = match Stream_slice [set_tr_data tr (Plain ys)]
                 (starttime self) (endtime self) with
         | [] => Raised IndexError
         | sliced =>
             Returned (filter_and_store Stream_filter self sliced fmin fmax)
         end
    /\ (forall self' r,
          merge_st_list Stream_merge Stream_slice Stream_filter
            self st_list fmin fmax
          = Returned (self', r) ->
          data_gap self' = false).
Proof.
  intros Hmode Hgap Hadd Hmerge Hdata Hvalid Hslice m.
  set (ys := map (fun o : option Q =>
                    match o with Some x => x | None => 0 end)
               (map (option_map (fun x => x - m)) xs)).
  assert (Hrun :
            merge_st_list Stream_merge Stream_slice Stream_filter
              self st_list fmin fmax
            = match Stream_slice [set_tr_data tr (Plain ys)]
                      (starttime self) (endtime self) with
              | [] => Raised IndexError
              | sliced =>
                  Returned
                    (filter_and_store Stream_filter self sliced fmin fmax)
              end).
  { unfold merge_st_list. rewrite Hadd, Hmode. cbn [Z.eqb Pos.eqb].
    rewrite Hmerge. cbn [bind subscript nth_error tl].
    rewrite Hdata. cbn [nd_sub fill_masked bind]. fold m. fold ys.
    destruct (Stream_slice [set_tr_data tr (Plain ys)]
                (starttime self) (endtime self)) as [|t' rest] eqn:Hs;
      [reflexivity|].
    cbn [subscript nth_error bind].
    assert (Ht' : is_masked (tr_data t') = false).
    { rewrite (Hslice (set_tr_data tr (Plain ys)) (starttime self)
                 (endtime self) t'); [reflexivity|now rewrite Hs]. }
    rewrite Ht'. reflexivity. }
  exists ys. split; [reflexivity|]. split.
  { unfold ys. now rewrite !length_map. }
  split.
  { intros i x Hi. unfold ys. rewrite !nth_error_map, Hi. reflexivity. }
  split.
  { intros i Hi. unfold ys. rewrite !nth_error_map, Hi. reflexivity. }
  split; [now apply np_mean_demeaned|].
  split; [exact Hrun|].
  intros self' r Hret. rewrite Hrun in Hret.
  destruct (Stream_slice _ _ _) as [|t' rest]; [discriminate|].
  injection Hret as Hret.
  assert (self' = fst (filter_and_store Stream_filter self (t' :: rest)
                         fmin fmax)) as -> by now rewrite Hret.
  now rewrite filter_and_store_data_gap.
Qed.

End MergeFacts.

(* ================================================================= *)
(** * The model at concrete inputs *)

Lemma unit_periodogram_bins (L : nat) : periodogram_bins unit_periodogram L.
Proof.
  intros x fs win Hx. unfold unit_periodogram. cbn [snd].
  now rewrite repeat_length, Hx.
Qed.

(** Eight samples and [L = 4]: two full blocks, one time bin. *)
Lemma compute_spectrogram_drops_last_block_witness :
  let tr := ramp_trace 0 8 in
  let self := loaded tr [] in
  (len (tr_data tr) / 4 = 2)%nat
  /\ exists sp,
      compute_spectrogram unit_periodogram plain_level flat_spline
        self "hann" 4
      = Returned (set_spectrogram self (Some sp))
      /\ time sp = [0%Z].
Proof.
  intros tr self. split; [reflexivity|].
  destruct (compute_spectrogram_drops_last_block
              unit_periodogram plain_level flat_spline self tr "hann" 4
              (unit_periodogram_bins 4) eq_refl
              ltac:(lia) ltac:(vm_compute; lia))
    as [sp [Hrun [Htime _]]].
  exists sp. split; [exact Hrun|]. rewrite Htime. reflexivity.
Defined.

(** Sixteen samples, [L = 2]: the single run has 7 time bins, the run
    over four chunks of four samples has 4. *)
Lemma compute_spectrogram_mp_loses_bins_witness :
  let tr := ramp_trace 0 16 in
  let segments :=
    [ramp_trace 0 4; ramp_trace 4 4; ramp_trace 8 4; ramp_trace 12 4] in
  let self := loaded tr (map (fun s => [s]) segments) in
  exists single parallel,
    compute_spectrogram unit_periodogram plain_level flat_spline self "hann" 2
    = Returned (set_spectrogram self (Some single))
    /\ compute_spectrogram_mp unit_periodogram plain_level flat_spline
         (fun t _ _ => t) 8 self None (Some 4%nat) "hann" 2
       = Returned (set_spectrogram self (Some parallel))
    /\ length (time single) = 7%nat
    /\ length (time parallel) = 4%nat.
Proof.
  intros tr segments self.
  destruct (compute_spectrogram_mp_loses_bins
              unit_periodogram plain_level flat_spline (fun t _ _ => t) 8
              self tr (map (fun s => [s]) segments) segments "hann" 2 2
              (unit_periodogram_bins 2) ltac:(lia) eq_refl eq_refl eq_refl
              ltac:(repeat constructor) eq_refl ltac:(lia)
              ltac:(cbn; lia))
    as [single [parallel [H1 [H2 [H3 [_ [H5 _]]]]]]].
  exists single, parallel. repeat split; assumption.
Defined.

(** Two chunk spectrograms with different frequency axes are reduced
    without complaint, on the axis of the first. *)
Lemma concatenate_specgram_list_accepts_mismatch :
  let a := {| time := [0%Z]; freq := [0; 1]; values := [[1; 1]] |} in
  let b := {| time := [1000000%Z]; freq := [0; 2]; values := [[1; 1]] |} in
  freq a <> freq b
  /\ ~ (nth 1 (freq a) 0 == nth 1 (freq b) 0)
  /\ concatenate_specgram_list [Some a; Some b]
     = Returned {| time := [0%Z; 1000000%Z]; freq := [0; 1];
                   values := [[1; 1]; [1; 1]] |}.
Proof.
  cbv zeta. split; [discriminate|]. split; [|reflexivity].
  cbn. intros H. discriminate H.
Qed.

(** A file that stops when the window starts is selected, although its
    interval [[0, 60 s)] has no point in the window [[60 s, 100 s)]. *)
Lemma valid_data_url_list_keeps_file_before_window :
  let self := set_window (new_OOIHydrophoneData 0 0) 60000000 100000000 in
  let l := [mseed 0; mseed 60000000] in
  time_ordered l = true
  /\ utc (nth 0 l no_url) = 0%Z
  /\ utc_time_url_stop l 0 = 60000000%Z
  /\ ~ (exists t : Z,
          (utc (nth 0 l no_url) <= t < utc_time_url_stop l 0)%Z
          /\ (starttime self <= t < endtime self)%Z)
  /\ In (nth 0 l no_url) (valid_data_url_list self false l).
Proof.
  cbv zeta. repeat split.
  - cbn. intros [t [H1 H2]]. lia.
  - cbn. now left.
Qed.

Lemma valid_data_url_list_closed_interval_witness :
  let self := set_window (new_OOIHydrophoneData 0 0) 60000000 100000000 in
  let l := [mseed 0; mseed 60000000] in
  In (nth 0 l no_url) (valid_data_url_list self false l)
  <-> (utc (nth 0 l no_url) < endtime self
       /\ starttime self <= utc_time_url_stop l 0)%Z.
Proof.
  intros self l.
  apply (valid_data_url_list_closed_interval self l 0);
    [reflexivity|reflexivity|cbn; lia].
Defined.

(** With [limit_seed_files] off, 1001 files are taken on. *)
Lemma get_acoustic_data_urls_unlimited :
  let self :=
    {| starttime := 0; endtime := 0; limit_seed_files := false;
       data_gap_mode := 0; data := None; data_available := None;
       data_gap := false; spectrogram := None; _data_segmented := None |} in
  exists self' l,
    get_acoustic_data_urls crowded_listing self 0 1000000 false
    = Returned (Continue self' l)
    /\ length l = 1001%nat.
Proof.
  cbv zeta. eexists. eexists. split.
  - vm_compute. reflexivity.
  - vm_compute. reflexivity.
Qed.

Lemma get_acoustic_data_too_many_files_witness :
  let self := new_OOIHydrophoneData 0 0 in
  exists self',
    get_acoustic_data_urls crowded_listing self 0 1000000 true
    = Returned (Return_None self')
    /\ data self' = None
    /\ data_available self' = Some false.
Proof.
  intros self.
  apply (get_acoustic_data_too_many_files crowded_listing self 0 1000000 true
           (map (fun i => mseed (0 + Z.of_nat i)) (seq 0 1001))).
  - reflexivity.
  - reflexivity.
  - intros _. eexists. split; [reflexivity|]. vm_compute. discriminate.
  - vm_compute. lia.
Defined.

(** C9. With padding, the list that is walked through holds the first
    file of the day a second time, in front of its last file
    ([np.insert(.., -1, ..)] of the first file of the same day), and the
    selection keeps both copies: for the window 00:00:10 - 00:11:40 of a
    day with files at 00:00, 00:05 and 00:10 the selected list is
    23:55, 00:00, 00:05, 00:00, 00:10. It has a duplicate and is not in
    time order. *)
Theorem valid_data_url_list_repeats_first_file :
  let starttime := 86410000000%Z in
  let endtime := 87100000000%Z in
  let self := set_window (new_OOIHydrophoneData 0 0) starttime endtime in
  let padded :=
    [mseed 86100000000; mseed 86400000000; mseed 86700000000;
     mseed 86400000000; mseed 87000000000] in
  time_ordered (five_minute_listing (midnight starttime)) = true
  /\ get_acoustic_data_conc_urls five_minute_listing starttime endtime true
     = Returned padded
  /\ valid_data_url_list self true padded = padded
  /\ ~ NoDup (valid_data_url_list self true padded)
  /\ time_ordered (valid_data_url_list self true padded) = false.
Proof.
  cbv zeta. split; [reflexivity|]. split; [reflexivity|].
  split; [reflexivity|]. split; [|reflexivity].
  intros H. change (valid_data_url_list _ _ _) with
    [mseed 86100000000; mseed 86400000000; mseed 86700000000;
     mseed 86400000000; mseed 87000000000] in H.
  inversion H as [|x l Hx Hl]; subst.
  inversion Hl as [|y l' Hy Hl']; subst.
  apply Hy. right. now left.
Qed.

Lemma all_fetches_failed_raises_witness :
  let self := new_OOIHydrophoneData 0 1000000 in
  merge_st_list merge_as_is slice_as_is filter_as_is self [None; None]
    None None
  = Raised AttributeError
  /\ merge_data_list merge_as_is filter_as_is self 0 1000000
       (Returned [None; None]) None None
     = Raised IndexError.
Proof.
  intros self.
  apply (all_fetches_failed_raises merge_as_is slice_as_is filter_as_is
           self [None; None] 0 1000000 None None).
  - repeat constructor.
  - left. reflexivity.
Defined.

(** Samples 1, gap, 3: the valid mean 2 is taken off and the gap is
    filled, which gives -1, 0, 1. *)
Lemma zero_filled_demeaned_witness :
  let xs := [Some 1; None; Some 3] in
  let tr := {| stats_starttime := 0; stats_endtime := 2000000;
               stats_sampling_rate := 1; tr_data := Masked xs |} in
  let self :=
    {| starttime := 0; endtime := 3000000; limit_seed_files := true;
       data_gap_mode := 2; data := None; data_available := None;
       data_gap := false; spectrogram := None; _data_segmented := None |} in
  let m := np_mean (Masked xs) in
  m == 2
  /\ exists ys,
      fill_masked (nd_sub (Masked xs) m) 0 = Returned (Plain ys)
      /\ length ys = length xs
      /\ (forall i x, nth_error xs i = Some (Some x) ->
                      nth_error ys i = Some (x - m))
      /\ (forall i, nth_error xs i = Some None -> nth_error ys i = Some 0)
      /\ np_mean (nd_sub (Masked xs) m) == 0
      /\ merge_st_list merge_as_is slice_as_is filter_as_is
           self [Some [tr]] None None
         = match slice_as_is [set_tr_data tr (Plain ys)]
                   (starttime self) (endtime self) with
           | [] => Raised IndexError
           | sliced =>
               Returned (filter_and_store filter_as_is self sliced None None)
           end
      /\ (forall self' r,
            merge_st_list merge_as_is slice_as_is filter_as_is
              self [Some [tr]] None None
            = Returned (self', r) ->
            data_gap self' = false).
Proof.
  intros xs tr self m. split; [reflexivity|].
  apply (zero_filled_demeaned merge_as_is slice_as_is filter_as_is
           self [Some [tr]] None None [tr] tr xs).
  - reflexivity.
  - reflexivity.
  - reflexivity.
  - reflexivity.
  - reflexivity.
  - discriminate.
  - intros t s e t' H. cbn in H. injection H as <-. reflexivity.
Defined.

(* ================================================================= *)
(** * Further properties of the modelled code *)

(** ** compute_spectrogram and compute_spectrogram_mp *)

Section SpectrogramShape.

Variable periodogram : ndarray -> Q -> string -> list Q * list Q.
Variable level_dB : list Q -> list Q -> list Q.
Variable spline : list Q -> list Q -> Q -> Q.

Lemma periodogram_loop_good (self : OOIHydrophoneData) (tr : Trace)
  (win : string) (L : nat) (ns : list nat) :
  forall time f specgram,
    Forall (block_ok periodogram tr win L) ns ->
    exists f',
      periodogram_loop periodogram level_dB spline self tr win L
        ns time f specgram
      = Some (time ++ map (bin_time self tr L) ns, f',
              specgram
              ++ map (bin_values periodogram level_dB spline self tr win L) ns).
Proof.
  induction ns as [|n ns IH]; intros time0 f specgram Hok.
  - exists f. cbn. now rewrite !app_nil_r.
  - inversion Hok as [|? ? Hn Hns]; subst. cbn [periodogram_loop].
    unfold block_ok in Hn.
    destruct (periodogram _ _ _) as [f' Pxx] eqn:Hp. cbn [snd] in Hn.
    rewrite Hn, Nat.eqb_refl. cbn [negb].
    destruct (IH (time0 ++ [bin_time self tr L n]) f'
                (specgram
                 ++ [bin_values periodogram level_dB spline self tr win L n])
                Hns) as [f'' Hf''].
    exists f''.
    assert (Hrow : bin_values periodogram level_dB spline self tr win L n
                   = level_dB Pxx
                       (_freq_dependent_sensitivity_correct spline self
                          (L / 2 + 1)))
      by (unfold bin_values; now rewrite Hp).
    rewrite <- Hrow. fold (bin_time self tr L n).
    rewrite Hf''. cbn [map]. now rewrite <- !app_assoc.
Qed.

Lemma periodogram_loop_bad (self : OOIHydrophoneData) (tr : Trace)
  (win : string) (L : nat) (ns : list nat) :
  forall time f specgram,
    ~ Forall (block_ok periodogram tr win L) ns ->
    periodogram_loop periodogram level_dB spline self tr win L
      ns time f specgram
    = None.
Proof.
  induction ns as [|n ns IH]; intros time0 f specgram Hbad.
  - exfalso. apply Hbad. constructor.
  - cbn [periodogram_loop].
    destruct (periodogram _ _ _) as [f' Pxx] eqn:Hp.
    destruct (Nat.eqb_spec (length Pxx) (L / 2 + 1)) as [Heq|Hne];
      cbn [negb]; [|reflexivity].
    apply IH. intros Hns. apply Hbad. constructor; [|exact Hns].
    unfold block_ok. now rewrite Hp.
Qed.

Lemma block_ok_dec (tr : Trace) (win : string) (L : nat) (ns : list nat) :
  Forall (block_ok periodogram tr win L) ns
  \/ ~ Forall (block_ok periodogram tr win L) ns.
Proof.
  induction ns as [|n ns [IH|IH]].
  - left. constructor.
  - destruct (Nat.eq_dec
                (length (snd (periodogram
                                (nd_slice (tr_data tr) (n * L) ((n + 1) * L))
                                (stats_sampling_rate tr) win)))
                (L / 2 + 1)) as [Heq|Hne].
    + left. now constructor.
    + right. intros H. inversion H; subst. contradiction.
  - right. intros H. inversion H; subst. contradiction.
Qed.

(** X1. [compute_spectrogram] gives all time bins or none. With
    [nbins = len / L]: a spectrogram comes out exactly when
    [nbins > 1] and each of the blocks [0 .. nbins - 2] has a
    periodogram of [int(L/2) + 1] bins; it then has one time stamp and
    one row of values for each of these blocks. In every other case
    [spectrogram] is None; a shorter spectrogram never comes out. *)
Theorem compute_spectrogram_all_or_none (self : OOIHydrophoneData)
  (tr : Trace) (win : string) (L : nat) :
  data self = Some tr ->
  (0 < L)%nat ->
  let nbins := (len (tr_data tr) / L)%nat in
  let good :=
    (1 < nbins)%nat
    /\ Forall (block_ok periodogram tr win L) (seq 0 (nbins - 1)) in
  (good ->
   exists sp,
     compute_spectrogram periodogram level_dB spline self win L
     = Returned (set_spectrogram self (Some sp))
     /\ time sp = map (bin_time self tr L) (seq 0 (nbins - 1))
     /\ values sp
        = map (bin_values periodogram level_dB spline self tr win L)
            (seq 0 (nbins - 1))
     /\ length (values sp) = length (time sp))
  /\ (~ good ->
      compute_spectrogram periodogram level_dB spline self win L
      = Returned (set_spectrogram self None)).
Proof.
  intros Hdata HL nbins good. unfold compute_spectrogram. rewrite Hdata.
  destruct (Nat.eqb_spec L 0) as [|_]; [lia|]. fold nbins. split.
  - intros [Hn Hok].
    destruct (periodogram_loop_good self tr win L _ [] [] [] Hok) as [f Hf].
    rewrite Hf. cbn [app]. rewrite length_map, length_seq.
    destruct (Nat.eqb_spec (nbins - 1) 0) as [|_]; [lia|].
    eexists. split; [reflexivity|]. cbn [time values].
    repeat split. now rewrite !length_map.
  - intros Hbad.
    destruct (block_ok_dec tr win L (seq 0 (nbins - 1))) as [Hok|Hnok].
    + destruct (periodogram_loop_good self tr win L _ [] [] [] Hok)
        as [f Hf].
      rewrite Hf. cbn [app]. rewrite length_map, length_seq.
      destruct (Nat.eqb_spec (nbins - 1) 0) as [|Hne]; [reflexivity|].
      exfalso. apply Hbad. split; [lia|exact Hok].
    + now rewrite periodogram_loop_bad.
Qed.

End SpectrogramShape.

Lemma starmap_inv {A B : Type} (f : A -> outcome B) (l : list A) :
  forall bs, starmap f l = Returned bs ->
             Forall2 (fun a b => f a = Returned b) l bs.
Proof.
  induction l as [|a l IH]; intros bs H; cbn [starmap] in H.
  - injection H as <-. constructor.
  - destruct (f a) as [b|e] eqn:Hb; cbn [bind] in H; [|discriminate].
    destruct (starmap f l) as [bs'|e] eqn:Hbs; cbn [bind] in H;
      [|discriminate].
    injection H as <-. constructor; [exact Hb|now apply IH].
Qed.

Lemma starmap_Forall2 {A B : Type} (f : A -> outcome B) (l : list A)
  (bs : list B) :
  Forall2 (fun a b => f a = Returned b) l bs -> starmap f l = Returned bs.
Proof.
  induction 1 as [|a b l bs Hab _ IH]; cbn [starmap]; [reflexivity|].
  now rewrite Hab, IH.
Qed.

Lemma Forall2_map_Some {A B : Type} (R : A -> B -> Prop) (l : list A)
  (bs : list B) :
  Forall2 (fun a b => R a b) l bs ->
  Forall2 (fun a (o : option B) => exists b, o = Some b /\ R a b)
    l (map Some bs).
Proof.
  induction 1; cbn [map]; constructor; eauto.
Qed.

Section ParallelShape.

Variable periodogram : ndarray -> Q -> string -> list Q * list Q.
Variable level_dB : list Q -> list Q -> list Q.
Variable spline : list Q -> list Q -> Q -> Q.
Variable Trace_slice : Trace -> Z -> Z -> Trace.
Variable cpu_count : nat.

Lemma compute_spectrogram_mp_unfold (self : OOIHydrophoneData)
  (split : option Q) (n_process : option nat) (win : string) (L : nat)
  (objs : list OOIHydrophoneData) :
  chunk_objects Trace_slice self split
    (match n_process with None => cpu_count | Some n => n end)
  = Returned objs ->
  n_process <> Some O ->
  compute_spectrogram_mp periodogram level_dB spline Trace_slice cpu_count
    self split n_process win L
  = match
      (specgram_list <-
         starmap (fun o => _spectrogram_mp_helper periodogram level_dB
                             spline o win L) objs ;;
       concatenate_specgram_list specgram_list)
    with
    | Returned s => Returned (set_spectrogram self (Some s))
    | Raised _ => Returned (set_spectrogram self None)
    end.
Proof.
  intros Hobjs Hn. unfold compute_spectrogram_mp.
  unfold chunk_objects in Hobjs. rewrite Hobjs. cbn [bind].
  destruct n_process as [[|n]|]; [congruence|reflexivity|reflexivity].
Qed.

(** X2. Inside the pool nothing escapes and nothing is dropped: once
    the chunk objects exist, [compute_spectrogram_mp] returns. If every
    chunk has a spectrogram, the result is their concatenation in chunk
    order on the frequency axis of the first chunk; if the list of
    chunks is empty, or one chunk raises or has no spectrogram (too
    short, no data, [L = 0]), [spectrogram] is None, whatever the other
    chunks have computed. *)
Theorem compute_spectrogram_mp_all_or_none (self : OOIHydrophoneData)
  (split : option Q) (n_process : option nat) (win : string) (L : nat)
  (objs : list OOIHydrophoneData) :
  chunk_objects Trace_slice self split
    (match n_process with None => cpu_count | Some n => n end)
  = Returned objs ->
  n_process <> Some O ->
  (forall s0 rest,
     Forall2 (fun o sp =>
                _spectrogram_mp_helper periodogram level_dB spline o win L
                = Returned (Some sp)) objs (s0 :: rest) ->
     compute_spectrogram_mp periodogram level_dB spline Trace_slice cpu_count
       self split n_process win L
     = Returned (set_spectrogram self (Some (concatenated s0 rest))))
  /\ (objs = []
      \/ (exists o, In o objs
                    /\ forall sp,
                         _spectrogram_mp_helper periodogram level_dB spline
                           o win L
                         <> Returned (Some sp)) ->
      compute_spectrogram_mp periodogram level_dB spline Trace_slice cpu_count
        self split n_process win L
      = Returned (set_spectrogram self None)).
Proof.
  intros Hobjs Hn.
  rewrite (compute_spectrogram_mp_unfold self split n_process win L objs
             Hobjs Hn).
  split.
  - intros s0 rest HF.
    rewrite (starmap_Forall2 _ objs (map Some (s0 :: rest))).
    + cbn [bind]. now rewrite concatenate_specgram_list_all.
    + clear Hobjs. revert HF. generalize (s0 :: rest). intros sps HF.
      induction HF; cbn [map]; constructor; assumption.
  - intros [->|[o [Ho Hbad]]]; [reflexivity|].
    destruct (starmap _ objs) as [bs|e] eqn:Hs; cbn [bind]; [|reflexivity].
    apply starmap_inv in Hs.
    destruct (all_Some_or_None bs) as [[sps ->]|Hnone].
    + exfalso. clear Hobjs. revert sps Hs.
      induction objs as [|a objs IH]; intros sps Hs; [destruct Ho|].
      destruct sps as [|sp sps]; inversion Hs; subst.
      destruct Ho as [->|Ho]; [now apply (Hbad sp)|eauto].
    + unfold concatenate_specgram_list.
      now rewrite concatenate_loop_None.
Qed.

Lemma periodogram_loop_lengths (self : OOIHydrophoneData) (tr : Trace)
  (win : string) (L : nat) (ns : list nat) :
  forall time f specgram time' f' specgram',
    periodogram_loop periodogram level_dB spline self tr win L
      ns time f specgram
    = Some (time', f', specgram') ->
    length time = length specgram ->
    length time' = length specgram'.
Proof.
  induction ns as [|n ns IH]; intros t f s t' f' s' H Hlen;
    cbn [periodogram_loop] in H.
  - now injection H as <- _ <-.
  - destruct (periodogram _ _ _) as [f0 Pxx].
    destruct (negb _); [discriminate|].
    apply IH in H; [exact H|]. rewrite !length_app. cbn. lia.
Qed.

Lemma spectrogram_mp_helper_rows (o : OOIHydrophoneData) (win : string)
  (L : nat) (sp : Spectrogram) :
  _spectrogram_mp_helper periodogram level_dB spline o win L
  = Returned (Some sp) ->
  length (time sp) = length (values sp) /\ time sp <> [].
Proof.
  unfold _spectrogram_mp_helper, compute_spectrogram.
  destruct (data o) as [tr|]; [|discriminate].
  destruct (L =? 0)%nat; [discriminate|].
  destruct (periodogram_loop _ _ _ _ _ _ _ _ _ _ _) as [[[t f] s]|] eqn:Hl;
    [|discriminate].
  destruct (Nat.eqb_spec (length t) 0) as [|Hne]; [discriminate|].
  cbn [bind set_spectrogram spectrogram]. intros H. injection H as <-.
  cbn [time values]. split.
  - now apply (periodogram_loop_lengths _ _ _ _ _ _ _ _ _ _ _ Hl).
  - intros ->. now apply Hne.
Qed.

Lemma concat_rows (l : list Spectrogram) :
  Forall (fun s => length (time s) = length (values s) /\ time s <> []) l ->
  length (concat (map values l)) = length (concat (map time l)).
Proof.
  induction 1 as [|s l [Hs _] _ IH]; [reflexivity|].
  cbn [map concat]. rewrite !length_app. lia.
Qed.

(** X3. Whatever [compute_spectrogram_mp] leaves in [spectrogram] has
    as many rows of values as time bins, and at least one, for each way
    of splitting and each number of processes. *)
Theorem compute_spectrogram_mp_rows (self self' : OOIHydrophoneData)
  (split : option Q) (n_process : option nat) (win : string) (L : nat)
  (sp : Spectrogram) :
  compute_spectrogram_mp periodogram level_dB spline Trace_slice cpu_count
    self split n_process win L
  = Returned self' ->
  spectrogram self' = Some sp ->
  length (values sp) = length (time sp) /\ time sp <> [].
Proof.
  unfold compute_spectrogram_mp.
  destruct (match split with
            | None => segmented_objects self _
            | Some s => split_objects Trace_slice self s
            end) as [objs|e]; cbn [bind]; [|discriminate].
  destruct (match n_process with Some O => true | _ => false end);
    [discriminate|].
  destruct (starmap _ objs) as [bs|e] eqn:Hs; cbn [bind].
  2:{ intros H. injection H as <-. discriminate. }
  apply starmap_inv in Hs.
  destruct (all_Some_or_None bs) as [[sps ->]|Hnone].
  - destruct sps as [|s0 rest].
    + cbn. intros H. injection H as <-. discriminate.
    + rewrite concatenate_specgram_list_all.
      intros H. injection H as <-. cbn [set_spectrogram spectrogram].
      intros H. injection H as <-. cbn [time values].
      assert (HF : Forall (fun s => length (time s) = length (values s)
                                    /\ time s <> []) (s0 :: rest)).
      { clear - Hs. revert objs Hs. generalize (s0 :: rest).
        induction l as [|s l IH]; intros objs Hs; [constructor|].
        destruct objs as [|o objs]; inversion Hs; subst.
        constructor; [|eauto].
        eapply spectrogram_mp_helper_rows; eassumption. }
      split.
      * apply (concat_rows (s0 :: rest) HF).
      * inversion HF as [|? ? [_ Hne] _]; subst. cbn [map concat].
        destruct (time s0); [congruence|discriminate].
  - unfold concatenate_specgram_list.
    rewrite concatenate_loop_None by exact Hnone. cbn [bind].
    intros H. injection H as <-. discriminate.
Qed.

End ParallelShape.

(** ** The time windows of the chunks *)

Lemma round_half_even_integer (x : Q) (z : Z) :
  x == inject_Z z -> round_half_even x = z.
Proof.
  intros H. unfold Qeq in H. cbn in H. unfold round_half_even.
  assert (Hn : Qnum x = (z * Zpos (Qden x))%Z) by lia.
  rewrite Hn, Z.div_mul, Z.mod_mul by lia.
  now destruct (Qden x).
Qed.

Lemma timedelta_seconds_0 (x : Q) : timedelta_seconds (inject_Z 0 * x) = 0%Z.
Proof.
  unfold timedelta_seconds. apply round_half_even_integer. cbn. ring.
Qed.

Lemma tiles_chain (s e : Z) (t : nat -> Z) (m : nat) :
  forall k,
    tiles (t k) e
      (map (fun i => (t i, t (i + 1)%nat)) (seq k m) ++ [(t (k + m)%nat, e)]).
Proof.
  induction m as [|m IH]; intros k; cbn [seq map app tiles].
  - rewrite Nat.add_0_r. now split.
  - split; [reflexivity|].
    specialize (IH (S k)).
    replace (S k + m)%nat with (k + S m)%nat in IH by lia.
    replace (k + 1)%nat with (S k) by lia.
    destruct (map _ (seq (S k) m) ++ [(t (k + S m)%nat, e)]) eqn:E;
      [destruct (map _ (seq (S k) m)); discriminate|].
    exact IH.
Qed.

(** X4. [get_acoustic_data_mp] hands out [N] windows that tile the
    request: the first begins at [starttime], each begins where the one
    before ends, and the last ends at [endtime] exactly. For [N = 0] the
    division by [N] raises ZeroDivisionError. *)
Theorem get_data_list_tiles (starttime endtime : Z) (N : nat) :
  (N = O -> get_data_list starttime endtime N = Raised ZeroDivisionError)
  /\ ((0 < N)%nat ->
      exists ws,
        get_data_list starttime endtime N = Returned ws
        /\ length ws = N
        /\ tiles starttime endtime ws).
Proof.
  split; [now intros ->|]. intros HN. unfold get_data_list.
  destruct (Nat.eqb_spec N 0) as [|_]; [lia|].
  eexists. split; [reflexivity|]. split.
  { now rewrite length_map, length_seq. }
  set (spp := (total_seconds starttime endtime / inject_Z (Z.of_nat N))%Q).
  set (t := fun i : nat =>
              (starttime
               + timedelta_seconds (inject_Z (Z.of_nat i) * spp))%Z).
  change (tiles starttime endtime
            (map (fun i => (t i, t (i + 1)%nat)) (seq 0 N))).
  destruct N as [|m]; [lia|].
  rewrite seq_S, map_app. cbn [map]. rewrite Nat.add_0_l.
  assert (Ht0 : t O = starttime).
  { unfold t. change (Z.of_nat 0) with 0%Z.
    rewrite timedelta_seconds_0. lia. }
  assert (HtN : t (m + 1)%nat = endtime).
  { unfold t, timedelta_seconds.
    rewrite (round_half_even_integer _ (endtime - starttime)); [lia|].
    unfold spp, total_seconds. replace (m + 1)%nat with (S m) by lia.
    field. intros H. unfold Qeq in H. cbn in H. lia. }
  rewrite HtN. rewrite <- Ht0 at 1.
  apply (tiles_chain (t O) endtime t m 0).
Qed.

Lemma Qceiling_pos (x : Q) : 0 < x -> (0 < Qceiling x)%Z.
Proof.
  intros Hx. pose proof (Qle_ceiling x) as H.
  assert (Hc : 0 < inject_Z (Qceiling x)) by (eapply Qlt_le_trans; eauto).
  unfold Qlt in Hc. cbn in Hc. lia.
Qed.

Section SplitWindows.

Variable Trace_slice : Trace -> Z -> Z -> Trace.

(** X5. For [split > 0] seconds and a window with data,
    [compute_spectrogram_mp] cuts the window into
    [n_seg = ceil(total_seconds / split)] chunks that tile it: the
    first begins at [starttime], each begins where the one before ends,
    the last ends at [endtime]; the data of each chunk is the slice of
    [self.data] over its own window. *)
Theorem split_objects_tile (self : OOIHydrophoneData) (tr : Trace)
  (split : Q) :
  0 < split ->
  (starttime self < endtime self)%Z ->
  data self = Some tr ->
  exists objs,
    split_objects Trace_slice self split = Returned objs
    /\ Z.of_nat (length objs)
       = Qceiling (total_seconds (starttime self) (endtime self) / split)
    /\ tiles (starttime self) (endtime self) (map window objs)
    /\ Forall (fun o => data o
                        = Some (Trace_slice tr (starttime o) (endtime o)))
         objs.
Proof.
  intros Hsplit Hwin Hdata. unfold split_objects.
  assert (Hne : Qeq_bool split 0 = false).
  { destruct (Qeq_bool split 0) eqn:E; [|reflexivity].
    apply Qeq_bool_eq in E. rewrite E in Hsplit.
    now apply Qlt_irrefl in Hsplit. }
  rewrite Hne.
  set (total := total_seconds (starttime self) (endtime self)).
  assert (Htotal : 0 < total / split).
  { apply Qlt_shift_div_l; [exact Hsplit|].
    unfold total, total_seconds.
    setoid_replace (0 * split) with 0 by ring.
    apply Qlt_shift_div_l; [reflexivity|].
    setoid_replace (0 * 1000000) with 0 by ring.
    unfold Qlt. cbn. lia. }
  pose proof (Qceiling_pos _ Htotal) as Hn.
  set (n_seg := Qceiling (total / split)) in *.
  destruct (Z.eqb_spec n_seg 0) as [|_]; [lia|].
  rewrite Hdata. eexists. split; [reflexivity|].
  set (spp := (total / inject_Z n_seg)%Q).
  set (t := fun i : nat =>
              (starttime self
               + timedelta_seconds (inject_Z (Z.of_nat i) * spp))%Z).
  set (m := Z.to_nat (n_seg - 1)).
  assert (Hm : Z.of_nat m = (n_seg - 1)%Z) by (unfold m; lia).
  split; [rewrite length_app, length_map, length_seq; cbn; lia|]. split.
  - rewrite map_app, map_map. cbn [map window starttime endtime set_data
                                     new_OOIHydrophoneData].
    rewrite <- Hm.
    assert (Ht0 : t O = starttime self).
    { unfold t. change (Z.of_nat 0) with 0%Z.
      rewrite timedelta_seconds_0. lia. }
    rewrite <- Ht0 at 1.
    apply (tiles_chain (t O) (endtime self) t m 0).
  - apply Forall_app. split.
    + apply Forall_forall. intros o Ho. apply in_map_iff in Ho.
      destruct Ho as [k [<- _]]. reflexivity.
    + constructor; [reflexivity|constructor].
Qed.

End SplitWindows.

(** ** What the acquisition leaves behind *)

Lemma add_streams_from (st_list : list (option Stream)) :
  forall all : Stream,
    all <> [] ->
    add_streams st_list (Some all) = Some (all ++ concat (drop_None st_list)).
Proof.
  induction st_list as [|o l IH]; intros all Hall; cbn [add_streams drop_None].
  - cbn. now rewrite app_nil_r.
  - destruct o as [[|tr s]|]; cbn [truthy concat].
    + now rewrite IH.
    + rewrite IH by (destruct all; discriminate).
      now rewrite <- app_assoc.
    + now apply IH.
Qed.

Lemma add_streams_all (st_list : list (option Stream)) :
  add_streams st_list None
  = if existsb truthy st_list
    then Some (concat (drop_None st_list))
    else None.
Proof.
  induction st_list as [|o l IH]; [reflexivity|].
  cbn [add_streams existsb drop_None].
  destruct o as [[|tr s]|]; cbn [truthy orb concat app].
  - exact IH.
  - now rewrite add_streams_from.
  - exact IH.
Qed.

(** X6. The loop that adds up the fetched streams: the result is None
    exactly when no stream with a trace was fetched; otherwise it is the
    traces of all fetched streams, one stream after the other in the
    order of the list (the order in which the fetches completed). *)
Theorem add_streams_concat (st_list : list (option Stream)) :
  (add_streams st_list None = None
   <-> forall st, In st st_list -> st = None \/ st = Some [])
  /\ (forall all, add_streams st_list None = Some all ->
                  all = concat (drop_None st_list) /\ all <> []).
Proof.
  rewrite add_streams_all. split.
  - split.
    + intros H st Hin.
      destruct (existsb truthy st_list) eqn:E; [discriminate|].
      destruct st as [[|tr s]|]; auto.
      assert (existsb truthy st_list = true); [|congruence].
      apply existsb_exists. eexists. split; [exact Hin|reflexivity].
    + intros H. destruct (existsb truthy st_list) eqn:E; [|reflexivity].
      apply existsb_exists in E. destruct E as [st [Hin Ht]].
      destruct (H st Hin) as [->| ->]; discriminate.
  - intros all H. destruct (existsb truthy st_list) eqn:E; [|discriminate].
    injection H as <-. split; [reflexivity|].
    apply existsb_exists in E. destruct E as [st [Hin Ht]].
    destruct st as [[|tr s]|]; try discriminate.
    clear Ht. induction st_list as [|o l IH]; [destruct Hin|].
    destruct Hin as [->|Hin]; cbn [drop_None concat]; [discriminate|].
    destruct o as [s0|]; [|now apply IH].
    intros Hc. apply app_eq_nil in Hc. destruct Hc as [_ Hc].
    now apply IH.
Qed.

Section Settled.

Variable Stream_merge : bool -> Stream -> outcome Stream.
Variable Stream_slice : Stream -> Z -> Z -> Stream.
Variable Stream_filter : Stream -> Q -> Q -> outcome Stream.

Lemma filter_and_store_settled (before self : OOIHydrophoneData)
  (st : Stream) (fmin fmax : option Q) :
  settled before (filter_and_store Stream_filter self st fmin fmax).
Proof.
  unfold filter_and_store, settled.
  destruct (bind _ _) as [[st' tr]|e] eqn:Hb; cbn [fst snd].
  - exists tr. repeat split.
    destruct (match fmin with Some _ => _ | None => _ end) as [s|];
      cbn [bind] in Hb; [|discriminate].
    unfold subscript in Hb.
    destruct (nth_error s 0) eqn:Hn; cbn [bind] in Hb; [|discriminate].
    now injection Hb as <- <-.
  - right. split; reflexivity.
Qed.

(** X7. [get_acoustic_data_conc] after the fetch, whenever it returns:
    a returned stream begins with the trace left in [data], and
    [data_available] is True; if None is returned, either no attribute
    was touched (invalid gap mode) or [data] is None and
    [data_available] is False. *)
Theorem merge_st_list_settled (self self' : OOIHydrophoneData)
  (st_list : list (option Stream)) (fmin fmax : option Q)
  (r : option Stream) :
  merge_st_list Stream_merge Stream_slice Stream_filter self st_list
    fmin fmax
  = Returned (self', r) ->
  settled self (self', r).
Proof.
  unfold merge_st_list.
  match goal with
  | |- bind ?m _ = _ -> _ => destruct m as [[st|]|e]
  end; cbn [bind]; [| |discriminate].
  - destruct (Stream_slice _ _ _) as [|t rest];
      cbn [subscript nth_error bind length Nat.eqb]; [discriminate|].
    intros H. injection H as H. rewrite <- H.
    apply filter_and_store_settled.
  - intros H. injection H as <- <-. now left.
Qed.

End Settled.

Section GapFree.

Variable Stream_merge : bool -> Stream -> outcome Stream.
Variable Stream_slice : Stream -> Z -> Z -> Stream.
Variable Stream_filter : Stream -> Q -> Q -> outcome Stream.

(** X8. Gap mode 2 needs a gap: when the merged trace is a plain array
    (the fetched files join without gap), [get_acoustic_data_conc]
    raises AttributeError at [data.fill_value = 0] and returns
    nothing. *)
Theorem zero_fill_needs_gap (self : OOIHydrophoneData)
  (st_list : list (option Stream)) (fmin fmax : option Q)
  (st rest : Stream) (tr : Trace) (xs : list Q) :
  data_gap_mode self = 2%Z ->
  add_streams st_list None = Some st ->
  Stream_merge false st = Returned (tr :: rest) ->
  tr_data tr = Plain xs ->
  merge_st_list Stream_merge Stream_slice Stream_filter self st_list
    fmin fmax
  = Raised AttributeError.
Proof.
  intros Hmode Hadd Hmerge Hdata. unfold merge_st_list.
  rewrite Hadd, Hmode. cbn [Z.eqb Pos.eqb].
  rewrite Hmerge. cbn [bind subscript nth_error]. rewrite Hdata.
  reflexivity.
Qed.

End GapFree.

(** ** get_acoustic_data_mp followed by compute_spectrogram_mp *)

Lemma segmented_objects_short (self : OOIHydrophoneData)
  (segmented : list Stream) (range : list nat) :
  _data_segmented self = Some segmented ->
  (exists i, In i range /\ (length segmented <= i)%nat) ->
  segmented_objects self range = Raised IndexError.
Proof.
  intros Hattr. induction range as [|i range IH]; intros [k [Hk Hlen]];
    [destruct Hk|].
  cbn [segmented_objects]. rewrite Hattr. cbn [attribute bind].
  unfold subscript at 1.
  destruct (nth_error segmented i) as [st|] eqn:Hi; cbn [bind];
    [|reflexivity].
  unfold subscript at 1.
  destruct (nth_error st 0) as [tr|]; cbn [bind]; [|reflexivity].
  destruct Hk as [->|Hk].
  - apply nth_error_None in Hlen. congruence.
  - rewrite IH by eauto. reflexivity.
Qed.

Lemma drop_None_length {A : Type} (l : list (option A)) :
  In None l -> (length (drop_None l) < length l)%nat.
Proof.
  induction l as [|[a|] l IH]; intros Hin; cbn [drop_None length].
  - destruct Hin.
  - destruct Hin as [H|H]; [discriminate|]. specialize (IH H). lia.
  - clear. induction l as [|[a|] l IH]; cbn [drop_None length]; lia.
Qed.

Lemma starmap_length {A B : Type} (f : A -> outcome B) (l : list A)
  (bs : list B) :
  starmap f l = Returned bs -> length bs = length l.
Proof.
  intros H. apply starmap_inv in H.
  induction H; cbn [length]; congruence.
Qed.

Lemma starmap_In {A B : Type} (f : A -> outcome B) (l : list A)
  (bs : list B) (a : A) (b : B) :
  starmap f l = Returned bs -> In a l -> f a = Returned b -> In b bs.
Proof.
  intros H. apply starmap_inv in H. induction H as [|x y l bs Hxy _ IH].
  - intros [].
  - intros [->|Hin] Hb; [left; congruence|right; auto].
Qed.

Section FetchThenAnalyse.

Variable periodogram : ndarray -> Q -> string -> list Q * list Q.
Variable level_dB : list Q -> list Q -> list Q.
Variable spline : list Q -> list Q -> Q -> Q.
Variable Trace_slice : Trace -> Z -> Z -> Trace.
Variable Stream_merge : bool -> Stream -> outcome Stream.
Variable Stream_filter : Stream -> Q -> Q -> outcome Stream.
Variable worker : Z -> Z -> outcome (option Stream).
Variable cpu_count : nat.

(** X9. A chunk lost while fetching breaks the reuse of the
    segmentation: when [get_acoustic_data_mp] with [N] processes
    returns a stream although the worker of one window came back with
    None, [_data_segmented] holds fewer than [N] streams, and
    [compute_spectrogram_mp(split=None, n_process=N)] on the same
    object raises IndexError. *)
Theorem lost_chunk_breaks_segmentation (self self' : OOIHydrophoneData)
  (starttime endtime : Z) (N : nat) (fmin fmax : option Q) (st : Stream)
  (ws : list (Z * Z)) (w : Z * Z) (win : string) (L : nat) :
  get_acoustic_data_mp Stream_merge Stream_filter worker cpu_count
    self starttime endtime (Some N) fmin fmax
  = Returned (self', Some st) ->
  get_data_list starttime endtime N = Returned ws ->
  In w ws ->
  worker (fst w) (snd w) = Returned None ->
  compute_spectrogram_mp periodogram level_dB spline Trace_slice cpu_count
    self' None (Some N) win L
  = Raised IndexError.
Proof.
  intros Hmp Hws Hw Hnone. unfold get_acoustic_data_mp in Hmp.
  rewrite Hws in Hmp. cbn [bind] in Hmp.
  assert (HN : length ws = N).
  { unfold get_data_list in Hws. destruct (N =? 0)%nat; [discriminate|].
    injection Hws as <-. now rewrite length_map, length_seq. }
  unfold merge_data_list in Hmp.
  destruct (starmap _ ws) as [data_list|e] eqn:Hs; [|discriminate].
  pose proof (starmap_length _ _ _ Hs) as Hlen.
  pose proof (starmap_In _ _ _ w None Hs Hw Hnone) as Hin.
  pose proof (drop_None_length data_list Hin) as Hshort.
  assert (Hseg : _data_segmented self' = Some (drop_None data_list)).
  { destruct (subscript (drop_None data_list) 0); cbn [bind] in Hmp;
      [|discriminate].
    destruct (Stream_merge false _) as [m|]; cbn [bind] in Hmp;
      [|discriminate].
    destruct (subscript m 0); cbn [bind] in Hmp; [|discriminate].
    destruct (match fmin with Some _ => _ | None => _ end) as [m'|];
      cbn [bind] in Hmp; [|discriminate].
    destruct (subscript m' 0); cbn [bind] in Hmp; [|discriminate].
    injection Hmp as <- _.
    destruct (is_masked _); reflexivity. }
  unfold compute_spectrogram_mp.
  rewrite (segmented_objects_short self' (drop_None data_list) (seq 0 N) Hseg).
  - reflexivity.
  - exists (length (drop_None data_list)). split; [|lia].
    apply in_seq. lia.
Qed.

End FetchThenAnalyse.

(** ** get_acoustic_data *)

Section ReadLoop.

Variable read : url -> option Stream.

Lemma read_loop_app (self : OOIHydrophoneData) (append : bool)
  (l : list url) (a b : list nat) :
  forall r,
    read_loop read self append l (a ++ b) r
    = and_then (read_loop read self append l a r)
        (read_loop read self append l b).
Proof.
  induction a as [|i a IH]; intros r; [reflexivity|].
  cbn [app read_loop]. fold (in_window self l i).
  destruct (in_window self l i).
  - destruct (accumulate _); cbn [and_then]; [apply IH|reflexivity].
  - destruct (negb (first_file r)); [|apply IH].
    destruct (if append then _ else _); cbn [and_then];
      [apply IH|reflexivity].
Qed.

Lemma read_loop_no_hit (self : OOIHydrophoneData) (append : bool)
  (l : list url) (range : list nat) (r : reading) :
  first_file r = true ->
  (forall i, In i range -> in_window self l i = false) ->
  read_loop read self append l range r = Ok r.
Proof.
  intros Hff. induction range as [|i range IH]; intros Hno; [reflexivity|].
  cbn [read_loop]. fold (in_window self l i).
  rewrite (Hno i) by now left. rewrite Hff. cbn [negb].
  apply IH. intros; apply Hno; now right.
Qed.


(** Without padding, and when every file can be read, the loop adds
    up the files that pass the test, in the order of the list. *)
Lemma read_loop_unpadded (self : OOIHydrophoneData) (l : list url)
  (content : url -> Stream) (range : list nat) :
  (forall u, read u = Some (content u)) ->
  forall r,
    exists r',
      read_loop read self false l range r = Ok r'
      /\ st_all r'
         = match st_all r,
                 map (fun i => nth i l no_url)
                   (filter (in_window self l) range) with
           | None, [] => None
           | None, hits => Some (flat_map content hits)
           | Some all, hits => Some (all ++ flat_map content hits)
           end.
Proof.
  intros Hread. induction range as [|i range IH]; intros r.
  - exists r. split; [reflexivity|]. cbn.
    destruct (st_all r); [now rewrite app_nil_r|reflexivity].
  - cbn [read_loop filter]. fold (in_window self l i).
    destruct (in_window self l i).
    + set (r1 := if first_file r && negb (i =? 0)%nat then _ else _).
      assert (Hr1 : exists ff, r1 = {| first_file := ff;
                                       st := Some (content (nth i l no_url));
                                       aliased := false;
                                       st_all := st_all r |}).
      { unfold r1, try_read.
        destruct (first_file r && negb (i =? 0)%nat);
          rewrite Hread; eexists; reflexivity. }
      destruct Hr1 as [ff ->]. unfold accumulate, add_st.
      cbn [st st_all aliased first_file].
      destruct (st_all r) as [all|]; cbn [and_then].
      * destruct (IH {| first_file := ff;
                        st := Some (content (nth i l no_url));
                        aliased := false;
                        st_all := Some (all ++ content (nth i l no_url)) |})
          as [r' [Hr' Hall]].
        exists r'. split; [exact Hr'|]. rewrite Hall.
        cbn [st_all map flat_map]. now rewrite <- app_assoc.
      * destruct (IH {| first_file := ff;
                        st := Some (content (nth i l no_url));
                        aliased := true;
                        st_all := Some (content (nth i l no_url)) |})
          as [r' [Hr' Hall]].
        exists r'. split; [exact Hr'|]. rewrite Hall.
        cbn [st_all map flat_map]. reflexivity.
    + destruct (negb (first_file r)); cbn [and_then].
      * destruct (IH (set_first_file r true)) as [r' [Hr' Hall]].
        exists r'. split; [exact Hr'|]. exact Hall.
      * apply IH.
Qed.

End ReadLoop.

Section AcousticDataFacts.

Variable web_crawler_noise : Z -> option (list url).
Variable read : url -> option Stream.
Variable Stream_merge : bool -> Stream -> outcome Stream.
Variable Stream_slice : Stream -> Z -> Z -> Stream.
Variable Stream_filter : Stream -> Q -> Q -> outcome Stream.


(** X10. A broken first file makes [get_acoustic_data] raise: when the
    first file of the list that passes the window test cannot be read
    (and, with padding, the file before it neither), the name [st] is
    still unbound at [st_all = st] and UnboundLocalError escapes; the
    call does not return None. *)
Theorem get_acoustic_data_first_file_broken (self self' : OOIHydrophoneData)
  (starttime endtime : Z) (fmin fmax : option Q) (append : bool)
  (l : list url) (i0 : nat) :
  get_acoustic_data_urls web_crawler_noise self starttime endtime append
  = Returned (Continue self' l) ->
  (i0 < length l)%nat ->
  in_window self' l i0 = true ->
  (forall i, (i < i0)%nat -> in_window self' l i = false) ->
  read (nth i0 l no_url) = None ->
  (append = true -> i0 <> O -> read (nth (i0 - 1) l no_url) = None) ->
  get_acoustic_data web_crawler_noise read Stream_merge Stream_slice
    Stream_filter self starttime endtime fmin fmax append
  = Fail UnboundLocalError.
Proof.
  intros Hurls Hi0 Hhit Hbefore Hread Hprev.
  unfold get_acoustic_data. rewrite Hurls. cbn [lift and_then].
  replace (seq 0 (length l))
    with (seq 0 i0 ++ i0 :: seq (S i0) (length l - S i0)).
  2:{ change (i0 :: seq (S i0) (length l - S i0))
        with (seq i0 (S (length l - S i0))).
      rewrite <- seq_app. f_equal. lia. }
  rewrite read_loop_app.
  rewrite read_loop_no_hit;
    [|reflexivity|intros i Hi; apply in_seq in Hi; apply Hbefore; lia].
  cbn [and_then read_loop]. fold (in_window self' l i0). rewrite Hhit.
  cbn [reading0 first_file andb].
  assert (Hr1 : (if negb (i0 =? 0)%nat
                 then
                   if append
                   then try_read_two read (set_first_file reading0 false)
                          (nth (i0 - 1) l no_url) (nth i0 l no_url)
                   else try_read read (set_first_file reading0 false)
                          (nth i0 l no_url)
                 else try_read read reading0 (nth i0 l no_url))
                = (if negb (i0 =? 0)%nat
                   then set_first_file reading0 false else reading0)).
  { destruct (Nat.eqb_spec i0 0) as [|Hne]; cbn [negb].
    - unfold try_read. now rewrite Hread.
    - destruct append.
      + unfold try_read_two. now rewrite (Hprev eq_refl Hne).
      + unfold try_read. now rewrite Hread. }
  change (first_file reading0) with true in Hr1.
  fold reading0. rewrite Hr1.
  destruct (negb (i0 =? 0)%nat); reflexivity.
Qed.



(** X13. Without padding the two acquisition paths hand the same
    stream to [merge]: for a time-ordered list of readable, non-empty
    files the reading loop of [get_acoustic_data] leaves in [st_all]
    what [get_acoustic_data_conc] adds up from the files it selects,
    fetched in list order. *)
Theorem read_loop_agrees_with_conc (self : OOIHydrophoneData)
  (l : list url) (content : url -> Stream) :
  (forall u, read u = Some (content u)) ->
  (forall u, content u <> []) ->
  time_ordered l = true ->
  (starttime self < endtime self)%Z ->
  exists r,
    read_loop read self false l (seq 0 (length l)) reading0 = Ok r
    /\ st_all r
       = add_streams (map read (valid_data_url_list self false l)) None.
Proof.
  intros Hread Hne Hord Hwin.
  destruct (read_loop_unpadded read self l content (seq 0 (length l)) Hread
              reading0) as [r [Hr Hall]].
  exists r. split; [exact Hr|]. rewrite Hall. cbn [reading0 st_all].
  unfold valid_data_url_list.
  rewrite (valid_url_loop_filter self l Hord Hwin)
    by (try reflexivity; discriminate).
  cbn [app]. rewrite add_streams_all.
  generalize (map (fun i => nth i l no_url)
                (filter (in_window self l) (seq 0 (length l)))).
  intros sel. destruct sel as [|u sel]; [reflexivity|].
  assert (Hex : existsb truthy (map read (u :: sel)) = true).
  { cbn [map existsb]. rewrite Hread. specialize (Hne u).
    destruct (content u); [congruence|reflexivity]. }
  rewrite Hex. f_equal.
  generalize (u :: sel). intros s. induction s as [|v s IH]; [reflexivity|].
  cbn [flat_map map drop_None concat]. rewrite Hread.
  cbn [drop_None concat]. now rewrite IH.
Qed.

End AcousticDataFacts.

(** ** get_acoustic_data_conc: listing and selection *)

Lemma np_insert_minus1_cons {A : Type} (a : A) (body : list A) (x d : A) :
  body <> [] ->
  np_insert_minus1 (a :: body) x
  = Returned (a :: removelast body ++ [x; last body d]).
Proof.
  intros Hb. unfold np_insert_minus1. f_equal.
  cbn [length]. replace (S (length body) - 1)%nat with (length body) by lia.
  destruct (exists_last Hb) as [front [z ->]].
  rewrite removelast_last, last_last, length_app. cbn [length].
  replace (length front + 1)%nat with (S (length front)) by lia.
  cbn [firstn skipn app]. f_equal.
  rewrite firstn_app, firstn_all, Nat.sub_diag. cbn [firstn].
  rewrite app_nil_r.
  rewrite skipn_app, skipn_all, Nat.sub_diag. reflexivity.
Qed.

Section ConcListing.

Variable get_mseed_urls : Z -> list url.

(** X14. What [get_acoustic_data_conc] walks through, for a window of
    any length: the listing of the day of [starttime], once and then
    once more for every further day of the window; no listing of a
    later day is fetched. With padding the last file of the day before
    is put in front, and the first file of the day of [starttime] is
    inserted in front of the last entry. *)
Theorem get_acoustic_data_conc_urls_spec (starttime endtime : Z)
  (append : bool) (prev_last first : url) (others : list url) :
  subscript_last (get_mseed_urls (midnight (starttime - day_us)))
  = Returned prev_last ->
  get_mseed_urls (midnight starttime) = first :: others ->
  let body :=
    concat (repeat (first :: others) (1 + further_days starttime endtime)) in
  get_acoustic_data_conc_urls get_mseed_urls starttime endtime append
  = Returned (if append
              then prev_last :: removelast body ++ [first; last body first]
              else body).
Proof.
  intros Hprev Hday body. unfold get_acoustic_data_conc_urls.
  rewrite Hprev, Hday. cbn [bind subscript nth_error].
  change ((first :: others)
          ++ concat (repeat (first :: others)
                       (further_days starttime endtime)))
    with body.
  destruct append; [|reflexivity].
  apply np_insert_minus1_cons. discriminate.
Qed.

(** X15. [get_acoustic_data_conc] needs a file on the day before
    [starttime] and a file on the day of [starttime], with and without
    padding: if either listing is empty, IndexError is raised. *)
Theorem get_acoustic_data_conc_urls_empty_listing (starttime endtime : Z)
  (append : bool) :
  get_mseed_urls (midnight (starttime - day_us)) = []
  \/ get_mseed_urls (midnight starttime) = [] ->
  get_acoustic_data_conc_urls get_mseed_urls starttime endtime append
  = Raised IndexError.
Proof.
  intros H. unfold get_acoustic_data_conc_urls.
  destruct (get_mseed_urls (midnight (starttime - day_us))) as [|p ps] eqn:Hp.
  - reflexivity.
  - destruct H as [H|H]; [discriminate|].
    destruct (subscript_last_nonempty (p :: ps)) as [a Ha]; [discriminate|].
    rewrite Ha, H. reflexivity.
Qed.

End ConcListing.

Lemma valid_url_loop_no_hit (self : OOIHydrophoneData) (append : bool)
  (l : list url) (pre rest : list nat) (valid : list url) :
  (forall i, In i pre -> in_window self l i = false) ->
  valid_url_loop self append l (pre ++ rest) true valid
  = valid_url_loop self append l rest true valid.
Proof.
  induction pre as [|i pre IH]; intros Hno; [reflexivity|].
  cbn [app valid_url_loop]. fold (in_window self l i).
  rewrite (Hno i) by now left. cbn [negb].
  apply IH. intros; apply Hno; now right.
Qed.

Lemma valid_url_loop_run (self : OOIHydrophoneData) (l : list url)
  (run rest : list nat) :
  (forall i, In i run -> in_window self l i = true) ->
  forall valid,
    valid_url_loop self true l (run ++ rest) false valid
    = valid_url_loop self true l rest false
        (valid ++ map (fun i => nth i l no_url) run).
Proof.
  induction run as [|i run IH]; intros Hrun valid.
  - cbn. now rewrite app_nil_r.
  - cbn [app valid_url_loop]. fold (in_window self l i).
    rewrite (Hrun i) by now left.
    assert (Hnext : valid_url_loop self true l (run ++ rest) false
                      (valid ++ [nth i l no_url])
                    = valid_url_loop self true l rest false
                        (valid ++ map (fun i => nth i l no_url) (i :: run))).
    { rewrite IH by (intros; apply Hrun; now right).
      cbn [map]. now rewrite <- app_assoc. }
    destruct (i =? 0)%nat; exact Hnext.
Qed.

(** X16. The selection with padding is one run of the list: if the
    files that pass the window test are those with indices
    [i0 .. j - 1], the selected list is the files [i0 - 1 .. j] as far
    as they exist, in list order: one file before the first hit, the
    hits, and the first file after them. *)
Theorem valid_data_url_list_padded (self : OOIHydrophoneData)
  (l : list url) (i0 j : nat) :
  (i0 < j)%nat ->
  (j <= length l)%nat ->
  (forall i, (i < i0)%nat -> in_window self l i = false) ->
  (forall i, (i0 <= i < j)%nat -> in_window self l i = true) ->
  ((j < length l)%nat -> in_window self l j = false) ->
  valid_data_url_list self true l
  = map (fun i => nth i l no_url)
      (seq (i0 - 1) (Nat.min (S j) (length l) - (i0 - 1))).
Proof.
  intros Hij Hj Hpre Hrun Hstop. unfold valid_data_url_list.
  replace (seq 0 (length l))
    with (seq 0 i0 ++ i0 :: seq (S i0) (j - S i0) ++ seq j (length l - j)).
  2:{ assert (E1 : seq (S i0) (j - S i0) ++ seq j (length l - j)
                   = seq (S i0) (length l - S i0)).
      { replace (seq j (length l - j))
          with (seq (S i0 + (j - S i0)) (length l - j))
          by (f_equal; lia).
        rewrite <- seq_app. f_equal. lia. }
      rewrite E1.
      change (i0 :: seq (S i0) (length l - S i0))
        with (seq (0 + i0) (S (length l - S i0))).
      rewrite <- seq_app. f_equal. lia. }
  rewrite valid_url_loop_no_hit
    by (intros i Hi; apply in_seq in Hi; apply Hpre; lia).
  cbn [valid_url_loop]. fold (in_window self l i0).
  rewrite (Hrun i0) by lia.
  assert (Hfirst :
            forall rest,
              (if (i0 =? 0)%nat
               then valid_url_loop self true l rest false
                      ([] ++ [nth i0 l no_url])
               else valid_url_loop self true l rest false
                      [nth (i0 - 1) l no_url; nth i0 l no_url])
              = valid_url_loop self true l rest false
                  (map (fun i => nth i l no_url)
                     (seq (i0 - 1) (S i0 - (i0 - 1))))).
  { intros rest. destruct (Nat.eqb_spec i0 0) as [->|Hne]; [reflexivity|].
    replace (S i0 - (i0 - 1))%nat with 2%nat by lia.
    cbn [seq map]. replace (S (i0 - 1)) with i0 by lia. reflexivity. }
  rewrite Hfirst.
  rewrite valid_url_loop_run
    by (intros i Hi; apply in_seq in Hi; apply Hrun; lia).
  rewrite <- map_app.
  assert (Hseq : seq (i0 - 1) (S i0 - (i0 - 1)) ++ seq (S i0) (j - S i0)
                 = seq (i0 - 1) (j - (i0 - 1))).
  { replace (j - (i0 - 1))%nat
      with ((S i0 - (i0 - 1)) + (j - S i0))%nat by lia.
    rewrite seq_app. f_equal. f_equal. lia. }
  rewrite Hseq.
  destruct (Nat.eq_dec j (length l)) as [->|Hlt].
  - rewrite Nat.sub_diag. cbn [seq valid_url_loop].
    f_equal. f_equal. lia.
  - replace (length l - j)%nat with (S (length l - S j)) by lia.
    cbn [seq valid_url_loop]. fold (in_window self l j).
    rewrite (Hstop ltac:(lia)). cbn [negb].
    replace (Nat.min (S j) (length l) - (i0 - 1))%nat
      with ((j - (i0 - 1)) + 1)%nat by lia.
    rewrite seq_app, map_app. cbn [seq map]. f_equal. f_equal. f_equal. lia.
Qed.

Section ConcEmptyWindow.

Variable Stream_merge : bool -> Stream -> outcome Stream.
Variable Stream_slice : Stream -> Z -> Z -> Stream.
Variable Stream_filter : Stream -> Q -> Q -> outcome Stream.
Variable read_mseed : url -> option Stream.
Variable as_completed : list (option Stream) -> list (option Stream).
Variable get_mseed_urls : Z -> list url.

(** X17. A window that holds no file makes [get_acoustic_data_conc]
    raise: the selection is empty, nothing is fetched, [st_all] stays
    None and, in each of the gap modes 0, 1 and 2, [st_all.merge]
    raises AttributeError. *)
Theorem get_acoustic_data_conc_empty_window (self : OOIHydrophoneData)
  (starttime endtime : Z) (fmin fmax : option Q) (append : bool)
  (l : list url) :
  let self' := set_data_gap (set_window self starttime endtime) false in
  get_acoustic_data_conc_urls get_mseed_urls starttime endtime append
  = Returned l ->
  (forall i, (i < length l)%nat -> in_window self' l i = false) ->
  as_completed [] = [] ->
  (data_gap_mode self = 0 \/ data_gap_mode self = 1
   \/ data_gap_mode self = 2)%Z ->
  valid_data_url_list self' append l = []
  /\ get_acoustic_data_conc Stream_merge Stream_slice Stream_filter
       read_mseed as_completed get_mseed_urls
       self starttime endtime fmin fmax append
     = Raised AttributeError.
Proof.
  intros self' Hurls Hno Hdone Hmode.
  assert (Hsel : valid_data_url_list self' append l = []).
  { unfold valid_data_url_list.
    rewrite <- (app_nil_r (seq 0 (length l))).
    rewrite valid_url_loop_no_hit; [reflexivity|].
    intros i Hi. apply in_seq in Hi. apply Hno. lia. }
  split; [exact Hsel|].
  unfold get_acoustic_data_conc. rewrite Hurls. cbn [bind].
  fold self'. rewrite Hsel. cbn [map]. rewrite Hdone.
  unfold merge_st_list. cbn [add_streams].
  change (data_gap_mode self') with (data_gap_mode self).
  destruct Hmode as [ -> | [ -> | -> ] ]; reflexivity.
Qed.

End ConcEmptyWindow.

(** ** get_acoustic_data: the listing *)

Section ListingFacts.

Variable web_crawler_noise : Z -> option (list url).
Variable read : url -> option Stream.
Variable Stream_merge : bool -> Stream -> outcome Stream.
Variable Stream_slice : Stream -> Z -> Z -> Stream.
Variable Stream_filter : Stream -> Q -> Q -> outcome Stream.

Lemma subscript_last_In {A : Type} (l : list A) (a : A) :
  subscript_last l = Returned a -> In a l.
Proof.
  unfold subscript_last, subscript. destruct l as [|x l]; [discriminate|].
  destruct (nth_error (x :: l) (length (x :: l) - 1)) eqn:E; [|discriminate].
  intros H. injection H as <-. eapply nth_error_In. exact E.
Qed.

(** X18. The list that the reading loop of [get_acoustic_data] walks
    through holds files with the suffix [mseed] only, the padding file
    included; behind [limit_seed_files] it has at most 1000 entries,
    and at most 1001 with padding. *)
Theorem get_acoustic_data_urls_mseed (self self' : OOIHydrophoneData)
  (starttime endtime : Z) (append : bool) (l : list url) :
  get_acoustic_data_urls web_crawler_noise self starttime endtime append
  = Returned (Continue self' l) ->
  Forall (fun u => suffix u = "mseed"%string) l
  /\ (limit_seed_files self = true ->
      (length l <= if append then 1001 else 1000)%nat).
Proof.
  unfold get_acoustic_data_urls.
  destruct (if append then _ else _) as [p|e] eqn:Hp; cbn [bind];
    [|discriminate].
  destruct (web_crawler_noise (midnight starttime)) as [day|];
    [|discriminate].
  set (all := day ++ concat (repeat day (further_days starttime endtime))).
  cbn [limit_seed_files set_data_gap set_window].
  destruct (limit_seed_files self && (1000 <? length all)%nat) eqn:Hl;
    [discriminate|].
  intros H. injection H as _ <-.
  assert (Hkeep : Forall (fun u => suffix u = "mseed"%string)
                    (keep_mseed all)).
  { apply Forall_forall. intros u Hu. apply filter_In in Hu.
    destruct Hu as [_ Hu]. unfold is_mseed in Hu.
    now apply String.eqb_eq in Hu. }
  assert (Hlen : (length (keep_mseed all) <= length all)%nat)
    by apply filter_length_le.
  split.
  - destruct append; [|exact Hkeep]. constructor; [|exact Hkeep].
    destruct (web_crawler_noise (midnight (starttime - day_us)));
      [|discriminate].
    apply subscript_last_In in Hp. apply filter_In in Hp.
    destruct Hp as [_ Hp]. unfold is_mseed in Hp.
    now apply String.eqb_eq in Hp.
  - intros Hlim. rewrite Hlim in Hl. cbn [andb] in Hl.
    apply Nat.ltb_ge in Hl. destruct append; cbn [length]; lia.
Qed.

(** X19. What a failed listing does to [get_acoustic_data]. With
    padding, the listing of the day before is read first: if it times
    out, TypeError is raised, and if it holds no [mseed] file,
    IndexError, whatever the day of [starttime] holds. If the listing
    of the day of [starttime] times out (and the day before did not
    fail), the call returns None with [data] None and [data_available]
    False. *)
Theorem get_acoustic_data_listing_fails (self : OOIHydrophoneData)
  (starttime endtime : Z) (fmin fmax : option Q) :
  let run := get_acoustic_data web_crawler_noise read Stream_merge
               Stream_slice Stream_filter self starttime endtime
               fmin fmax in
  (web_crawler_noise (midnight (starttime - day_us)) = None ->
   run true = Fail (Builtin TypeError))
  /\ (forall prev,
        web_crawler_noise (midnight (starttime - day_us)) = Some prev ->
        keep_mseed prev = [] ->
        run true = Fail (Builtin IndexError))
  /\ (forall append,
        web_crawler_noise (midnight starttime) = None ->
        (append = true ->
         exists prev,
           web_crawler_noise (midnight (starttime - day_us)) = Some prev
           /\ keep_mseed prev <> []) ->
        exists self',
          run append = Ok (self', None)
          /\ data self' = None
          /\ data_available self' = Some false).
Proof.
  cbv zeta. unfold get_acoustic_data, get_acoustic_data_urls.
  split; [|split].
  - intros ->. reflexivity.
  - intros prev -> ->. reflexivity.
  - intros append Hday Hprev. rewrite Hday.
    destruct append.
    + destruct (Hprev eq_refl) as [prev [-> Hne]].
      destruct (subscript_last_nonempty _ Hne) as [u ->].
      cbn [bind lift and_then]. eexists. repeat split.
    + cbn [bind lift and_then]. eexists. repeat split.
Qed.

End ListingFacts.

(** ** compute_spectrogram with avg_time *)

Lemma py_int_integer (x : Q) (z : Z) : x == inject_Z z -> py_int x = z.
Proof.
  intros H. unfold Qeq in H. cbn in H. unfold py_int.
  assert (Hn : Qnum x = (z * Zpos (Qden x))%Z) by lia.
  rewrite Hn. apply Z.quot_mul. lia.
Qed.

Lemma slice_bound_inside (n : nat) (k : nat) :
  (k <= n)%nat -> slice_bound n (Z.of_nat k) = k.
Proof.
  intros H. unfold slice_bound.
  destruct (Z.ltb_spec (Z.of_nat k) 0); lia.
Qed.

Lemma nd_slice_Z_block (a : ndarray) (n B : nat) :
  ((n + 1) * B <= len a)%nat ->
  len (nd_slice_Z a (Z.of_nat n * Z.of_nat B)
         ((Z.of_nat n + 1) * Z.of_nat B)) = B.
Proof.
  intros H. unfold nd_slice_Z.
  replace (Z.of_nat n * Z.of_nat B)%Z with (Z.of_nat (n * B)) by lia.
  replace ((Z.of_nat n + 1) * Z.of_nat B)%Z
    with (Z.of_nat ((n + 1) * B)) by lia.
  rewrite !slice_bound_inside by lia.
  rewrite nd_slice_len by lia. lia.
Qed.

Lemma nd_from_len (a : ndarray) (k : nat) :
  (k <= len a)%nat -> len (nd_from a (Z.of_nat k)) = (len a - k)%nat.
Proof.
  intros H. unfold nd_from. rewrite slice_bound_inside by lia.
  now rewrite nd_slice_len by lia.
Qed.

Section WelchFacts.

Variable welch :
  ndarray -> Q -> string -> nat -> Z -> Z -> string
  -> outcome (list Q * list Q).
Variable level_dB : list Q -> list Q -> list Q.
Variable spline : list Q -> list Q -> Q -> Q.

Lemma welch_row_ok (self : OOIHydrophoneData) (x : ndarray) (fs : Q)
  (win : string) (L : nat) (overlap : Q) :
  welch_bins welch fs win L overlap ->
  (L <= len x)%nat ->
  exists f Pxx,
    welch_row welch level_dB spline self x fs win L overlap
    = Returned (Some (f, Pxx)).
Proof.
  intros Hw Hx. destruct (Hw x Hx) as [f [P [Hr HP]]].
  unfold welch_row. rewrite Hr. cbn [bind].
  rewrite HP, Nat.eqb_refl. cbn [negb]. eauto.
Qed.

Lemma welch_loop_aligned (self : OOIHydrophoneData) (tr : Trace)
  (win : string) (L B : nat) (avg_time overlap : Q) (ns : list nat) :
  welch_bins welch (stats_sampling_rate tr) win L overlap ->
  py_int (stats_sampling_rate tr * avg_time) = Z.of_nat B ->
  (L <= B)%nat ->
  Forall (fun n => ((n + 1) * B <= len (tr_data tr))%nat) ns ->
  forall time f specgram,
    exists f' rows,
      welch_loop welch level_dB spline self tr win L avg_time overlap
        ns time f specgram
      = Returned
          (Some (time ++ map (avg_time_stamp self avg_time) ns, f',
                 specgram ++ rows))
      /\ length rows = length ns.
Proof.
  intros Hw HB HL. induction ns as [|n ns IH]; intros Hns time0 f specgram.
  - exists f, []. cbn. now rewrite !app_nil_r.
  - inversion Hns as [|? ? Hn Hrest]; subst. cbn [welch_loop]. rewrite HB.
    destruct (welch_row_ok self
                (nd_slice_Z (tr_data tr) (Z.of_nat n * Z.of_nat B)
                   ((Z.of_nat n + 1) * Z.of_nat B))
                (stats_sampling_rate tr) win L overlap Hw)
      as [f1 [P1 ->]].
    { rewrite nd_slice_Z_block by exact Hn. exact HL. }
    cbn [bind].
    destruct (IH Hrest
                (time0
                 ++ [(starttime self
                      + timedelta_seconds
                          (inject_Z (Z.of_nat n) * avg_time))%Z])
                f1 (specgram ++ [P1])) as [f' [rows [Hloop Hlen]]].
    exists f', (P1 :: rows). split; [|cbn; lia].
    rewrite Hloop. cbn [map]. unfold avg_time_stamp at 2.
    now rewrite <- !app_assoc.
Qed.

(** X20. With [avg_time], [compute_spectrogram] keeps every block. For
    a trace of [m] whole blocks of [B = avg_time * fs] samples, each of
    at least [L] samples, the loop takes the first [m - 1] blocks and
    the rest, the last block, is taken as the residual segment: the
    spectrogram has [m] time bins, at [starttime + n * avg_time] for
    [n = 0 .. m - 1], and [m] rows of values. *)
Theorem compute_spectrogram_avg_blocks (self : OOIHydrophoneData)
  (tr : Trace) (win : string) (L B m : nat) (avg_time overlap : Q) :
  data self = Some tr ->
  avg_time * stats_sampling_rate tr == inject_Z (Z.of_nat B) ->
  (0 < L)%nat ->
  (L <= B)%nat ->
  (0 < m)%nat ->
  len (tr_data tr) = (m * B)%nat ->
  welch_bins welch (stats_sampling_rate tr) win L overlap ->
  exists sp,
    compute_spectrogram_avg welch level_dB spline self win L avg_time overlap
    = Returned (set_spectrogram self (Some sp))
    /\ time sp = map (avg_time_stamp self avg_time) (seq 0 m)
    /\ length (values sp) = m.
Proof.
  intros Hdata HB HL HLB Hm Hlen Hw.
  unfold compute_spectrogram_avg. rewrite Hdata.
  set (fs := stats_sampling_rate tr) in *.
  assert (HBpos : (0 < B)%nat) by lia.
  assert (Hne : Qeq_bool (avg_time * fs) 0 = false).
  { destruct (Qeq_bool (avg_time * fs) 0) eqn:E; [|reflexivity].
    apply Qeq_bool_eq in E. rewrite E in HB.
    unfold Qeq in HB. cbn in HB. lia. }
  rewrite Hne.
  assert (Hnb : Qceiling (inject_Z (Z.of_nat (len (tr_data tr)))
                          / (avg_time * fs)) = Z.of_nat m).
  { rewrite <- (Qceiling_Z (Z.of_nat m)). apply Qceiling_comp.
    rewrite HB, Hlen, Nat2Z.inj_mul, inject_Z_mult. field.
    intros H. unfold Qeq in H. cbn in H. lia. }
  rewrite Hnb.
  assert (Hblock : py_int (fs * avg_time) = Z.of_nat B).
  { apply py_int_integer. rewrite <- HB. ring. }
  replace (Z.to_nat (Z.of_nat m - 1)) with (m - 1)%nat by lia.
  destruct (welch_loop_aligned self tr win L B avg_time overlap
              (seq 0 (m - 1)) Hw Hblock HLB) with (time := @nil Z)
              (f := @nil Q) (specgram := @nil (list Q))
    as [f1 [rows [Hloop Hrows]]].
  { apply Forall_forall. intros n Hn. apply in_seq in Hn. rewrite Hlen. nia. }
  rewrite Hloop. cbn [bind app].
  assert (Hres : py_int (inject_Z (Z.of_nat m - 1) * fs * avg_time)
                 = Z.of_nat ((m - 1) * B)).
  { apply py_int_integer.
    setoid_replace (inject_Z (Z.of_nat m - 1) * fs * avg_time)
      with (inject_Z (Z.of_nat m - 1) * (avg_time * fs)) by ring.
    rewrite HB, <- inject_Z_mult. apply inject_Z_injective. nia. }
  rewrite Hres.
  assert (Hreslen : len (nd_from (tr_data tr) (Z.of_nat ((m - 1) * B))) = B).
  { rewrite nd_from_len by (rewrite Hlen; nia). rewrite Hlen. nia. }
  rewrite Hreslen.
  destruct (Nat.leb_spec L B) as [_|]; [|lia].
  destruct (welch_row_ok self (nd_from (tr_data tr) (Z.of_nat ((m - 1) * B)))
              fs win L overlap Hw) as [f2 [P2 ->]].
  { now rewrite Hreslen. }
  cbn [bind]. rewrite length_app, length_map, length_seq. cbn [length].
  destruct (Nat.eqb_spec (m - 1 + 1) 0) as [|_]; [lia|].
  eexists. split; [reflexivity|]. cbn [time values]. split.
  - replace m with (m - 1 + 1)%nat at 3 by lia.
    rewrite seq_app, map_app. cbn [seq map]. f_equal.
    unfold avg_time_stamp.
    replace (Z.of_nat (0 + (m - 1))) with (Z.of_nat m - 1)%Z by lia.
    reflexivity.
  - rewrite length_app. cbn [length].
    rewrite Hrows, length_seq. lia.
Qed.

End WelchFacts.

(** ** compute_psd_welch *)

Lemma py_int_floor (x : Q) : 0 <= x -> py_int x = Qfloor x.
Proof.
  intros H. destruct x as [n d]. unfold py_int, Qfloor. cbn [Qnum Qden].
  unfold Qle in H. cbn in H. apply Z.quot_div_nonneg; lia.
Qed.

Lemma inject_Z_lt (a b : Z) : inject_Z a < inject_Z b -> (a < b)%Z.
Proof. unfold Qlt. cbn. lia. Qed.

Lemma inject_Z_le (a b : Z) : inject_Z a <= inject_Z b -> (a <= b)%Z.
Proof. unfold Qle. cbn. lia. Qed.

Lemma inject_Z_nat_pos (n : nat) : (0 < n)%nat -> 0 < inject_Z (Z.of_nat n).
Proof. intros H. unfold Qlt. cbn. lia. Qed.

(** A resolution finer than [fs / L] asks for more than [L] points. *)
Lemma finer_resolution (fs r : Q) (L : nat) :
  0 < r ->
  (0 < L)%nat ->
  Qle_bool (fs / inject_Z (Z.of_nat L)) r = false ->
  inject_Z (Z.of_nat L) < fs / r.
Proof.
  intros Hr HL Hle.
  assert (Hlt : r < fs / inject_Z (Z.of_nat L)).
  { apply Qnot_le_lt. intros H. apply Qle_bool_iff in H. congruence. }
  pose proof (inject_Z_nat_pos L HL) as HLq.
  apply Qlt_shift_div_l; [exact Hr|].
  rewrite Qmult_comm.
  apply (Qmult_lt_r _ _ (/ inject_Z (Z.of_nat L))).
  - now apply Qinv_lt_0_compat.
  - setoid_replace (r * inject_Z (Z.of_nat L) / inject_Z (Z.of_nat L))
      with r.
    + exact Hlt.
    + field. intros H. rewrite H in HLq. now apply Qlt_irrefl in HLq.
Qed.

Lemma Qeq_bool_pos (r : Q) : 0 < r -> Qeq_bool r 0 = false.
Proof.
  intros Hr. destruct (Qeq_bool r 0) eqn:E; [|reflexivity].
  apply Qeq_bool_eq in E. rewrite E in Hr. now apply Qlt_irrefl in Hr.
Qed.

(** X21. Zero padding in [compute_psd_welch] never shortens the
    transform: for a resolution [interpolate > 0] and [L > 0], [nfft]
    is [L] when [fs / L <= interpolate], and otherwise [int(fs /
    interpolate)], which is at least [L]; in both cases
    [nfft >= L]. *)
Theorem psd_nfft_at_least_L (fs : Q) (L : nat) (r : Q) :
  0 < r ->
  (0 < L)%nat ->
  exists nfft,
    psd_nfft fs L (Some r) = Returned nfft
    /\ (Z.of_nat L <= nfft)%Z
    /\ (nfft = Z.of_nat L
        \/ (inject_Z nfft <= fs / r /\ fs / r < inject_Z nfft + 1)).
Proof.
  intros Hr HL. unfold psd_nfft.
  destruct (Nat.eqb_spec L 0) as [|_]; [lia|].
  destruct (Qle_bool (fs / inject_Z (Z.of_nat L)) r) eqn:Hle.
  - exists (Z.of_nat L). split; [reflexivity|]. split; [lia|now left].
  - rewrite (Qeq_bool_pos r Hr).
    exists (py_int (fs / r)). split; [reflexivity|].
    pose proof (inject_Z_nat_pos L HL) as HLq.
    pose proof (finer_resolution fs r L Hr HL Hle) as HLfs.
    assert (Hpos : 0 <= fs / r).
    { apply Qlt_le_weak. eapply Qlt_trans; [exact HLq|exact HLfs]. }
    rewrite (py_int_floor _ Hpos).
    pose proof (Qfloor_le (fs / r)) as Hf1.
    pose proof (Qlt_floor (fs / r)) as Hf2.
    split.
    + assert (inject_Z (Z.of_nat L) < inject_Z (Qfloor (fs / r) + 1))
        by (eapply Qlt_trans; eassumption).
      apply inject_Z_lt in H. lia.
    + right. split; [exact Hf1|].
      rewrite inject_Z_plus in Hf2. exact Hf2.
Qed.

Section PsdFacts.

Variable welch :
  ndarray -> Q -> string -> nat -> Z -> Z -> string
  -> outcome (list Q * list Q).
Variable level_dB : list Q -> list Q -> list Q.
Variable level_lin : list Q -> list Q -> list Q.
Variable spline : list Q -> list Q -> Q -> Q.

Lemma psd_nfft_nonneg (fs : Q) (L : nat) (interpolate : option Q) (nfft : Z) :
  (forall r, interpolate = Some r -> 0 < r) ->
  psd_nfft fs L interpolate = Returned nfft ->
  (0 <= nfft)%Z.
Proof.
  intros Hr. destruct interpolate as [r|]; unfold psd_nfft.
  - specialize (Hr r eq_refl).
    destruct (Nat.eqb_spec L 0) as [|HL]; [discriminate|].
    destruct (Qle_bool (fs / inject_Z (Z.of_nat L)) r) eqn:Hle.
    + intros H. injection H as <-. lia.
    + rewrite (Qeq_bool_pos r Hr). intros H. injection H as <-.
      pose proof (inject_Z_nat_pos L ltac:(lia)) as HLq.
      pose proof (finer_resolution fs r L Hr ltac:(lia) Hle) as HLfs.
      assert (Hpos : 0 <= fs / r).
      { apply Qlt_le_weak. eapply Qlt_trans; [exact HLq|exact HLfs]. }
      rewrite (py_int_floor _ Hpos).
      pose proof (Qlt_floor (fs / r)) as Hf.
      assert (H : inject_Z 0 < inject_Z (Qfloor (fs / r) + 1))
        by (eapply Qle_lt_trans; [exact Hpos | exact Hf]).
      apply inject_Z_lt in H. lia.
  - intros H. injection H as <-. lia.
Qed.

Lemma half_plus_one (nfft : Z) :
  (0 <= nfft)%Z ->
  py_int (inject_Z nfft / 2 + 1) = (Z.quot nfft 2 + 1)%Z.
Proof.
  intros H.
  assert (Hq : inject_Z nfft / 2 + 1 == (nfft + 2) # 2).
  { unfold Qeq, Qdiv, Qinv, Qmult, Qplus, inject_Z. cbn. lia. }
  rewrite py_int_floor.
  - rewrite (Qfloor_comp _ _ Hq). cbn [Qfloor].
    rewrite Z.quot_div_nonneg by lia.
    replace (nfft + 2)%Z with (nfft + 1 * 2)%Z by lia.
    now rewrite Z.div_add by lia.
  - rewrite Hq. unfold Qle. cbn. lia.
Qed.

(** X22. What [compute_psd_welch] stores. For [interpolate] None or
    positive, a PSD is stored only for the scales ["log"] and ["lin"];
    its frequency axis is that of [welch], and its values are the level
    of [Pxx] under a calibration vector that has exactly as many
    entries as [Pxx], namely [int(nfft/2) + 1]. *)
Theorem compute_psd_welch_stores (self : OOIHydrophoneData) (win : string)
  (L : nat) (overlap : Q) (avg_method : string) (interpolate : option Q)
  (scale : string) (psd : Psd) :
  (forall r, interpolate = Some r -> 0 < r) ->
  compute_psd_welch welch level_dB level_lin spline self win L overlap
    avg_method interpolate scale
  = Ok (Some psd) ->
  exists tr nfft Pxx sens,
    data self = Some tr
    /\ psd_nfft (stats_sampling_rate tr) L interpolate = Returned nfft
    /\ welch (tr_data tr) (stats_sampling_rate tr) win L
         (py_int (inject_Z (Z.of_nat L) * overlap)) nfft avg_method
       = Returned (psd_freq psd, Pxx)
    /\ Z.of_nat (length Pxx) = (Z.quot nfft 2 + 1)%Z
    /\ length sens = length Pxx
    /\ ((scale = "log"%string /\ psd_values psd = level_dB Pxx sens)
        \/ (scale = "lin"%string /\ psd_values psd = level_lin Pxx sens)).
Proof.
  intros Hr. unfold compute_psd_welch.
  destruct (data self) as [tr|]; [|discriminate].
  destruct (psd_nfft _ L interpolate) as [nfft|] eqn:Hn; cbn [lift and_then];
    [|discriminate].
  destruct (welch _ _ _ _ _ _ _) as [[f Pxx]|] eqn:Hw; cbn [lift and_then];
    [|discriminate].
  destruct (Z.eqb_spec (Z.of_nat (length Pxx)) (Z.quot nfft 2 + 1))
    as [Hlen|]; cbn [negb]; [|discriminate].
  pose proof (psd_nfft_nonneg _ _ _ _ Hr Hn) as Hnn.
  assert (Hsens : length (_freq_dependent_sensitivity_correct spline self
                            (Z.to_nat (py_int (inject_Z nfft / 2 + 1))))
                  = length Pxx).
  { unfold _freq_dependent_sensitivity_correct.
    rewrite length_map, linspace_length, half_plus_one by exact Hnn. lia. }
  destruct (String.eqb_spec scale "log") as [->|Hlog].
  - intros H. injection H as <-. cbn [psd_freq psd_values].
    exists tr, nfft, Pxx. eexists.
    split; [reflexivity|]. split; [exact Hn|]. split; [exact Hw|].
    split; [exact Hlen|]. split; [exact Hsens|]. left. now split.
  - destruct (String.eqb_spec scale "lin") as [->|Hlin]; [|discriminate].
    intros H. injection H as <-. cbn [psd_freq psd_values].
    exists tr, nfft, Pxx. eexists.
    split; [reflexivity|]. split; [exact Hn|]. split; [exact Hw|].
    split; [exact Hlen|]. split; [exact Hsens|]. right. now split.
Qed.

End PsdFacts.

(** ** Hydrophone_Xcorr *)

Lemma nd_reshape_rows (a : ndarray) (rows cols : nat) :
  len a = (rows * cols)%nat ->
  exists rs,
    nd_reshape a rows cols = Ok rs
    /\ length rs = rows
    /\ Forall (fun r => len r = cols) rs.
Proof.
  intros Hlen. unfold nd_reshape. rewrite Hlen, Nat.eqb_refl.
  eexists. split; [reflexivity|]. split.
  - now rewrite length_map, length_seq.
  - apply Forall_forall. intros r Hr. apply in_map_iff in Hr.
    destruct Hr as [i [<- Hi]]. apply in_seq in Hi.
    rewrite nd_slice_len; [nia|nia|rewrite Hlen; nia].
Qed.

Lemma nd_slice_short (a : ndarray) (n : nat) :
  (len a <= n)%nat -> len (nd_slice a 0 n) = len a.
Proof.
  intros H. destruct a; unfold nd_slice, py_slice, len in *;
    rewrite Nat.sub_0_r; cbn [skipn]; rewrite firstn_all2; lia.
Qed.

Lemma whole_windows (a w fs : nat) :
  (0 < w)%nat -> (a mod w = 0)%nat ->
  (a / w * (w * fs) = a * fs)%nat.
Proof.
  intros Hw Hmod.
  pose proof (Nat.div_mod a w ltac:(lia)) as H. rewrite Hmod in H.
  rewrite Nat.mul_assoc. f_equal. lia.
Qed.

Section XcorrFacts.

Variable acquire : bool -> Z -> Z -> outcome (option Trace).
Variable filter_bandpass : ndarray -> ndarray.
Variable V : Type.
Variable xcorr_over_avg_period : list ndarray -> list ndarray -> V.
Variable vadd : V -> V -> V.

(** X23. [get_audio] followed by [preprocess_audio], without filter:
    when the averaging time is a whole number of windows and both
    traces hold at least [avg_time*60*Fs] samples, the audio is cut to
    exactly that many samples and reshaped into [avg_time*60/W] rows of
    [W*Fs] samples each. *)
Theorem get_audio_then_preprocess (self : Hydrophone_Xcorr) (start : Z)
  (t1 t2 : Trace) :
  let n := (xc_avg_time self * 60 * xc_Fs self)%nat in
  let end_time := (start + Z.of_nat (xc_avg_time self) * 60 * 1000000)%Z in
  (0 < xc_W self)%nat ->
  ((xc_avg_time self * 60) mod xc_W self = 0)%nat ->
  xc_filter_data self = false ->
  acquire true start end_time = Returned (Some t1) ->
  acquire false start end_time = Returned (Some t2) ->
  (n <= len (tr_data t1))%nat ->
  (n <= len (tr_data t2))%nat ->
  exists h1 h2 r1 r2,
    get_audio acquire self start = Returned (Audio h1 h2 false)
    /\ len h1 = n /\ len h2 = n
    /\ preprocess_audio filter_bandpass self h1 h2 = Ok (r1, r2)
    /\ length r1 = (xc_avg_time self * 60 / xc_W self)%nat
    /\ length r2 = (xc_avg_time self * 60 / xc_W self)%nat
    /\ Forall (fun r => len r = (xc_W self * xc_Fs self)%nat) r1
    /\ Forall (fun r => len r = (xc_W self * xc_Fs self)%nat) r2.
Proof.
  intros n end_time HW Hmod Hfilter H1 H2 Hn1 Hn2.
  unfold get_audio, preprocess_audio.
  destruct (Nat.eqb_spec (xc_W self) 0) as [|_]; [lia|].
  rewrite Hmod, Nat.eqb_refl. cbn [negb]. fold end_time.
  rewrite H1, H2. cbn [bind]. fold n. rewrite Hfilter.
  assert (Hl1 : len (nd_slice (tr_data t1) 0 n) = n)
    by (rewrite nd_slice_len; lia).
  assert (Hl2 : len (nd_slice (tr_data t2) 0 n) = n)
    by (rewrite nd_slice_len; lia).
  pose proof (whole_windows _ _ (xc_Fs self) HW Hmod) as Hsize.
  fold n in Hsize.
  destruct (nd_reshape_rows (nd_slice (tr_data t1) 0 n)
              (xc_avg_time self * 60 / xc_W self)
              (xc_W self * xc_Fs self)) as [r1 [Hr1 [Hc1 Hf1]]]; [lia|].
  destruct (nd_reshape_rows (nd_slice (tr_data t2) 0 n)
              (xc_avg_time self * 60 / xc_W self)
              (xc_W self * xc_Fs self)) as [r2 [Hr2 [Hc2 Hf2]]]; [lia|].
  exists (nd_slice (tr_data t1) 0 n), (nd_slice (tr_data t2) 0 n), r1, r2.
  rewrite Hr1, Hr2. cbn [and_then]. repeat split; assumption.
Qed.

(** X24. A trace that ends early is not padded: if the first trace
    holds fewer than [avg_time*60*Fs] samples, [get_audio] hands it on
    as it is and [preprocess_audio] (without filter) raises the
    ValueError of [np.reshape]. *)
Theorem short_audio_cannot_be_reshaped (self : Hydrophone_Xcorr)
  (start : Z) (t1 t2 : Trace) :
  let n := (xc_avg_time self * 60 * xc_Fs self)%nat in
  let end_time := (start + Z.of_nat (xc_avg_time self) * 60 * 1000000)%Z in
  (0 < xc_W self)%nat ->
  ((xc_avg_time self * 60) mod xc_W self = 0)%nat ->
  xc_filter_data self = false ->
  acquire true start end_time = Returned (Some t1) ->
  acquire false start end_time = Returned (Some t2) ->
  (len (tr_data t1) < n)%nat ->
  exists h1 h2,
    get_audio acquire self start = Returned (Audio h1 h2 false)
    /\ len h1 = len (tr_data t1)
    /\ preprocess_audio filter_bandpass self h1 h2 = Fail ReshapeError.
Proof.
  intros n end_time HW Hmod Hfilter H1 H2 Hshort.
  unfold get_audio, preprocess_audio.
  destruct (Nat.eqb_spec (xc_W self) 0) as [|_]; [lia|].
  rewrite Hmod, Nat.eqb_refl. cbn [negb]. fold end_time.
  rewrite H1, H2. cbn [bind]. fold n. rewrite Hfilter.
  assert (Hl1 : len (nd_slice (tr_data t1) 0 n) = len (tr_data t1)).
  { apply nd_slice_short. lia. }
  exists (nd_slice (tr_data t1) 0 n), (nd_slice (tr_data t2) 0 n).
  split; [reflexivity|]. split; [exact Hl1|].
  pose proof (whole_windows _ _ (xc_Fs self) HW Hmod) as Hsize.
  fold n in Hsize. unfold nd_reshape. rewrite Hl1.
  destruct (Nat.eqb_spec (len (tr_data t1))
              (xc_avg_time self * 60 / xc_W self
               * (xc_W self * xc_Fs self))) as [E|_]; [lia|].
  reflexivity.
Qed.

Lemma periods_loop_steady (self : Hydrophone_Xcorr) (ks : list nat) :
  (forall t, period_ok acquire filter_bandpass self t) ->
  forall p x,
    first_loop p = false ->
    xcorr p = Some x ->
    exists p' x',
      periods_loop acquire filter_bandpass V xcorr_over_avg_period vadd
        self ks p
      = Ok p'
      /\ xcorr p' = Some x'
      /\ requested p'
         = requested p
           ++ map (fun i => (start_time p
                             + Z.of_nat i
                               * (Z.of_nat (xc_avg_time self) * 60 * 1000000))%Z)
                (seq 0 (length ks)).
Proof.
  intros Hok. induction ks as [|k ks IH]; intros p x Hfirst Hx.
  - exists p, x. repeat split; [assumption|cbn; now rewrite app_nil_r].
  - cbn [periods_loop length].
    destruct (Hok (start_time p)) as [h1 [h2 [flag [hs [Ha Hp]]]]].
    rewrite Ha. cbn [lift and_then]. rewrite Hp. cbn [and_then].
    rewrite Hfirst, Hx.
    match goal with
    | |- exists _ _, periods_loop _ _ _ _ _ _ _ ?q = _ /\ _ =>
        destruct (IH q (vadd x (xcorr_over_avg_period (fst hs) (snd hs)))
                    eq_refl eq_refl) as [p' [x' [Hl [Hx' Hr]]]]
    end.
    exists p', x'. split; [exact Hl|]. split; [exact Hx'|].
    rewrite Hr. cbn [requested start_time]. rewrite <- app_assoc.
    f_equal. cbn [seq map app]. f_equal; [lia|].
    rewrite <- seq_shift, map_map. apply map_ext. intros i. lia.
Qed.

(** X25. [avg_over_mult_periods] asks for the first period twice. When
    every period goes through, the start times handed to [get_audio]
    in [num_periods] rounds are [start_time], then [start_time] again,
    then [start_time + avg_time], and so on: the start time moves on
    only from the second round, so the last of the periods asked for
    is [start_time + (num_periods - 2) * avg_time]. *)
Theorem avg_over_mult_periods_repeats_first (self : Hydrophone_Xcorr)
  (num_periods : nat) (start : Z) :
  (forall t, period_ok acquire filter_bandpass self t) ->
  (0 < num_periods)%nat ->
  exists x,
    avg_over_mult_periods acquire filter_bandpass V xcorr_over_avg_period vadd
      self num_periods start
    = Ok (x,
          start
          :: map (fun i => (start
                            + Z.of_nat i
                              * (Z.of_nat (xc_avg_time self) * 60 * 1000000))%Z)
               (seq 0 (num_periods - 1))).
Proof.
  intros Hok Hn. unfold avg_over_mult_periods.
  destruct num_periods as [|m]; [lia|].
  cbn [seq periods_loop start_time requested first_loop app].
  destruct (Hok start) as [h1 [h2 [flag [hs [Ha Hp]]]]].
  rewrite Ha. cbn [lift and_then]. rewrite Hp. cbn [and_then].
  match goal with
  | |- exists _, and_then (periods_loop _ _ _ _ _ _ ?ks ?q) _ = _ =>
      destruct (periods_loop_steady self ks Hok q
                  (xcorr_over_avg_period (fst hs) (snd hs))
                  eq_refl eq_refl) as [p' [x' [Hl [Hx' Hr]]]]
  end.
  exists x'. rewrite Hl. cbn [and_then]. rewrite Hx', Hr.
  cbn [requested start_time app]. rewrite length_seq.
  now replace (S m - 1)%nat with m by lia.
Qed.

Lemma periods_loop_stalls (self : Hydrophone_Xcorr) (ks : list nat) :
  forall p,
    get_audio acquire self (start_time p) = Returned Audio_no_data ->
    periods_loop acquire filter_bandpass V xcorr_over_avg_period vadd
      self ks p
    = Ok {| start_time := start_time p; first_loop := first_loop p;
            xcorr := xcorr p;
            requested := requested p ++ repeat (start_time p) (length ks) |}.
Proof.
  induction ks as [|k ks IH]; intros p Hno.
  - cbn. rewrite app_nil_r. now destruct p.
  - cbn [periods_loop length repeat]. rewrite Hno. cbn [lift and_then].
    rewrite IH by exact Hno. cbn [start_time first_loop xcorr requested].
    now rewrite <- app_assoc.
Qed.

(** X26. A period without data stalls [avg_over_mult_periods]. The
    round that gets [(None, None, None)] from [get_audio] leaves the
    start time as it is, so every later round asks for the same period
    again and nothing is added. If this happens in the first round,
    [xcorr] is never bound and the call raises UnboundLocalError. *)
Theorem avg_over_mult_periods_stalls (self : Hydrophone_Xcorr)
  (num_periods : nat) (start : Z) :
  get_audio acquire self start = Returned Audio_no_data ->
  (forall ks p,
     start_time p = start ->
     exists p',
       periods_loop acquire filter_bandpass V xcorr_over_avg_period vadd
         self ks p
       = Ok p'
       /\ xcorr p' = xcorr p
       /\ start_time p' = start
       /\ requested p' = requested p ++ repeat start (length ks))
  /\ avg_over_mult_periods acquire filter_bandpass V xcorr_over_avg_period
       vadd self num_periods start
     = Fail UnboundLocalError.
Proof.
  intros Hno. split.
  - intros ks p Hp. subst start. rewrite periods_loop_stalls by exact Hno.
    eexists. split; [reflexivity|]. repeat split.
  - unfold avg_over_mult_periods.
    rewrite periods_loop_stalls by exact Hno. reflexivity.
Qed.

End XcorrFacts.

Lemma Qle_bool_false (x y : Q) : Qle_bool x y = false -> y < x.
Proof.
  intros H. apply Qnot_le_lt. intros Hle. apply Qle_bool_iff in Hle.
  congruence.
Qed.

(** X27. [__get_antipode] for a longitude between -180 and 180
    degrees: the latitude changes sign, the longitude grows by 180 and
    lies between 0 and 360; the antipode of the antipode has the
    latitude of the point and its longitude, or its longitude plus 360
    (for a point at or west of Greenwich). *)
Theorem get_antipode_twice (lat lon : Q) :
  - (180) <= lon ->
  lon <= 180 ->
  let a := get_antipode (lat, lon) in
  let b := get_antipode a in
  fst a == - lat
  /\ snd a == lon + 180
  /\ 0 <= snd a /\ snd a <= 360
  /\ fst b == lat
  /\ ((0 < lon /\ snd b == lon) \/ (lon <= 0 /\ snd b == lon + 360)).
Proof.
  intros Hlo Hhi. cbv zeta. unfold get_antipode. cbn [fst snd].
  destruct (Qle_bool (lon + 180) 360) eqn:E1.
  2:{ apply Qle_bool_false in E1. exfalso. lra. }
  cbn [fst snd].
  split; [reflexivity|]. split; [reflexivity|].
  split; [lra|]. split; [lra|]. split; [ring|].
  destruct (Qle_bool (lon + 180 + 180) 360) eqn:E2.
  - apply Qle_bool_iff in E2. right. split; [lra|ring].
  - apply Qle_bool_false in E2. left. split; [lra|ring].
Qed.

(* ================================================================= *)
(** * The further properties at concrete inputs *)

(** Twelve samples, [L = 4]: the bins of blocks 0 and 1. *)
Lemma compute_spectrogram_all_or_none_witness :
  let tr := ramp_trace 0 12 in
  let self := loaded tr [] in
  exists sp,
    compute_spectrogram unit_periodogram plain_level flat_spline
      self "hann" 4
    = Returned (set_spectrogram self (Some sp))
    /\ time sp = [0; 4000000]%Z.
Proof.
  intros tr self.
  destruct (compute_spectrogram_all_or_none unit_periodogram plain_level
              flat_spline self tr "hann" 4 eq_refl ltac:(lia))
    as [Hgood _].
  destruct Hgood as [sp [Hrun [Htime _]]].
  - split; [vm_compute; lia|]. repeat constructor.
  - exists sp. split; [exact Hrun|]. rewrite Htime. reflexivity.
Defined.

(** A chunk of one block has no spectrogram, so the whole result is
    None. *)
Lemma compute_spectrogram_mp_all_or_none_witness :
  let segments := [ramp_trace 0 4; ramp_trace 4 2] in
  let self := loaded (ramp_trace 0 6) (map (fun s => [s]) segments) in
  compute_spectrogram_mp unit_periodogram plain_level flat_spline
    (fun t _ _ => t) 8 self None (Some 2%nat) "hann" 2
  = Returned (set_spectrogram self None).
Proof.
  intros segments self.
  apply (compute_spectrogram_mp_all_or_none unit_periodogram plain_level
           flat_spline (fun t _ _ => t) 8 self None (Some 2%nat) "hann" 2
           (map segment_object segments) eq_refl ltac:(discriminate)).
  right. exists (segment_object (ramp_trace 4 2)). split.
  - right. left. reflexivity.
  - intros sp H. vm_compute in H. discriminate.
Defined.

Lemma compute_spectrogram_mp_rows_witness :
  let segments := [ramp_trace 0 4; ramp_trace 4 4] in
  let self := loaded (ramp_trace 0 8) (map (fun s => [s]) segments) in
  exists self' sp,
    compute_spectrogram_mp unit_periodogram plain_level flat_spline
      (fun t _ _ => t) 8 self None (Some 2%nat) "hann" 2
    = Returned self'
    /\ spectrogram self' = Some sp
    /\ length (values sp) = length (time sp).
Proof.
  intros segments self. eexists. eexists.
  split; [vm_compute; reflexivity|]. split; [reflexivity|].
  apply (compute_spectrogram_mp_rows unit_periodogram plain_level flat_spline
           (fun t _ _ => t) 8 self _ None (Some 2%nat) "hann" 2 _
           eq_refl eq_refl).
Defined.

(** Five seconds in chunks of at most two: three chunks. *)
Lemma split_objects_tile_witness :
  let self := loaded (ramp_trace 0 5) [] in
  exists objs,
    split_objects (fun t _ _ => t) self 2 = Returned objs
    /\ map window objs
       = [(0, 1666667); (1666667, 3333333); (3333333, 5000000)]%Z.
Proof.
  intros self.
  destruct (split_objects_tile (fun t _ _ => t) self (ramp_trace 0 5) 2
              eq_refl eq_refl eq_refl) as [objs [Hrun _]].
  exists objs. split; [exact Hrun|].
  vm_compute in Hrun. injection Hrun as <-. reflexivity.
Defined.

Lemma merge_st_list_settled_witness :
  settled (in_gap_mode 5) (in_gap_mode 5, None).
Proof.
  apply (merge_st_list_settled merge_as_is slice_as_is filter_as_is
           (in_gap_mode 5) (in_gap_mode 5) [None] None None None eq_refl).
Defined.

Lemma zero_fill_needs_gap_witness :
  merge_st_list merge_as_is slice_as_is filter_as_is (in_gap_mode 2)
    [Some [ramp_trace 0 3]] None None
  = Raised AttributeError.
Proof.
  apply (zero_fill_needs_gap merge_as_is slice_as_is filter_as_is
           (in_gap_mode 2) [Some [ramp_trace 0 3]] None None
           [ramp_trace 0 3] [] (ramp_trace 0 3) _
           eq_refl eq_refl eq_refl eq_refl).
Defined.

(** Two processes over eight seconds, the second window lost. *)
Lemma lost_chunk_breaks_segmentation_witness :
  exists self' st,
    get_acoustic_data_mp merge_as_is filter_as_is first_window_worker 8
      (in_gap_mode 0) 0 8000000 (Some 2%nat) None None
    = Returned (self', Some st)
    /\ compute_spectrogram_mp unit_periodogram plain_level flat_spline
         (fun t _ _ => t) 8 self' None (Some 2%nat) "hann" 2
       = Raised IndexError.
Proof.
  eexists. eexists. split; [vm_compute; reflexivity|].
  eapply (lost_chunk_breaks_segmentation unit_periodogram plain_level
           flat_spline (fun t _ _ => t) merge_as_is filter_as_is
           first_window_worker 8 (in_gap_mode 0) _ 0 8000000 2 None None _
           [(0, 4000000); (4000000, 8000000)]%Z (4000000, 8000000)%Z
           "hann" 2).
  - vm_compute. reflexivity.
  - reflexivity.
  - right. left. reflexivity.
  - reflexivity.
Defined.

(** The first file of the window, at 00:00 on day one, cannot be
    read. *)
Lemma get_acoustic_data_first_file_broken_witness :
  get_acoustic_data five_minute_crawl read_nothing merge_as_is slice_as_is
    filter_as_is (in_gap_mode 0) 86410000000 86500000000 None None false
  = Fail UnboundLocalError.
Proof.
  eapply (get_acoustic_data_first_file_broken five_minute_crawl read_nothing
            merge_as_is slice_as_is filter_as_is (in_gap_mode 0) _
            86410000000 86500000000 None None false _ 0).
  - vm_compute. reflexivity.
  - cbn. lia.
  - reflexivity.
  - intros i H. lia.
  - reflexivity.
  - intros H. discriminate H.
Defined.



(** The files at 00:00 and 00:05 hold the window; the loop and the
    list of the concurrent method read the same two. *)
Lemma read_loop_agrees_with_conc_witness :
  let self := set_window (in_gap_mode 0) 86410000000 86800000000 in
  let l := five_minute_listing 86400000000 in
  exists r,
    read_loop read_ramp self false l (seq 0 3) reading0 = Ok r
    /\ st_all r = Some [ramp_trace 86400 4; ramp_trace 86700 4].
Proof.
  intros self l.
  destruct (read_loop_agrees_with_conc read_ramp self l
              (fun u => [ramp_trace (utc u / 1000000) 4])
              ltac:(intros u; reflexivity) ltac:(intros u; discriminate)
              eq_refl eq_refl)
    as [r [Hrun Hall]].
  exists r. split; [exact Hrun|]. rewrite Hall. reflexivity.
Defined.

Lemma get_acoustic_data_conc_urls_spec_witness :
  get_acoustic_data_conc_urls five_minute_listing
    86410000000 86500000000 true
  = Returned [mseed 86100000000; mseed 86400000000; mseed 86700000000;
              mseed 86400000000; mseed 87000000000].
Proof.
  exact (get_acoustic_data_conc_urls_spec five_minute_listing
           86410000000 86500000000 true (mseed 86100000000)
           (mseed 86400000000) [mseed 86700000000; mseed 87000000000]
           eq_refl eq_refl).
Defined.

Lemma get_acoustic_data_conc_urls_empty_listing_witness :
  get_acoustic_data_conc_urls (fun _ => []) 86410000000 86500000000 false
  = Raised IndexError.
Proof.
  apply (get_acoustic_data_conc_urls_empty_listing (fun _ => [])
           86410000000 86500000000 false).
  left. reflexivity.
Defined.

(** Four files five minutes apart, the window inside the second. *)
Lemma valid_data_url_list_padded_witness :
  let self := set_window (in_gap_mode 0) 310000000 590000000 in
  let l := [mseed 0; mseed 300000000; mseed 600000000; mseed 900000000] in
  valid_data_url_list self true l
  = [mseed 0; mseed 300000000; mseed 600000000].
Proof.
  intros self l.
  apply (valid_data_url_list_padded self l 1 2).
  - lia.
  - cbn. lia.
  - intros i H. assert (Hi : i = 0%nat) by lia. rewrite Hi. reflexivity.
  - intros i H. assert (Hi : i = 1%nat) by lia. rewrite Hi. reflexivity.
  - intros _. reflexivity.
Defined.

Lemma get_acoustic_data_conc_empty_window_witness :
  get_acoustic_data_conc merge_as_is slice_as_is filter_as_is read_ramp
    (fun done => done) five_minute_listing
    (in_gap_mode 0) 172800000001 173400000000 None None false
  = Raised AttributeError.
Proof.
  apply (get_acoustic_data_conc_empty_window merge_as_is slice_as_is
           filter_as_is read_ramp (fun done => done) five_minute_listing
           (in_gap_mode 0) 172800000001 173400000000 None None false
           [mseed 258900000000]).
  - reflexivity.
  - intros i H. assert (Hi : i = 0%nat) by (cbn in H; lia).
    rewrite Hi. reflexivity.
  - reflexivity.
  - left. reflexivity.
Defined.

Lemma get_acoustic_data_urls_mseed_witness :
  Forall (fun u => suffix u = "mseed"%string)
    (five_minute_listing 86400000000).
Proof.
  apply (get_acoustic_data_urls_mseed five_minute_crawl (in_gap_mode 0)
           (set_data_gap
              (set_window (in_gap_mode 0) 86410000000 86500000000) false)
           86410000000 86500000000 false (five_minute_listing 86400000000)).
  vm_compute. reflexivity.
Defined.

Lemma valid_data_url_list_unpadded_witness :
  let self := set_window (in_gap_mode 0) 86410000000 86800000000 in
  valid_data_url_list self false (five_minute_listing 86400000000)
  = [mseed 86400000000; mseed 86700000000].
Proof.
  intros self.
  destruct (valid_data_url_list_unpadded self
              (five_minute_listing 86400000000) eq_refl eq_refl)
    as [Hlist _].
  rewrite Hlist. reflexivity.
Defined.

Lemma unit_welch_bins (fs : Q) (win : string) (L : nat) (overlap : Q) :
  welch_bins unit_welch fs win L overlap.
Proof.
  intros x _. eexists. eexists. split; [reflexivity|].
  cbn [snd]. now rewrite repeat_length, Nat2Z.id.
Qed.

(** Eight samples at 1 Hz in steps of four seconds. *)
Lemma compute_spectrogram_avg_blocks_witness :
  let self := loaded (ramp_trace 0 8) [] in
  exists sp,
    compute_spectrogram_avg unit_welch plain_level flat_spline
      self "hann" 2 4 (1 # 2)
    = Returned (set_spectrogram self (Some sp))
    /\ time sp = [0; 4000000]%Z.
Proof.
  intros self.
  destruct (compute_spectrogram_avg_blocks unit_welch plain_level flat_spline
              self (ramp_trace 0 8) "hann" 2 4 2 4 (1 # 2)
              eq_refl ltac:(reflexivity) ltac:(lia) ltac:(lia) ltac:(lia)
              eq_refl (unit_welch_bins _ _ _ _))
    as [sp [Hrun [Htime _]]].
  exists sp. split; [exact Hrun|]. rewrite Htime. reflexivity.
Defined.

(** 64 kHz, blocks of 4096 samples, 1 Hz asked for. *)
Lemma psd_nfft_at_least_L_witness :
  exists nfft,
    psd_nfft 64000 4096 (Some 1) = Returned nfft /\ (4096 <= nfft)%Z.
Proof.
  destruct (psd_nfft_at_least_L 64000 4096 1 ltac:(reflexivity)
              ltac:(lia))
    as [nfft [Hrun [Hle _]]].
  exists nfft. split; [exact Hrun | exact Hle].
Defined.

Lemma compute_psd_welch_stores_witness :
  let self := loaded (ramp_trace 0 8) [] in
  exists psd Pxx,
    compute_psd_welch unit_welch plain_level plain_level flat_spline
      self "hann" 4 (1 # 2) "median" None "log"
    = Ok (Some psd)
    /\ unit_welch (tr_data (ramp_trace 0 8)) 1 "hann" 4 2 4 "median"
       = Returned (psd_freq psd, Pxx)
    /\ Z.of_nat (length Pxx) = 3%Z.
Proof.
  intros self.
  assert (Hsome :
    exists psd,
      compute_psd_welch unit_welch plain_level plain_level flat_spline
        self "hann" 4 (1 # 2) "median" None "log"
      = Ok (Some psd))
    by (eexists; vm_compute; reflexivity).
  destruct Hsome as [psd Hrun].
  destruct (compute_psd_welch_stores unit_welch plain_level plain_level
              flat_spline self "hann" 4 (1 # 2) "median" None "log" psd
              ltac:(intros r H; discriminate H) Hrun)
    as [tr [nfft [Pxx [sens [Hdata [Hn [Hw [Hlen _]]]]]]]].
  injection Hdata as <-. injection Hn as <-.
  exists psd, Pxx. split; [exact Hrun|]. split; [exact Hw | exact Hlen].
Defined.

(** One minute at 2 Hz in two windows of 30 s. *)
Lemma get_audio_then_preprocess_witness :
  exists h1 h2 r1 r2,
    get_audio (acquire_ramp 120) one_minute 0 = Returned (Audio h1 h2 false)
    /\ preprocess_audio (fun a => a) one_minute h1 h2 = Ok (r1, r2)
    /\ length r1 = 2%nat
    /\ Forall (fun r => len r = 60%nat) r1.
Proof.
  destruct (get_audio_then_preprocess (acquire_ramp 120) (fun a => a)
              one_minute 0 (ramp_trace 0 120) (ramp_trace 0 120)
              ltac:(cbn; lia) eq_refl eq_refl eq_refl eq_refl
              ltac:(vm_compute; lia) ltac:(vm_compute; lia))
    as [h1 [h2 [r1 [r2 [Hget [_ [_ [Hpre [Hrows [_ [Hcols _]]]]]]]]]]].
  exists h1, h2, r1, r2.
  split; [exact Hget|]. split; [exact Hpre|].
  split; [exact Hrows | exact Hcols].
Defined.

(** Node 1 delivers 100 of the 120 samples. *)
Lemma short_audio_cannot_be_reshaped_witness :
  exists h1 h2,
    get_audio (acquire_ramp 100) one_minute 0 = Returned (Audio h1 h2 false)
    /\ preprocess_audio (fun a => a) one_minute h1 h2 = Fail ReshapeError.
Proof.
  destruct (short_audio_cannot_be_reshaped (acquire_ramp 100) (fun a => a)
              one_minute 0 (ramp_trace 0 100) (ramp_trace 0 100)
              ltac:(cbn; lia) eq_refl eq_refl eq_refl eq_refl
              ltac:(vm_compute; lia))
    as [h1 [h2 [Hget [_ Hpre]]]].
  exists h1, h2. split; [exact Hget | exact Hpre].
Defined.

Lemma acquire_ramp_period_ok (t : Z) :
  period_ok (acquire_ramp 120) (fun a => a) one_minute t.
Proof.
  do 4 eexists. split; [reflexivity|]. vm_compute. reflexivity.
Qed.

(** Three periods from the epoch: the first minute is asked for
    twice and the third never. *)
Lemma avg_over_mult_periods_repeats_first_witness :
  exists x,
    avg_over_mult_periods (acquire_ramp 120) (fun a => a) nat
      (fun _ _ => 1%nat) Nat.add one_minute 3 0
    = Ok (x, [0; 0; 60000000]%Z).
Proof.
  destruct (avg_over_mult_periods_repeats_first (acquire_ramp 120)
              (fun a => a) nat (fun _ _ => 1%nat) Nat.add one_minute 3 0
              acquire_ramp_period_ok ltac:(lia))
    as [x Hrun].
  exists x. exact Hrun.
Defined.

Lemma avg_over_mult_periods_stalls_witness :
  avg_over_mult_periods acquire_nothing (fun a => a) nat
    (fun _ _ => 1%nat) Nat.add one_minute 3 0
  = Fail UnboundLocalError.
Proof.
  apply (avg_over_mult_periods_stalls acquire_nothing (fun a => a) nat
           (fun _ _ => 1%nat) Nat.add one_minute 3 0 eq_refl).
Defined.

(** Axial Base Seamount, about 46 N 130 W. *)
Lemma get_antipode_twice_witness :
  snd (get_antipode (46, - (130))) == 50
  /\ snd (get_antipode (get_antipode (46, - (130)))) == 230.
Proof.
  destruct (get_antipode_twice 46 (- (130)) ltac:(vm_compute; discriminate)
              ltac:(vm_compute; discriminate))
    as [_ [Ha [_ [_ [_ [[Hpos _] | [_ Hb]]]]]]].
  - vm_compute in Hpos. discriminate.
  - split; [rewrite Ha | rewrite Hb]; reflexivity.
Defined.

(* ================================================================= *)
(** ** compute_psd_welch_mp *)

Lemma starmap_raising_Forall2 {A B : Type} (f : A -> raising B)
  (l : list A) (bs : list B) :
  Forall2 (fun a b => f a = Ok b) l bs -> starmap_raising f l = Ok bs.
Proof.
  induction 1 as [|a b l bs Hab _ IH]; cbn [starmap_raising];
    [reflexivity|].
  rewrite Hab. cbn [and_then]. rewrite IH. reflexivity.
Qed.

Lemma starmap_raising_Fail {A B : Type} (f : A -> raising B)
  (l : list A) (a : A) (e : error) :
  In a l -> f a = Fail e -> exists e', starmap_raising f l = Fail e'.
Proof.
  intros Hin Hfail. induction l as [|a0 l IH]; [contradiction|].
  cbn [starmap_raising]. destruct Hin as [->|Hin].
  - rewrite Hfail. eexists. reflexivity.
  - destruct (f a0); cbn [and_then]; [|eexists; reflexivity].
    destruct (IH Hin) as [e' ->]. eexists. reflexivity.
Qed.

Section PsdMpFacts.

Variable welch :
  ndarray -> Q -> string -> nat -> Z -> Z -> string
  -> outcome (list Q * list Q).
Variable level_dB : list Q -> list Q -> list Q.
Variable level_lin : list Q -> list Q -> list Q.
Variable spline : list Q -> list Q -> Q -> Q.
Variable Trace_slice : Trace -> Z -> Z -> Trace.
Variable cpu_count : nat.

(** X30. [compute_psd_welch_mp] swallows what [compute_psd_welch]
    raises. Once the chunk objects exist and [n_process] is not 0 the
    call returns: if [compute_psd_welch] returns for every chunk,
    [psd_list] holds one entry per chunk in chunk order, the PSD stored
    for that chunk (None for a chunk without result); if it raises for
    one chunk, a scale other than ["log"] and ["lin"] included,
    [psd_list] is None and nothing is raised. *)
Theorem compute_psd_welch_mp_all_or_none (self : OOIHydrophoneData)
  (split : psd_split) (n_process : option nat) (win : string) (L : nat)
  (overlap : Q) (avg_method : string) (interpolate : option Q)
  (scale : string) (objs : list OOIHydrophoneData) :
  psd_objects Trace_slice self split
    (match n_process with None => cpu_count | Some n => n end)
  = Returned objs ->
  n_process <> Some O ->
  let helper o :=
    _psd_mp_helper welch level_dB level_lin spline o win L overlap
      avg_method interpolate scale in
  let run :=
    compute_psd_welch_mp welch level_dB level_lin spline Trace_slice
      cpu_count self split n_process win L overlap avg_method interpolate
      scale in
  (forall psd_list,
     Forall2 (fun o p => helper o = Ok p) objs psd_list ->
     run = Ok (Some psd_list))
  /\ ((exists o e, In o objs /\ helper o = Fail e) -> run = Ok None).
Proof.
  intros Hobjs Hn helper run.
  assert (Hrun :
    run = match starmap_raising helper objs with
          | Ok psd_list => Ok (Some psd_list)
          | Fail _ => Ok None
          end).
  { unfold run, compute_psd_welch_mp. rewrite Hobjs. cbn [lift and_then].
    destruct n_process as [[|n]|]; [congruence|reflexivity|reflexivity]. }
  split.
  - intros psd_list Hall. rewrite Hrun.
    now rewrite (starmap_raising_Forall2 helper objs psd_list Hall).
  - intros [o [e [Hin Hfail]]]. rewrite Hrun.
    destruct (starmap_raising_Fail helper objs o e Hin Hfail) as [e' ->].
    reflexivity.
Qed.

End PsdMpFacts.

(** Two chunks of four samples and the scale ["dB"]. *)
Lemma compute_psd_welch_mp_all_or_none_witness :
  let segments := [ramp_trace 0 4; ramp_trace 4 4] in
  let self := loaded (ramp_trace 0 8) (map (fun s => [s]) segments) in
  compute_psd_welch_mp unit_welch plain_level plain_level flat_spline
    (fun t _ _ => t) 8 self Split_None (Some 2%nat) "hann" 2 (1 # 2)
    "median" None "dB"
  = Ok None.
Proof.
  intros segments self.
  apply (compute_psd_welch_mp_all_or_none unit_welch plain_level plain_level
           flat_spline (fun t _ _ => t) 8 self Split_None (Some 2%nat)
           "hann" 2 (1 # 2) "median" None "dB"
           (map segment_object segments) eq_refl ltac:(discriminate)).
  exists (segment_object (ramp_trace 0 4)), ScaleError.
  split; [left; reflexivity | vm_compute; reflexivity].
Defined.
